(** * BannedFiles.py: an NZBGet queue / post-processing hook

    A shallow embedding of [src/BannedFiles.py] and the properties of its
    file scanner, reorder advisor, gatekeeper and housekeeping.

    Text is modelled by [string]: a Python [str] whose code points are all
    below 256, one [ascii] per code point.  The process environment is a
    finite map, the file system is a finite map from directory paths to
    ordered listings, and the NZBGet host, with the client libraries in
    front of it, is a record of response functions.  Effects (standard
    output, file removal, remote calls, [sys.exit] and uncaught
    exceptions) are threaded through a state-and-outcome monad; standard
    output is kept as the list of [print] arguments, and read as lines
    where a statement is about what the host receives. *)

From stdpp Require Import gmap strings list pretty.
From Stdlib Require Import ZArith String Ascii Lia.

Open Scope string_scope.
Open Scope list_scope.
Open Scope Z_scope.

(** ** Python built-ins used by the script *)

Module Py.

Definition chars : string -> list ascii := list_ascii_of_string.
Definition text : list ascii -> string := string_of_list_ascii.

(** [s.replace(' ', '')] *)
Definition remove_spaces (s : string) : string :=
  text (List.filter (fun c => negb (Ascii.eqb c " ")) (chars s)).

(** [s.split(sep)] for a one-character separator: never the empty list. *)
Fixpoint split_go (sep : ascii) (cur : list ascii) (cs : list ascii) : list string :=
  match cs with
  | [] => [text (rev cur)]
  | c :: r =>
      if Ascii.eqb c sep then text (rev cur) :: split_go sep [] r
      else split_go sep (c :: cur) r
  end.

Definition split (sep : ascii) (s : string) : list string :=
  split_go sep [] (chars s).

(** [s.rfind(c)]: index of the last occurrence, [-1] when there is none. *)
Fixpoint rfind_go (c : ascii) (cs : list ascii) (i last : Z) : Z :=
  match cs with
  | [] => last
  | x :: r => rfind_go c r (i + 1) (if Ascii.eqb x c then i else last)
  end.

Definition rfind (c : ascii) (s : string) : Z := rfind_go c (chars s) 0 (-1).

(** [s[a:b]] for non-negative [a] and [b]. *)
Definition slice (s : string) (a b : nat) : string := substring a (b - a) s.

(** [s[a:]] for non-negative [a]. *)
Definition slice_from (s : string) (a : nat) : string :=
  substring a (String.length s - a) s.

(** [s.startswith(p)] *)
Definition startswith (s p : string) : bool := String.prefix p s.

(** [posixpath.splitext(p)[-1]]: the extension starts at the last dot,
    provided that dot comes after the last slash and is preceded, within
    the file name, by at least one character that is not a dot. *)
Definition splitext_ext (p : string) : string :=
  let sepIndex := rfind "/" p in
  let dotIndex := rfind "." p in
  if (sepIndex <? dotIndex)
     && existsb (fun c => negb (Ascii.eqb c "."))
          (chars (slice p (Z.to_nat (sepIndex + 1)) (Z.to_nat dotIndex)))
  then slice_from p (Z.to_nat dotIndex)
  else "".

(** The blanks [int] skips around a number: the ASCII white space (tab
    to carriage return, and the space) and, of the code points from 128
    to 255, the two that are Unicode white space.  The separators U+001C
    to U+001F are white space for [str.isspace] but not for [int], which
    raises on them. *)
Definition is_space (c : ascii) : bool :=
  let n := N_of_ascii c in
  ((9 <=? n) && (n <=? 13) || (n =? 32) || (n =? 133) || (n =? 160))%N.

Definition is_digit (c : ascii) : bool :=
  let n := N_of_ascii c in ((48 <=? n) && (n <=? 57))%N.

Definition digit_val (c : ascii) : N := (N_of_ascii c - 48)%N.

Fixpoint lstrip (cs : list ascii) : list ascii :=
  match cs with
  | c :: r => if is_space c then lstrip r else cs
  | [] => []
  end.

Definition strip (cs : list ascii) : list ascii := rev (lstrip (rev (lstrip cs))).

(** Decimal digits, single underscores allowed between two digits. *)
Fixpoint digits_go (acc : N) (after_digit : bool) (cs : list ascii) : option N :=
  match cs with
  | [] => if after_digit then Some acc else None
  | c :: r =>
      if is_digit c then digits_go (10 * acc + digit_val c)%N true r
      else if Ascii.eqb c "_" && after_digit then digits_go acc false r
      else None
  end.

(** [sys.int_max_str_digits], at its default: [int] refuses a string with
    more digits. *)
Definition int_max_str_digits : N := 4300.

(** The digits of a string, leading zeros included, underscores not. *)
Definition count_digits (cs : list ascii) : N :=
  N.of_nat (List.length (List.filter is_digit cs)).

(** [int(s)] in base ten; [None] stands for [ValueError]. *)
Definition int (s : string) : option Z :=
  match strip (chars s) with
  | c :: r =>
      if (int_max_str_digits <? count_digits (c :: r))%N then None
      else if Ascii.eqb c "-" then (fun n => - Z.of_N n) <$> digits_go 0 false r
      else if Ascii.eqb c "+" then Z.of_N <$> digits_go 0 false r
      else Z.of_N <$> digits_go 0 false (c :: r)
  | [] => None
  end.

(** [str(n)] of an integer. *)
Definition str (n : Z) : string := pretty n.

(** Lower-casing of the letters A to Z. *)
Definition lower (c : ascii) : ascii :=
  let n := N_of_ascii c in
  if ((65 <=? n) && (n <=? 90))%N then ascii_of_N (n + 32) else c.

Definition lower_str (s : string) : string := text (map lower (chars s)).

(** Line boundaries of [str.splitlines]. *)
Definition is_linebreak (c : ascii) : bool :=
  let n := N_of_ascii c in
  ((10 <=? n) && (n <=? 13) || (28 <=? n) && (n <=? 30) || (n =? 133))%N.

(** [s.splitlines()]: a carriage return followed by a line feed is one
    boundary, and a final line is produced only when it is not empty. *)
Fixpoint splitlines_go (cur : list ascii) (cs : list ascii) : list string :=
  match cs with
  | [] => match cur with [] => [] | _ => [text (rev cur)] end
  | c :: r =>
      if is_linebreak c then
        text (rev cur) ::
          match r with
          | c2 :: r2 =>
              if Ascii.eqb c "013" && Ascii.eqb c2 "010"
              then splitlines_go [] r2 else splitlines_go [] r
          | [] => splitlines_go [] r
          end
      else splitlines_go (c :: cur) r
  end.

Definition splitlines (s : string) : list string := splitlines_go [] (chars s).

End Py.

(** ** Split-archive file names

    [regex1 = re.compile(r'.*\.part(\d+)\.rar', re.IGNORECASE)] and
    [regex2 = re.compile(r'.*\.r(\d+)', re.IGNORECASE)], applied with
    [match]: anchored at the start of the name only, with a greedy [.*]
    that does not cross a line feed, so the last position at which the
    rest of the pattern matches wins.  The result is [group(1)]. *)

Module Regex.

(** A literal (given in lower case) matched without regard to case:
    returns what follows it. *)
Fixpoint literal (lit : list ascii) (cs : list ascii) : option (list ascii) :=
  match lit, cs with
  | [], _ => Some cs
  | l :: lit', c :: cs' =>
      if Ascii.eqb (Py.lower c) l then literal lit' cs' else None
  | _ :: _, [] => None
  end.

(** [(\d+)]: the longest run of digits, and what follows it. *)
Fixpoint digits (cs : list ascii) : list ascii * list ascii :=
  match cs with
  | c :: r =>
      if Py.is_digit c then let '(ds, rest) := digits r in (c :: ds, rest)
      else ([], cs)
  | [] => ([], [])
  end.

(** [\.part(\d+)\.rar] at the head of [cs]. *)
Definition part_rar_here (cs : list ascii) : option (list ascii) :=
  match literal (Py.chars ".part") cs with
  | Some rest =>
      match digits rest with
      | ([], _) => None
      | (ds, rest') =>
          match literal (Py.chars ".rar") rest' with
          | Some _ => Some ds
          | None => None
          end
      end
  | None => None
  end.

(** [\.r(\d+)] at the head of [cs]. *)
Definition r_here (cs : list ascii) : option (list ascii) :=
  match literal (Py.chars ".r") cs with
  | Some rest =>
      match digits rest with
      | ([], _) => None
      | (ds, _) => Some ds
      end
  | None => None
  end.

(** [.*] followed by [here]: later positions are tried first. *)
Fixpoint dotstar (here : list ascii -> option (list ascii)) (cs : list ascii)
  : option (list ascii) :=
  match cs with
  | [] => here []
  | c :: r =>
      match (if Ascii.eqb c "010" then None else dotstar here r) with
      | Some g => Some g
      | None => here cs
      end
  end.

Definition regex1 (name : string) : option string :=
  Py.text <$> dotstar part_rar_here (Py.chars name).

Definition regex2 (name : string) : option string :=
  Py.text <$> dotstar r_here (Py.chars name).

(** [regex1.match(name) or regex2.match(name)], then [group(1)]. *)
Definition volume_digits (name : string) : option string :=
  match regex1 name with
  | Some g => Some g
  | None => regex2 name
  end.

End Regex.

(** ** The world around one invocation *)

Inductive node_kind := RegularFile | SubDirectory | OtherNode.

(** One directory entry; [d_locked] entries cannot be unlinked (the
    operating system refuses). *)
Record dirent := Dirent { d_name : string; d_kind : node_kind; d_locked : bool }.

(** Listable directories by path, in enumeration order, and the other
    paths that exist (plain files, unreadable directories). *)
Record filesystem := Filesystem {
  fs_dirs : gmap string (list dirent);
  fs_others : gset string
}.

(** The two host requests of [callNzbget]. *)
Inductive query := listgroups | listfiles (nzb_id : Z).

(** What the client libraries and the NZBGet control endpoint do for this
    invocation.  [h_query q] is the body that [urlopen] and [read] give
    for the JSON-RPC request [q], [None] when they raise; when they
    raise, [h_url_refused url] says whether [urllib] gave up on the URL
    itself (no host, a port that is not a number, a control character)
    before anything was sent.  [h_proxy_refused url] says whether
    [ServerProxy(url)] raises ([urlsplit] refuses, for one, a network
    location with an unbalanced square bracket), and [h_editqueue ids]
    whether the [editqueue] call on the proxy succeeds. *)
Record host := Host {
  h_query : query -> option string;
  h_editqueue : list Z -> bool;
  h_url_refused : string -> bool;
  h_proxy_refused : string -> bool
}.

(** The remote calls that were made: a JSON-RPC request that [urllib]
    sent, and an [editqueue] call on a proxy. *)
Inductive rpc := Queried (q : query) | FileMoveTop (ids : list Z).

(** What an invocation changes: the file system, the [print] calls so far
    (oldest first) and the remote calls so far (oldest first). *)
Record state := State {
  st_fs : filesystem;
  st_out : list string;
  st_rpc : list rpc
}.

(** [InvalidURL] stands for what [urllib] raises on a URL it does not
    send, [HostError] for every failure of a remote call after that. *)
Inductive exn :=
| TypeError | KeyError (key : string) | ValueError | UnboundLocalError
| OSError | HostError | InvalidURL.

(** A statement returns, leaves through [sys.exit], or raises. *)
Inductive outcome (A : Type) :=
| Ret (a : A) | Exit (code : Z) | Raise (e : exn).
Arguments Ret {A} a.
Arguments Exit {A} code.
Arguments Raise {A} e.

Definition M (A : Type) : Type := state -> outcome A * state.

Definition ret {A} (a : A) : M A := fun s => (Ret a, s).

Definition bind {A B} (m : M A) (k : A -> M B) : M B :=
  fun s =>
    match m s with
    | (Ret a, s') => k a s'
    | (Exit c, s') => (Exit c, s')
    | (Raise e, s') => (Raise e, s')
    end.

Declare Scope script_scope.
Delimit Scope script_scope with script.
Notation "x <- m ;; k" := (bind m (fun x => k))
  (at level 100, m at next level, right associativity) : script_scope.
Notation "m ;; k" := (bind m (fun _ => k))
  (at level 100, right associativity) : script_scope.
Open Scope script_scope.

Definition raise {A} (e : exn) : M A := fun s => (Raise e, s).
Definition sys_exit {A} (code : Z) : M A := fun s => (Exit code, s).

(** A pure computation that may raise. *)
Definition lift {A} (o : outcome A) : M A := fun s => (o, s).

Definition get_fs : M filesystem := fun s => (Ret (st_fs s), s).

Definition print (line : string) : M unit :=
  fun s => (Ret tt, State (st_fs s) (st_out s ++ [line]) (st_rpc s)).

Definition record_rpc (r : rpc) : M unit :=
  fun s => (Ret tt, State (st_fs s) (st_out s) (st_rpc s ++ [r])).

(** [try: body except: handler] with a bare [except], which also catches
    [SystemExit]. *)
Definition try_except (body handler : M unit) : M unit :=
  fun s =>
    match body s with
    | (Ret a, s') => (Ret a, s')
    | (_, s') => handler s'
    end.

Fixpoint for_each {A} (l : list A) (body : A -> M unit) : M unit :=
  match l with
  | [] => ret tt
  | x :: r => body x ;; for_each r body
  end.

(** *** File-system primitives *)

(** [os.listdir(dir)] *)
Definition fs_listdir (fs : filesystem) (dir : string) : option (list string) :=
  map d_name <$> fs_dirs fs !! dir.

Definition find_entry (name : string) (es : list dirent) : option dirent :=
  List.find (fun e => String.eqb (d_name e) name) es.

(** [os.path.isfile(os.path.join(dir, o))] for an entry name [o]. *)
Definition fs_isfile (fs : filesystem) (dir o : string) : bool :=
  match fs_dirs fs !! dir with
  | Some es =>
      match find_entry o es with
      | Some (Dirent _ RegularFile _) => true
      | _ => false
      end
  | None => false
  end.

(** [os.path.exists(p)] *)
Definition fs_exists (fs : filesystem) (p : string) : bool :=
  bool_decide (is_Some (fs_dirs fs !! p)) || bool_decide (p ∈ fs_others fs).

Definition removable (e : dirent) : bool :=
  match d_kind e with
  | SubDirectory => false
  | _ => negb (d_locked e)
  end.

Definition drop_entry (name : string) (es : list dirent) : list dirent :=
  List.filter (fun e => negb (String.eqb (d_name e) name)) es.

(** [os.remove(dir + '/' + name)]: the new file system, or [None] for
    [OSError]. *)
Definition fs_remove (fs : filesystem) (dir name : string) : option filesystem :=
  match fs_dirs fs !! dir with
  | Some es =>
      match find_entry name es with
      | Some e =>
          if removable e
          then Some (Filesystem (<[dir := drop_entry name es]> (fs_dirs fs)) (fs_others fs))
          else None
      | None => None
      end
  | None => None
  end.

Definition os_listdir (dir : string) : M (list string) :=
  fun s =>
    match fs_listdir (st_fs s) dir with
    | Some names => (Ret names, s)
    | None => (Raise OSError, s)
    end.

Definition os_remove (dir name : string) : M unit :=
  fun s =>
    match fs_remove (st_fs s) dir name with
    | Some fs' => (Ret tt, State fs' (st_out s) (st_rpc s))
    | None => (Raise OSError, s)
    end.

(** ** The script *)

Definition POSTPROCESS_SUCCESS : Z := 93.
Definition POSTPROCESS_NONE : Z := 95.
Definition POSTPROCESS_ERROR : Z := 94.

(** The double-quote character, as a one-character string. *)
Definition dq : string := String "034" "".

Definition nzbid_key : string := dq +:+ "NZBID" +:+ dq +:+ " : ".
Definition id_key : string := dq +:+ "ID" +:+ dq +:+ " : ".
Definition filename_key : string := dq +:+ "Filename" +:+ dq +:+ " : " +:+ dq.

(** [if host == '0.0.0.0': host = '127.0.0.1'] *)
Definition local_host (ip : string) : string :=
  if String.eqb ip "0.0.0.0" then "127.0.0.1" else ip.

(** The two values of [url_command]. *)
Definition command_text (q : query) : string :=
  match q with
  | listgroups => "listgroups?1=0"
  | listfiles nzb_id => "listfiles?1=0&2=0&3=" +:+ Py.str nzb_id
  end.

(** ['http://%s:%s/jsonrpc/%s' % (host, port, url_command)] *)
Definition httpUrl (ip port : string) (q : query) : string :=
  "http://" +:+ ip +:+ ":" +:+ port +:+ "/jsonrpc/" +:+ command_text q.

(** ['http://%s:%s@%s:%s/xmlrpc' % (username, password, host, port)] *)
Definition xmlRpcUrl (username password ip port : string) : string :=
  "http://" +:+ username +:+ ":" +:+ password +:+ "@" +:+ ip +:+ ":" +:+ port
  +:+ "/xmlrpc".

(** The loop of [cleanUp] over the lines of the [listgroups] answer. *)
Fixpoint parse_nzbids (lines : list string) (nzbids : list string)
  : outcome (list string) :=
  match lines with
  | [] => Ret nzbids
  | line :: rest =>
      if Py.startswith line nzbid_key then
        match Py.int (Py.slice line 10 (String.length line - 1)) with
        | Some cur_id => parse_nzbids rest (nzbids ++ [Py.str cur_id])
        | None => Raise ValueError
        end
      else parse_nzbids rest nzbids
  end.

(** The local variables of the loop of [sort_inner_files]; [None] is an
    unbound [cur_id], and Python's [None] for the other three. *)
Record selection := Selection {
  cur_id : option Z;
  file_num : option Z;
  file_id : option Z;
  file_name : option string
}.

Definition no_selection : selection := Selection None None None None.

(** Truth value of an integer-or-[None]. *)
Definition truthy (n : option Z) : bool :=
  match n with
  | Some v => negb (v =? 0)
  | None => false
  end.

(** [not file_num or cur_num > file_num] *)
Definition better (cur_num : Z) (num : option Z) : bool :=
  negb (truthy num) || match num with Some f => f <? cur_num | None => false end.

(** What the loop of [sort_inner_files] does with a [Filename] line once
    [cur_name] is known. *)
Definition consider (cur_name : string) (s : selection) : outcome selection :=
  match Regex.volume_digits cur_name with
  | Some g =>
      match Py.int g with
      | Some cur_num =>
          if better cur_num (file_num s) then
            match cur_id s with
            | Some i =>
                Ret (Selection (Some i) (Some cur_num) (Some i) (Some cur_name))
            | None => Raise UnboundLocalError
            end
          else Ret s
      | None => Raise ValueError
      end
  | None => Ret s
  end.

(** One iteration of the loop of [sort_inner_files]. *)
Definition scan_line (line : string) (s : selection) : outcome selection :=
  match
    (if Py.startswith line id_key then
       match Py.int (Py.slice line 7 (String.length line - 1)) with
       | Some n => Ret (Selection (Some n) (file_num s) (file_id s) (file_name s))
       | None => Raise ValueError
       end
     else Ret s)
  with
  | Ret s1 =>
      if Py.startswith line filename_key
      then consider (Py.slice line 14 (String.length line - 2)) s1
      else Ret s1
  | other => other
  end.

Fixpoint scan_lines (lines : list string) (s : selection) : outcome selection :=
  match lines with
  | [] => Ret s
  | line :: rest =>
      match scan_line line s with
      | Ret s' => scan_lines rest s'
      | other => other
      end
  end.

Section Script.

(** [os.environ] and the host behind [NZBOP_CONTROLIP]. *)
Variable environ : gmap string string.
Variable nzbget : host.

(** [os.environ.get(k)] *)
Definition getenv (k : string) : option string := environ !! k.

(** [k in os.environ] *)
Definition in_environ (k : string) : bool := bool_decide (is_Some (environ !! k)).

(** [os.environ[k]] *)
Definition environ_item (k : string) : M string :=
  match environ !! k with
  | Some v => ret v
  | None => raise (KeyError k)
  end.

(** [os.environ.get(k) == v] *)
Definition getenv_is (k v : string) : bool := bool_decide (getenv k = Some v).

Definition bannedExtensions : list string :=
  Py.split "," (Py.remove_spaces (default "" (getenv "NZBPO_BANNEDEXTENSIONS"))).

Definition callNzbget (url_command : query) : M string :=
  ip <- environ_item "NZBOP_CONTROLIP" ;;
  port <- environ_item "NZBOP_CONTROLPORT" ;;
  _ <- environ_item "NZBOP_CONTROLUSERNAME" ;;
  _ <- environ_item "NZBOP_CONTROLPASSWORD" ;;
  match h_query nzbget url_command with
  | Some data => record_rpc (Queried url_command) ;; ret data
  | None =>
      if h_url_refused nzbget (httpUrl (local_host ip) port url_command)
      then raise InvalidURL
      else record_rpc (Queried url_command) ;; raise HostError
  end.

Definition connectNzbget : M unit :=
  ip <- environ_item "NZBOP_CONTROLIP" ;;
  port <- environ_item "NZBOP_CONTROLPORT" ;;
  username <- environ_item "NZBOP_CONTROLUSERNAME" ;;
  password <- environ_item "NZBOP_CONTROLPASSWORD" ;;
  if h_proxy_refused nzbget (xmlRpcUrl username password (local_host ip) port)
  then raise ValueError
  else ret tt.

(** [nzbget.editqueue('FileMoveTop', 0, '', ids)] *)
Definition editqueue_FileMoveTop (ids : list Z) : M unit :=
  record_rpc (FileMoveTop ids) ;;
  if h_editqueue nzbget ids then ret tt else raise HostError.

(** The body of the last loop of [cleanUp]. *)
Definition remove_temp (temp_folder temp_id : string) : M unit :=
  let temp_file := temp_folder +:+ "/" +:+ temp_id in
  try_except
    (print ("[DETAIL] Removing temp file " +:+ temp_file) ;;
     os_remove temp_folder temp_id)
    (print ("[ERROR] Could not remove temp file " +:+ temp_file)).

(** [list(set(files) - set(nzbids))], then the current id appended when
    it names a marker that is not already listed. *)
Definition old_temp_files (nzb_id : option string) (files nzbids : list string)
  : list string :=
  let old := elements ((list_to_set files : gset string) ∖ list_to_set nzbids) in
  match nzb_id with
  | Some i =>
      if bool_decide (i ∈ files) && negb (bool_decide (i ∈ old))
      then old ++ [i] else old
  | None => old
  end.

Definition cleanUp : M unit :=
  let nzb_id := getenv "NZBPP_NZBID" in
  temp_folder <- match getenv "NZBOP_TEMPDIR" with
                 | Some t => ret (t +:+ "/BannedFiles")
                 | None => raise TypeError
                 end ;;
  files <- os_listdir temp_folder ;;
  nzbids <- (if (1 <? List.length files)%nat then
               data <- callNzbget listgroups ;;
               lift (parse_nzbids (Py.splitlines data) [])
             else ret []) ;;
  for_each (old_temp_files nzb_id files nzbids) (remove_temp temp_folder).

Definition known_event (e : option string) : bool :=
  bool_decide (e ∈ [Some "NZB_ADDED"; Some "FILE_DOWNLOADED";
                    Some "NZB_DOWNLOADED"; None]).

Definition startCheck : M unit :=
  (if negb (in_environ "NZBNA_EVENT" || in_environ "NZBPP_DIRECTORY")
      || negb (in_environ "NZBOP_ARTICLECACHE")
   then
     print "*** NZBGet queue script ***" ;;
     print "This script is supposed to be called from nzbget (14.0 or later)." ;;
     sys_exit 1
   else ret tt) ;;
  (if negb (known_event (getenv "NZBNA_EVENT")) then sys_exit 0 else ret tt) ;;
  (if getenv_is "NZBPP_STATUS" "FAILURE/BAD" then
     (if getenv_is "NZBPR_PPSTATUS_BANNED" "yes" then
        match getenv "NZBPR_PPSTATUS_BANNEDFILE" with
        | Some f => print ("[WARNING] Download contains banned extension " +:+ f)
        | None => raise TypeError
        end
      else ret tt) ;;
     cleanUp ;;
     sys_exit POSTPROCESS_SUCCESS
   else ret tt) ;;
  (match getenv "NZBPP_DIRECTORY" with
   | Some directory =>
       fs <- get_fs ;;
       if negb (fs_exists fs directory) then
         print "Destination directory doesn't exist, exiting" ;;
         cleanUp ;;
         sys_exit POSTPROCESS_NONE
       else ret tt
   | None => ret tt
   end) ;;
  (if getenv_is "NZBPP_TOTALSTATUS" "FAILURE" then
     cleanUp ;;
     sys_exit POSTPROCESS_NONE
   else ret tt).

(** The loop of [detectBannedFile]. *)
Fixpoint detect_loop (fileList : list string) : M (option string) :=
  match fileList with
  | [] => ret None
  | item :: rest =>
      if bool_decide (Py.splitext_ext item ∈ bannedExtensions) then
        print ("[INFO] Found file with banned extension: " +:+ item) ;;
        print ("[NZB] NZBPR_PPSTATUS_BANNEDFILE=" +:+ item) ;;
        ret (Some item)
      else detect_loop rest
  end.

Definition detectBannedFile (dir : string) : M (option string) :=
  names <- os_listdir dir ;;
  fs <- get_fs ;;
  let fileList := List.filter (fun o => fs_isfile fs dir o) names in
  detect_loop fileList.

Definition sort_inner_files : M unit :=
  nzb_id <- match getenv "NZBNA_NZBID" with
            | Some v =>
                match Py.int v with
                | Some n => ret n
                | None => raise ValueError
                end
            | None => raise TypeError
            end ;;
  data <- callNzbget (listfiles nzb_id) ;;
  sel <- lift (scan_lines (Py.splitlines data) no_selection) ;;
  if truthy (file_id sel) then
    print ("[INFO] Moving last rar-file to the top: "
           +:+ default "None" (file_name sel)) ;;
    connectNzbget ;;
    editqueue_FileMoveTop [default 0 (file_id sel)]
  else
    print "[INFO] Skipping sorting since could not find any rar-files".

(** The condition under which [main] calls [sort_inner_files]. *)
Definition reorder_trigger : bool :=
  getenv_is "NZBNA_EVENT" "NZB_ADDED"
  || (getenv_is "NZBNA_EVENT" "FILE_DOWNLOADED"
      && negb (getenv_is "NZBPR_BANNEDFILES_SORTED" "yes")).

(** Truth value of the result of [detectBannedFile]. *)
Definition found_banned (r : option string) : bool :=
  match r with
  | Some item => negb (String.eqb item "")
  | None => false
  end.

(** Lines 235 to 243 of [main]: the reorder advisor and its flag. *)
Definition reorder_block (NzbName : string) : M unit :=
  if reorder_trigger then
    print ("[INFO] Sorting inner files for earlier file detection in " +:+ NzbName) ;;
    sort_inner_files ;;
    print "[NZB] NZBPR_BANNEDFILES_SORTED=yes" ;;
    if getenv_is "NZBNA_EVENT" "NZB_ADDED" then sys_exit POSTPROCESS_NONE else ret tt
  else ret tt.

(** Lines 245 to 277 of [main]: the scan, its verdict, and the
    housekeeping of a post-processing call. *)
Definition scan_block (Prefix Directory NzbName : string) : M unit :=
  print ("[INFO] Detecting banned files in " +:+ NzbName) ;;
  found <- detectBannedFile Directory ;;
  (if found_banned found then
     print "[NZB] NZBPR_PPSTATUS_BANNED=yes" ;;
     print "[NZB] MARK=BAD"
   else
     print ("[INFO] No Banned files detected in " +:+ NzbName +:+ " yet") ;;
     if getenv_is "NZBPR_PPSTATUS_BANNED" "yes"
     then print "[NZB] NZBPR_PPSTATUS_BANNED=" else ret tt) ;;
  print ("[DETAIL] Detecting banned files completed for " +:+ NzbName) ;;
  if String.eqb Prefix "NZBPP_" then cleanUp else ret tt.

(** [Prefix] of [main]. *)
Definition Prefix : string :=
  if in_environ "NZBNA_EVENT" then "NZBNA_" else "NZBPP_".

Definition main : M unit :=
  startCheck ;;
  Directory <- environ_item (Prefix +:+ "DIRECTORY") ;;
  NzbName <- environ_item (Prefix +:+ "NZBNAME") ;;
  reorder_block NzbName ;;
  scan_block Prefix Directory NzbName.

(** The module body: [main()] and then [sys.exit(POSTPROCESS_SUCCESS)]. *)
Definition script : M unit := main ;; sys_exit POSTPROCESS_SUCCESS.

End Script.

(** ** Derived notions used by the statements *)

(** The file system only loses entries: the same paths exist, and every
    directory lists a sublist of what it listed before. *)
Definition fs_shrinks (fs fs' : filesystem) : Prop :=
  fs_others fs' = fs_others fs /\
  forall dir : string,
    match fs_dirs fs' !! dir with
    | Some es' => exists es, fs_dirs fs !! dir = Some es /\ sublist es' es
    | None => fs_dirs fs !! dir = None
    end.

(** The [print] calls made between two states. *)
Definition new_output (st st' : state) : list string :=
  drop (List.length (st_out st)) (st_out st').

(** The remote calls made between two states. *)
Definition new_rpc (st st' : state) : list rpc :=
  drop (List.length (st_rpc st)) (st_rpc st').

(** [st'] is reachable from [st] by removing files and printing lines that
    satisfy [P]. *)
Definition extends (P : string -> Prop) (st st' : state) : Prop :=
  fs_shrinks (st_fs st) (st_fs st') /\
  exists new, st_out st' = st_out st ++ new /\ Forall P new.

(** Every run of [m] extends the state it starts from. *)
Definition respects (P : string -> Prop) {A} (m : M A) : Prop :=
  forall st, extends P st (m st).2.

(** The sentinel that clears the persisted verdict. *)
Definition clear_sentinel : string := "[NZB] NZBPR_PPSTATUS_BANNED=".

(** The sentinel that records that the reorder was attempted. *)
Definition sorted_sentinel : string := "[NZB] NZBPR_BANNEDFILES_SORTED=yes".

(** The marker directory of [cleanUp]. *)
Definition marker_dir (tempdir : string) : string := tempdir +:+ "/BannedFiles".

(** Whether [os.remove] succeeds on the entry called [name]. *)
Definition can_unlink (es : list dirent) (name : string) : bool :=
  match find_entry name es with
  | Some e => removable e
  | None => false
  end.

(** [int(match.group(1))] of a file name, when one of the two patterns
    matches. *)
Definition volume_number (name : string) : option Z :=
  match Regex.volume_digits name with
  | Some g => Py.int g
  | None => None
  end.

(** The entries of a file listing as the loop of [sort_inner_files] reads
    them: every [Filename] line with the value of the last [ID] line at or
    before it ([None] when there is none, or when it is not a number). *)
Fixpoint entries (cur : option Z) (lines : list string) : list (option Z * string) :=
  match lines with
  | [] => []
  | line :: rest =>
      let cur' :=
        if Py.startswith line id_key
        then Py.int (Py.slice line 7 (String.length line - 1)) else cur in
      if Py.startswith line filename_key
      then (cur', Py.slice line 14 (String.length line - 2)) :: entries cur' rest
      else entries cur' rest
  end.

(** The digits of a file name, when it has any, are a number [int]
    accepts (at most [Py.int_max_str_digits] of them). *)
Definition volume_readable (name : string) : bool :=
  match Regex.volume_digits name with
  | Some g => bool_decide (is_Some (Py.int g))
  | None => true
  end.

(** A listing the loop of [sort_inner_files] reads without raising: every
    [ID] line carries a number, no [Filename] line comes before the first
    [ID] line, and the volume digits of every file name are a number. *)
Fixpoint readable (seen_id : bool) (lines : list string) : bool :=
  match lines with
  | [] => true
  | line :: rest =>
      if Py.startswith line id_key then
        bool_decide (is_Some (Py.int (Py.slice line 7 (String.length line - 1))))
        && readable true rest
      else if Py.startswith line filename_key then
        seen_id && volume_readable (Py.slice line 14 (String.length line - 2))
        && readable seen_id rest
      else readable seen_id rest
  end.

(** The line [cleanUp] prints when a marker cannot be removed. *)
Definition remove_error (folder name : string) : string :=
  "[ERROR] Could not remove temp file " +:+ (folder +:+ "/" +:+ name).

(** What is left of a listing once [os.remove] has been tried on every
    name of [l]. *)
Definition survivors (l : list string) (es : list dirent) : list dirent :=
  List.filter
    (fun e => negb (bool_decide (d_name e ∈ l) && can_unlink es (d_name e))) es.

(** [ServerProxy] accepts the URL that [connectNzbget] builds from the
    connection settings. *)
Definition proxy_accepted (environ : gmap string string) (nzbget : host) : Prop :=
  forall ip port username password,
    environ !! "NZBOP_CONTROLIP" = Some ip ->
    environ !! "NZBOP_CONTROLPORT" = Some port ->
    environ !! "NZBOP_CONTROLUSERNAME" = Some username ->
    environ !! "NZBOP_CONTROLPASSWORD" = Some password ->
    h_proxy_refused nzbget (xmlRpcUrl username password (local_host ip) port) = false.

(** The four connection settings [callNzbget] reads are present. *)
Definition control_configured (environ : gmap string string) : Prop :=
  forall k, k ∈ ["NZBOP_CONTROLIP"; "NZBOP_CONTROLPORT";
                 "NZBOP_CONTROLUSERNAME"; "NZBOP_CONTROLPASSWORD"] ->
            is_Some (environ !! k).

(** From the spec's words: the extension of [name] is, compared without
    regard to case, a member of the banned set. *)
Definition banned_ignoring_case (banned : list string) (name : string) : Prop :=
  Py.lower_str (Py.splitext_ext name) ∈ map Py.lower_str banned.


(** NZBOP_TEMPDIR is unset, or its BannedFiles subdirectory does not
    exist. *)
Definition marker_dir_missing (environ : gmap string string) (fs : filesystem)
  : Prop :=
  match environ !! "NZBOP_TEMPDIR" with
  | Some t => fs_exists fs (marker_dir t) = false
  | None => True
  end.

(** The call passes the first two checks of [startCheck]. *)
Definition gate_open (environ : gmap string string) : Prop :=
  (is_Some (environ !! "NZBNA_EVENT") \/ is_Some (environ !! "NZBPP_DIRECTORY")) /\
  is_Some (environ !! "NZBOP_ARTICLECACHE") /\
  known_event (environ !! "NZBNA_EVENT") = true.

(** One of the three early exits of [startCheck] that run [cleanUp]
    applies: the download is already marked bad, its directory is gone,
    or it has already failed. *)
Definition early_exit (environ : gmap string string) (fs : filesystem) : Prop :=
  environ !! "NZBPP_STATUS" = Some "FAILURE/BAD" \/
  (exists d, environ !! "NZBPP_DIRECTORY" = Some d /\ fs_exists fs d = false) \/
  environ !! "NZBPP_TOTALSTATUS" = Some "FAILURE".

(** The situations in which the script reaches a call of [cleanUp]: an
    early exit of [startCheck], or the end of a post-processing call. *)
Definition reaches_cleanUp (environ : gmap string string) (fs : filesystem) : Prop :=
  early_exit environ fs \/ environ !! "NZBNA_EVENT" = None.

(** The run ends with an uncaught exception. *)
Definition raises {A} (r : outcome A * state) : Prop :=
  exists e, r.1 = Raise e.

(** *** Notions used by the further properties *)

(** What a run may do: the directories it may remove entries from, the
    remote calls it may make, the lines it may print and the statuses it
    may leave with. *)
Record bounds := Bounds {
  b_dir : string -> Prop;
  b_rpc : rpc -> Prop;
  b_out : string -> Prop;
  b_exit : Z -> Prop
}.

(** The result [r] of a run from [st] stays within [B]. *)
Definition within (B : bounds) {A} (st : state) (r : outcome A * state) : Prop :=
  fs_others (st_fs r.2) = fs_others (st_fs st) /\
  (forall dir, ~ b_dir B dir ->
               fs_dirs (st_fs r.2) !! dir = fs_dirs (st_fs st) !! dir) /\
  (exists new, st_rpc r.2 = st_rpc st ++ new /\ Forall (b_rpc B) new) /\
  (exists new, st_out r.2 = st_out st ++ new /\ Forall (b_out B) new) /\
  (forall c, r.1 = Exit c -> b_exit B c).

Definition keeps (B : bounds) {A} (m : M A) : Prop :=
  forall st, within B st (m st).

(** The lines by which the script instructs the host. *)
Definition banned_sentinel : string := "[NZB] NZBPR_PPSTATUS_BANNED=yes".
Definition mark_bad : string := "[NZB] MARK=BAD".
Definition directives : list string :=
  [banned_sentinel; mark_bad; clear_sentinel; sorted_sentinel].

(** The bounds of a run that may remove markers only. *)
Definition marker_bounds (environ : gmap string string) : bounds :=
  Bounds (fun dir => exists t, environ !! "NZBOP_TEMPDIR" = Some t /\ dir = marker_dir t)
         (fun _ => True) (fun _ => True) (fun _ => True).

(** The first check of [startCheck] fails: the call does not come from
    NZBGet. *)
Definition foreign_call (environ : gmap string string) : Prop :=
  (environ !! "NZBNA_EVENT" = None /\ environ !! "NZBPP_DIRECTORY" = None) \/
  environ !! "NZBOP_ARTICLECACHE" = None.

Definition usage_lines : list string :=
  ["*** NZBGet queue script ***";
   "This script is supposed to be called from nzbget (14.0 or later)."].

(** [m] never returns: it leaves or raises. *)
Definition no_ret {A} (m : M A) : Prop :=
  forall st a st', m st <> (Ret a, st').

(** The two lines [detectBannedFile] prints for the file it reports. *)
Definition found_lines (item : string) : list string :=
  ["[INFO] Found file with banned extension: " +:+ item;
   "[NZB] NZBPR_PPSTATUS_BANNEDFILE=" +:+ item].

(** The first regular file of [dir] with a banned extension. *)
Definition first_banned (environ : gmap string string) (fs : filesystem)
    (dir : string) (names : list string) : option string :=
  List.find (fun o => bool_decide (Py.splitext_ext o ∈ bannedExtensions environ))
    (List.filter (fun o => fs_isfile fs dir o) names).

(** Bounds of a run that prints anything but MARK=BAD and removes
    nothing. *)
Definition unmarked : bounds :=
  Bounds (fun _ => False) (fun _ => True) (fun l => l <> mark_bad) (fun _ => True).

(** The same, markers apart. *)
Definition unmarked_sweep : bounds :=
  Bounds (fun _ => True) (fun _ => True) (fun l => l <> mark_bad) (fun _ => True).

(** The rest of [scan_block] once [detectBannedFile] has returned [r]. *)
Definition after_scan (environ : gmap string string) (nzbget : host)
    (pre name : string) (r : option string) : M unit :=
  ((if found_banned r then
      print "[NZB] NZBPR_PPSTATUS_BANNED=yes" ;;
      print "[NZB] MARK=BAD"
    else
      print ("[INFO] No Banned files detected in " +:+ name +:+ " yet") ;;
      if getenv_is environ "NZBPR_PPSTATUS_BANNED" "yes"
      then print "[NZB] NZBPR_PPSTATUS_BANNED=" else ret tt) ;;
   print ("[DETAIL] Detecting banned files completed for " +:+ name) ;;
   if String.eqb pre "NZBPP_" then cleanUp environ nzbget else ret tt).

(** What the loop of [sort_inner_files] leaves in its local variables
    after reading the entries [es], with the position of the selected
    entry: every earlier number is smaller or 0, and every later number
    is at most the selected one, which is then not 0. *)
Definition selects_first (es : list (option Z * string)) (sel : selection) : Prop :=
  match file_num sel with
  | None =>
      file_id sel = None /\ file_name sel = None /\
      forall i name, (i, name) ∈ es -> volume_number name = None
  | Some N =>
      exists before i name after,
        es = before ++ (Some i, name) :: after /\
        file_id sel = Some i /\ file_name sel = Some name /\
        volume_number name = Some N /\
        (forall i' name' N',
           (i', name') ∈ before -> volume_number name' = Some N' ->
           N' < N \/ N' = 0) /\
        (forall i' name' N',
           (i', name') ∈ after -> volume_number name' = Some N' ->
           N' <= N /\ N <> 0)
  end.

(** The integers whose decimal writing [int] reads back: those of at most
    [Py.int_max_str_digits] digits. *)
Definition short_number (n : Z) : Prop :=
  (Z.abs_N n < 10 ^ Py.int_max_str_digits)%N.

(** The lines of NZBGet's answers that the two hand-written parsers look
    for, as the JSON writer of the host lays them out: one field per
    line, a comma after the value. *)
Definition nzbid_line (n : Z) : string := nzbid_key +:+ Py.str n +:+ ",".
Definition id_line (i : Z) : string := id_key +:+ Py.str i +:+ ",".
Definition filename_line (name : string) : string :=
  filename_key +:+ name +:+ dq +:+ ",".

(** A [listgroups] answer: the id line of a download, or any other
    line. *)
Definition queue_line (item : Z + string) : string :=
  match item with
  | inl n => nzbid_line n
  | inr other => other
  end.

Definition queue_ids (items : list (Z + string)) : list Z :=
  omap (fun item => match item with inl n => Some n | inr _ => None end) items.

(** One file of a [listfiles] answer: its id, the fields between the id
    and the file name, and the file name. *)
Definition file_lines (f : Z * list string * string) : list string :=
  id_line f.1.1 :: f.1.2 ++ [filename_line f.2].

Definition listing_lines (files : list (Z * list string * string)) : list string :=
  List.concat (map file_lines files).

(** A line that is neither an id line nor a file name line. *)
Definition other_field (line : string) : Prop :=
  Py.startswith line id_key = false /\ Py.startswith line filename_key = false.

(** A file of a listing that the loop of [sort_inner_files] reads to the
    end: an id that [int] reads back, fields between the id and the name
    that are neither, and a name whose volume digits, if it has any, are
    a number for [int]. *)
Definition listed_file (f : Z * list string * string) : Prop :=
  short_number f.1.1 /\ Forall other_field f.1.2 /\ volume_readable f.2 = true.

(** The shape of everything [os.path.splitext] returns as an extension:
    empty, or one dot followed by characters that are neither a dot nor a
    slash. *)
Definition simple_extension (e : string) : bool :=
  match Py.chars e with
  | [] => true
  | c :: post =>
      Ascii.eqb c "."
      && forallb (fun x => negb (Ascii.eqb x "." || Ascii.eqb x "/")) post
  end.

(** A word of the banned list: no space and no comma in it. *)
Definition plain_word (e : string) : Prop :=
  Forall (fun c => Ascii.eqb c " " = false /\ Ascii.eqb c "," = false) (Py.chars e).

(** A run of decimal digits, at least one. *)
Definition digit_string (ds : string) : Prop :=
  ds <> "" /\ Forall (fun c => Py.is_digit c = true) (Py.chars ds).

(** No line feed in the name: [.] of a pattern matches everything else. *)
Definition one_line (s : string) : Prop :=
  Forall (fun c => Ascii.eqb c "010" = false) (Py.chars s).

(** A pattern whose first character is a dot matches nowhere else. *)
Definition dot_led (here : list ascii -> option (list ascii)) : Prop :=
  here [] = None /\
  forall c r, Ascii.eqb (Py.lower c) "." = false -> here (c :: r) = None.

(** Bounds of a run that removes nothing and does not ask for the
    queue. *)
Definition no_sweep : bounds :=
  Bounds (fun _ => False) (fun r => r <> Queried listgroups)
         (fun _ => True) (fun _ => True).

(** *** Standard output as the host reads it *)

(** The lines of standard output: [print] writes its argument and a line
    feed, and NZBGet reads what the script writes line by line, so an
    argument that holds line feeds is read as several lines. *)
Definition stdout_lines (out : list string) : list string :=
  flat_map (Py.split "010") out.

(** The settings whose values the script prints: the name of the
    download (lines 238, 245, 265 and 267), the file of the persisted
    verdict (line 69) and the temp directory (lines 116 and 119). *)
Definition printed_settings : list string :=
  ["NZBNA_NZBNAME"; "NZBPP_NZBNAME"; "NZBPR_PPSTATUS_BANNEDFILE"; "NZBOP_TEMPDIR"].

(** None of the printed settings holds a line feed. *)
Definition one_line_settings (environ : gmap string string) : Prop :=
  forall k v, k ∈ printed_settings -> environ !! k = Some v -> one_line v.

(** No entry of a listable directory has a line feed in its name. *)
Definition one_line_names (fs : filesystem) : Prop :=
  forall dir es, fs_dirs fs !! dir = Some es ->
                 Forall (fun e => one_line (d_name e)) es.

(** Every run of [m] from a file system that satisfies [pre] keeps [pre],
    prints arguments without a line feed only, and returns a value that
    satisfies [Q]. *)
Definition line_wise (pre : filesystem -> Prop) {A} (Q : A -> Prop) (m : M A)
  : Prop :=
  forall st, pre (st_fs st) ->
    pre (st_fs (m st).2) /\
    (exists new, st_out (m st).2 = st_out st ++ new /\ Forall one_line new) /\
    (forall a, (m st).1 = Ret a -> Q a).

(** [one_line], decided. *)
Definition no_line_feed (s : string) : bool :=
  forallb (fun c => negb (Ascii.eqb c "010")) (Py.chars s).

(** The file name the loop of [sort_inner_files] has selected, if any,
    holds no line feed. *)
Definition named_in_line (s : selection) : Prop :=
  forall n, file_name s = Some n -> one_line n.

(** ** Concrete worlds used by the examples *)

(** A host that answers nothing. *)
Definition dead_host : host :=
  Host (fun _ => None) (fun _ => false) (fun _ => false) (fun _ => false).

Definition empty_state : state := State (Filesystem ∅ ∅) [] [].

(** A removable regular file. *)
Definition plain (name : string) : dirent := Dirent name RegularFile false.

(** A state whose file system holds the given directories and nothing else. *)
Definition state_of (dirs : list (string * list dirent)) : state :=
  State (Filesystem (list_to_map dirs) ∅) [] [].

(** A [listgroups] answer announcing the download ids 2 and 3. *)
Definition groups_2_3 : string :=
  nzbid_key +:+ "2," +:+ String "010" (nzbid_key +:+ "3," +:+ String "010" "").

Definition queue_host : host :=
  Host (fun q => match q with listgroups => Some groups_2_3 | _ => None end)
       (fun _ => true) (fun _ => false) (fun _ => false).

Definition control_env : list (string * string) :=
  [("NZBOP_CONTROLIP", "127.0.0.1"); ("NZBOP_CONTROLPORT", "6789");
   ("NZBOP_CONTROLUSERNAME", "nzbget"); ("NZBOP_CONTROLPASSWORD", "secret")].

(** One file of a [listfiles] answer: its [ID] line and its [Filename]
    line. *)
Definition file_entry (id name : string) : string :=
  id_key +:+ id +:+ "," +:+ String "010"
    (filename_key +:+ name +:+ dq +:+ "," +:+ String "010" "").

Definition three_volumes : string :=
  file_entry "1" "a.part1.rar" +:+ file_entry "2" "a.part2.rar"
  +:+ file_entry "3" "a.part10.rar".

(** A host that answers [listfiles] for download 5 with [data]. *)
Definition files_host (data : string) : host :=
  Host (fun q => match q with listfiles 5 => Some data | _ => None end)
       (fun _ => true) (fun _ => false) (fun _ => false).





(** A movie with its description; nothing to reorder. *)
Definition download_dir : list dirent := [plain "movie.mkv"; plain "readme.nfo"].

Definition file_downloaded_env : gmap string string :=
  list_to_map ([("NZBNA_EVENT", "FILE_DOWNLOADED"); ("NZBOP_ARTICLECACHE", "0");
                ("NZBNA_DIRECTORY", "/d"); ("NZBNA_NZBNAME", "n");
                ("NZBNA_NZBID", "5"); ("NZBPO_BANNEDEXTENSIONS", ".exe")]
               ++ control_env).

(** A post-processing call for a download that an earlier call judged
    banned. *)
Definition redo_env : gmap string string :=
  list_to_map [("NZBPP_DIRECTORY", "/d"); ("NZBPP_NZBNAME", "n");
               ("NZBOP_ARTICLECACHE", "0"); ("NZBOP_TEMPDIR", "/tmp");
               ("NZBPR_PPSTATUS_BANNED", "yes");
               ("NZBPO_BANNEDEXTENSIONS", ".exe")].

(** A post-processing call for a failed download, with a temp directory
    that has no BannedFiles subdirectory. *)
Definition failed_env : gmap string string :=
  list_to_map [("NZBPP_DIRECTORY", "/d"); ("NZBPP_NZBNAME", "n");
               ("NZBOP_ARTICLECACHE", "0"); ("NZBOP_TEMPDIR", "/tmp");
               ("NZBPP_TOTALSTATUS", "FAILURE")].

(** A download directory and a marker directory with one marker. *)
Definition marker_state : state :=
  state_of [("/d", download_dir); ("/tmp/BannedFiles", [plain "4"])].

(** A download that holds an installer. *)
Definition infected_state : state :=
  state_of [("/d", [plain "movie.mkv"; plain "setup.exe"]); ("/tmp/BannedFiles", [])].

(** The call NZBGet makes when download 5 is added to the queue. *)
Definition added_env : gmap string string :=
  list_to_map ([("NZBNA_EVENT", "NZB_ADDED"); ("NZBOP_ARTICLECACHE", "0");
                ("NZBNA_DIRECTORY", "/d"); ("NZBNA_NZBNAME", "n");
                ("NZBNA_NZBID", "5"); ("NZBPO_BANNEDEXTENSIONS", ".exe")]
               ++ control_env).

(** Two archives whose second volumes come before a first volume. *)
Definition tied_volumes : string :=
  file_entry "1" "a.part2.rar" +:+ file_entry "2" "b.part2.rar"
  +:+ file_entry "3" "a.part1.rar".

(** A queue call that does not say where the download is. *)
Definition lost_env : gmap string string :=
  list_to_map [("NZBNA_EVENT", "FILE_DOWNLOADED"); ("NZBOP_ARTICLECACHE", "0")].

(** A download name that goes on, after a line feed, with the text of
    the sentinel that clears the persisted verdict. *)
Definition forged_name : string :=
  "n" +:+ String "010" "[NZB] NZBPR_PPSTATUS_BANNED=".

(** A post-processing call for a download of that name, with no persisted
    verdict. *)
Definition forged_env : gmap string string :=
  list_to_map [("NZBPP_DIRECTORY", "/d"); ("NZBPP_NZBNAME", forged_name);
               ("NZBOP_ARTICLECACHE", "0"); ("NZBOP_TEMPDIR", "/tmp");
               ("NZBPO_BANNEDEXTENSIONS", ".exe")].

(** The call NZBGet makes when download 5 is added to the queue again,
    its inner files already sorted by an earlier call. *)
Definition added_again_env : gmap string string :=
  <["NZBPR_BANNEDFILES_SORTED" := "yes"]> added_env.

(** ** General facts about the monad *)

Lemma bind_ret {A B} (m : M A) (k : A -> M B) st a st' :
  m st = (Ret a, st') -> bind m k st = k a st'.
Proof. intros H. unfold bind. rewrite H. reflexivity. Qed.

Lemma bind_exit {A B} (m : M A) (k : A -> M B) st c st' :
  m st = (Exit c, st') -> bind m k st = (Exit c, st').
Proof. intros H. unfold bind. rewrite H. reflexivity. Qed.

Lemma bind_raise {A B} (m : M A) (k : A -> M B) st e st' :
  m st = (Raise e, st') -> bind m k st = (Raise e, st').
Proof. intros H. unfold bind. rewrite H. reflexivity. Qed.

Lemma fs_shrinks_refl fs : fs_shrinks fs fs.
Proof.
  split; [reflexivity|]. intros dir.
  destruct (fs_dirs fs !! dir) as [es|] eqn:E; [|reflexivity].
  exists es. split; [reflexivity|]. reflexivity.
Qed.

Lemma fs_shrinks_trans fs1 fs2 fs3 :
  fs_shrinks fs1 fs2 -> fs_shrinks fs2 fs3 -> fs_shrinks fs1 fs3.
Proof.
  intros [Ho1 Hd1] [Ho2 Hd2]. split; [congruence|].
  intros dir. specialize (Hd1 dir). specialize (Hd2 dir).
  destruct (fs_dirs fs3 !! dir) as [es3|].
  - destruct Hd2 as (es2 & E2 & S2). rewrite E2 in Hd1.
    destruct Hd1 as (es1 & E1 & S1). exists es1. split; [assumption|].
    etransitivity; eassumption.
  - rewrite Hd2 in Hd1. assumption.
Qed.

Lemma drop_entry_sublist name es : sublist (drop_entry name es) es.
Proof.
  unfold drop_entry. induction es as [|e es IH]; simpl.
  - constructor.
  - destruct (negb _); [apply sublist_skip|apply sublist_cons]; assumption.
Qed.

Lemma fs_remove_shrinks fs dir name fs' :
  fs_remove fs dir name = Some fs' -> fs_shrinks fs fs'.
Proof.
  unfold fs_remove. intros H.
  destruct (fs_dirs fs !! dir) as [es|] eqn:E; [|discriminate].
  destruct (find_entry name es) as [e|]; [|discriminate].
  destruct (removable e); [|discriminate].
  injection H as <-. split; [reflexivity|]. simpl. intros d.
  destruct (decide (dir = d)) as [->|Hne].
  - rewrite lookup_insert_eq. exists es. split; [assumption|].
    apply drop_entry_sublist.
  - rewrite lookup_insert_ne by assumption.
    destruct (fs_dirs fs !! d) as [es'|] eqn:E'; [|reflexivity].
    exists es'. split; reflexivity.
Qed.

Section Respects.

Variable P : string -> Prop.

Lemma extends_refl st : extends P st st.
Proof.
  split; [apply fs_shrinks_refl|]. exists []. rewrite app_nil_r. auto.
Qed.

Lemma extends_trans st1 st2 st3 :
  extends P st1 st2 -> extends P st2 st3 -> extends P st1 st3.
Proof.
  intros [F1 (n1 & O1 & P1)] [F2 (n2 & O2 & P2)].
  split; [eapply fs_shrinks_trans; eassumption|].
  exists (n1 ++ n2). rewrite O2, O1, app_assoc. split; [reflexivity|].
  apply Forall_app; auto.
Qed.

Lemma respects_ret {A} (a : A) : respects P (ret a).
Proof. intros st. apply extends_refl. Qed.

Lemma respects_raise {A} e : respects P (@raise A e).
Proof. intros st. apply extends_refl. Qed.

Lemma respects_exit {A} c : respects P (@sys_exit A c).
Proof. intros st. apply extends_refl. Qed.

Lemma respects_lift {A} (o : outcome A) : respects P (lift o).
Proof. intros st. apply extends_refl. Qed.

Lemma respects_get_fs : respects P get_fs.
Proof. intros st. apply extends_refl. Qed.

Lemma respects_bind {A B} (m : M A) (k : A -> M B) :
  respects P m -> (forall a, respects P (k a)) -> respects P (bind m k).
Proof.
  intros Hm Hk st. unfold bind. specialize (Hm st).
  destruct (m st) as [[a|c|e] st1]; simpl in Hm; try assumption.
  eapply extends_trans; [eassumption|]. apply Hk.
Qed.

Lemma respects_print line : P line -> respects P (print line).
Proof.
  intros HP st. split; simpl; [apply fs_shrinks_refl|].
  exists [line]. auto.
Qed.

Lemma respects_record_rpc r : respects P (record_rpc r).
Proof.
  intros st. split; simpl; [apply fs_shrinks_refl|].
  exists []. rewrite app_nil_r. auto.
Qed.

Lemma respects_os_listdir dir : respects P (os_listdir dir).
Proof.
  intros st. unfold os_listdir.
  destruct (fs_listdir (st_fs st) dir); apply extends_refl.
Qed.

Lemma respects_os_remove dir name : respects P (os_remove dir name).
Proof.
  intros st. unfold os_remove.
  destruct (fs_remove (st_fs st) dir name) as [fs'|] eqn:E;
    [|apply extends_refl].
  split; simpl; [eapply fs_remove_shrinks; eassumption|].
  exists []. rewrite app_nil_r. auto.
Qed.

Lemma respects_try_except body handler :
  respects P body -> respects P handler -> respects P (try_except body handler).
Proof.
  intros Hb Hh st. unfold try_except. specialize (Hb st).
  destruct (body st) as [[a|c|e] st1]; simpl in Hb; try assumption;
    (eapply extends_trans; [eassumption|apply Hh]).
Qed.

Lemma respects_for_each {A} (l : list A) body :
  (forall x, respects P (body x)) -> respects P (for_each l body).
Proof.
  intros Hb. induction l as [|x l IH]; simpl.
  - apply respects_ret.
  - apply respects_bind; [apply Hb|intros _; apply IH].
Qed.

Lemma respects_environ_item environ k : respects P (environ_item environ k).
Proof.
  unfold environ_item. destruct (environ !! k);
    [apply respects_ret|apply respects_raise].
Qed.

End Respects.

(** ** Frame properties of the script: nothing is created, and the
    clearing sentinel is printed at one place only *)

Ltac not_clear :=
  let H := fresh in
  intros H; unfold clear_sentinel in H; simpl in H; discriminate H.

Ltac frame_step HP :=
  first
    [ apply respects_ret | apply respects_raise | apply respects_exit
    | apply respects_lift | apply respects_get_fs | apply respects_record_rpc
    | apply respects_os_listdir | apply respects_os_remove
    | apply respects_environ_item
    | apply respects_print; apply HP; not_clear
    | apply respects_try_except
    | apply respects_for_each; intros ?
    | apply respects_bind; [|intros ?]
    | match goal with
      | |- respects _ (if ?b then _ else _) => destruct b
      | |- respects _ (match ?x with _ => _ end) => destruct x
      | |- respects _ (let _ := _ in _) => cbv zeta
      end ].

(** [known] closes the calls whose frame property is already proved. *)
Ltac frame HP known := repeat first [ known | frame_step HP ].

Section ScriptFrame.

Variable P : string -> Prop.
Hypothesis HP : forall line, line <> clear_sentinel -> P line.
Variable environ : gmap string string.
Variable nzbget : host.

Lemma respects_callNzbget q : respects P (callNzbget environ nzbget q).
Proof. unfold callNzbget. frame HP fail. Qed.

Lemma respects_connectNzbget : respects P (connectNzbget environ nzbget).
Proof. unfold connectNzbget. frame HP fail. Qed.

Lemma respects_remove_temp folder id : respects P (remove_temp folder id).
Proof. unfold remove_temp. frame HP fail. Qed.

Lemma respects_cleanUp : respects P (cleanUp environ nzbget).
Proof.
  unfold cleanUp.
  frame HP ltac:(first [ apply respects_callNzbget | apply respects_remove_temp ]).
Qed.

Lemma respects_startCheck : respects P (startCheck environ nzbget).
Proof. unfold startCheck. frame HP ltac:(apply respects_cleanUp). Qed.

Lemma respects_detect_loop l : respects P (detect_loop environ l).
Proof. induction l as [|item l IH]; simpl; frame HP ltac:(exact IH). Qed.

Lemma respects_detectBannedFile dir : respects P (detectBannedFile environ dir).
Proof. unfold detectBannedFile. frame HP ltac:(apply respects_detect_loop). Qed.

Lemma respects_sort_inner_files : respects P (sort_inner_files environ nzbget).
Proof.
  unfold sort_inner_files, editqueue_FileMoveTop.
  frame HP ltac:(first [ apply respects_callNzbget | apply respects_connectNzbget ]).
Qed.

Lemma respects_reorder_block name :
  respects P (reorder_block environ nzbget name).
Proof.
  unfold reorder_block. frame HP ltac:(apply respects_sort_inner_files).
Qed.

Hypothesis Hclear :
  getenv_is environ "NZBPR_PPSTATUS_BANNED" "yes" = true -> P clear_sentinel.

Lemma respects_scan_block pre dir name :
  respects P (scan_block environ nzbget pre dir name).
Proof.
  unfold scan_block.
  destruct (getenv_is environ "NZBPR_PPSTATUS_BANNED" "yes") eqn:E;
    frame HP
      ltac:(first [ apply respects_detectBannedFile | apply respects_cleanUp
                  | apply respects_print; apply Hclear; reflexivity ]).
Qed.

Lemma respects_main : respects P (main environ nzbget).
Proof.
  unfold main.
  frame HP
    ltac:(first [ apply respects_startCheck | apply respects_reorder_block
                | apply respects_scan_block ]).
Qed.

Lemma respects_script : respects P (script environ nzbget).
Proof.
  unfold script. apply respects_bind; [apply respects_main|].
  intros _. apply respects_exit.
Qed.

End ScriptFrame.

(** ** Housekeeping never creates a marker *)

(** C10: no operation of the program creates or writes a file: after any
    invocation, whatever its outcome, every directory (the marker
    directory among them) lists a sublist of the entries it listed before,
    and no other path has appeared. *)
Theorem script_only_removes_files
    (environ : gmap string string) (nzbget : host) (st : state) :
  fs_shrinks (st_fs st) (st_fs (script environ nzbget st).2).
Proof.
  assert (H : respects (fun _ => True) (script environ nzbget)).
  { apply respects_script; auto. }
  exact (proj1 (H st)).
Qed.

(** ** Gatekeeper *)

Lemma in_environ_true (environ : gmap string string) k v :
  environ !! k = Some v -> in_environ environ k = true.
Proof.
  intros H. unfold in_environ. rewrite H. apply bool_decide_eq_true_2. eauto.
Qed.

Lemma in_environ_false (environ : gmap string string) k :
  environ !! k = None -> in_environ environ k = false.
Proof.
  intros H. unfold in_environ. rewrite H. apply bool_decide_eq_false_2.
  intros [? ?]; discriminate.
Qed.

Lemma known_event_unknown e :
  e ∉ ["NZB_ADDED"; "FILE_DOWNLOADED"; "NZB_DOWNLOADED"] ->
  known_event (Some e) = false.
Proof.
  intros H. apply bool_decide_eq_false_2. intros Hin. apply H.
  rewrite !elem_of_cons in Hin. rewrite !elem_of_cons.
  destruct Hin as [Hin|[Hin|[Hin|[Hin|Hin]]]];
    [injection Hin; tauto ..|discriminate|apply elem_of_nil in Hin; tauto].
Qed.

(** C6, as the code has it: an event kind outside the known set makes the
    gatekeeper, and so the whole script, leave with status 0 and without
    touching anything, provided the host also supplied NZBOP_ARTICLECACHE
    (the usage check runs first). *)
Theorem gatekeeper_ignores_unknown_event
    (environ : gmap string string) (nzbget : host) (st : state) (e v : string) :
  environ !! "NZBNA_EVENT" = Some e ->
  e ∉ ["NZB_ADDED"; "FILE_DOWNLOADED"; "NZB_DOWNLOADED"] ->
  environ !! "NZBOP_ARTICLECACHE" = Some v ->
  startCheck environ nzbget st = (Exit 0, st) /\
  script environ nzbget st = (Exit 0, st).
Proof.
  intros He Hu Ha.
  assert (Hs : startCheck environ nzbget st = (Exit 0, st)).
  { unfold startCheck.
    rewrite (in_environ_true _ _ _ He), (in_environ_true _ _ _ Ha). simpl.
    unfold getenv. rewrite He, (known_event_unknown _ Hu). reflexivity. }
  split; [assumption|].
  unfold script, main. erewrite bind_exit; [reflexivity|].
  erewrite bind_exit; [reflexivity|]. exact Hs.
Qed.

Lemma gatekeeper_ignores_unknown_event_witness :
  let environ : gmap string string :=
    list_to_map [("NZBNA_EVENT", "NZB_DELETED"); ("NZBOP_ARTICLECACHE", "0")] in
  startCheck environ dead_host empty_state = (Exit 0, empty_state) /\
  script environ dead_host empty_state = (Exit 0, empty_state).
Proof.
  intros environ.
  apply (gatekeeper_ignores_unknown_event environ dead_host empty_state
           "NZB_DELETED" "0").
  - reflexivity.
  - intros H. rewrite !elem_of_cons in H.
    destruct H as [H|[H|[H|H]]]; [discriminate ..|apply elem_of_nil in H; tauto].
  - reflexivity.
Defined.

(** C6, as stated, fails: with an unknown event kind and no
    NZBOP_ARTICLECACHE the script leaves with the usage-error status 1. *)
Lemma gatekeeper_unknown_event_fatal :
  let environ : gmap string string := {[ "NZBNA_EVENT" := "NZB_DELETED" ]} in
  environ !! "NZBNA_EVENT" = Some "NZB_DELETED" /\
  ("NZB_DELETED" ∉ ["NZB_ADDED"; "FILE_DOWNLOADED"; "NZB_DOWNLOADED"]) /\
  (startCheck environ dead_host empty_state).1 = Exit 1 /\
  (script environ dead_host empty_state).1 = Exit 1.
Proof.
  intros environ. split; [reflexivity|]. split.
  - intros H. rewrite !elem_of_cons in H.
    destruct H as [H|[H|[H|H]]]; [discriminate ..|apply elem_of_nil in H; tauto].
  - split; vm_compute; reflexivity.
Qed.

(** ** File scanner *)

Lemma find_first {A} (f : A -> bool) (l : list A) (x : A) :
  List.find f l = Some x ->
  exists pre post, l = pre ++ x :: post /\ f x = true /\
                   forall o, o ∈ pre -> f o = false.
Proof.
  induction l as [|y l IH]; simpl; [discriminate|].
  destruct (f y) eqn:E.
  - intros [= ->]. exists [], l. split; [reflexivity|]. split; [assumption|].
    intros o Ho. apply elem_of_nil in Ho. tauto.
  - intros H. destruct (IH H) as (pre & post & -> & Hx & Hpre).
    exists (y :: pre), post. split; [reflexivity|]. split; [assumption|].
    intros o Ho. apply elem_of_cons in Ho as [->|Ho]; auto.
Qed.

Lemma detect_loop_find (environ : gmap string string) (l : list string) (st : state) :
  let hit := fun o => bool_decide (Py.splitext_ext o ∈ bannedExtensions environ) in
  exists st', detect_loop environ l st = (Ret (List.find hit l), st') /\
              st_fs st' = st_fs st /\ st_rpc st' = st_rpc st.
Proof.
  intros hit. induction l as [|item l IH]; simpl.
  - exists st. auto.
  - fold (hit item). destruct (hit item).
    + eexists. split; [reflexivity|]. auto.
    + exact IH.
Qed.

(** C1, as the code has it: whatever the banned list and the directory,
    [detectBannedFile] returns, and it reports a file exactly when some
    direct regular-file entry has an extension that is, compared exactly
    (upper and lower case distinct), a member of the banned list; the file
    it reports is the first such entry in enumeration order. *)
Theorem detectBannedFile_first_exact_match
    (environ : gmap string string) (st : state) (dir : string) (names : list string) :
  fs_listdir (st_fs st) dir = Some names ->
  let banned := fun o => Py.splitext_ext o ∈ bannedExtensions environ in
  let fileList := List.filter (fun o => fs_isfile (st_fs st) dir o) names in
  exists r st',
    detectBannedFile environ dir st = (Ret r, st') /\
    (is_Some r <->
     exists o, o ∈ names /\ fs_isfile (st_fs st) dir o = true /\ banned o) /\
    (forall item, r = Some item ->
       exists pre post, fileList = pre ++ item :: post /\ banned item /\
                        forall o, o ∈ pre -> ~ banned o).
Proof.
  intros Hl banned fileList.
  destruct (detect_loop_find environ fileList st) as (st' & Hrun & _).
  set (hit := fun o => bool_decide (Py.splitext_ext o ∈ bannedExtensions environ)) in *.
  exists (List.find hit fileList), st'. split.
  { unfold detectBannedFile, bind, os_listdir, get_fs. rewrite Hl. exact Hrun. }
  split.
  - split.
    + intros [item Hitem]. apply find_some in Hitem as [Hin Hhit].
      apply filter_In in Hin as [Hin Hfile]. exists item.
      split; [apply list_elem_of_In; assumption|]. split; [assumption|].
      apply bool_decide_eq_true_1 in Hhit. exact Hhit.
    + intros (o & Hin & Hfile & Hb).
      destruct (List.find hit fileList) as [item|] eqn:E; [eauto|].
      exfalso. assert (Hf : hit o = false).
      { apply (find_none _ _ E o). apply filter_In.
        split; [apply list_elem_of_In; assumption|assumption]. }
      apply bool_decide_eq_false_1 in Hf. contradiction.
  - intros item Hitem. apply find_first in Hitem as (pre & post & E & Hx & Hpre).
    exists pre, post. split; [assumption|]. split.
    + apply bool_decide_eq_true_1 in Hx. exact Hx.
    + intros o Ho Hb. specialize (Hpre o Ho).
      apply bool_decide_eq_false_1 in Hpre. contradiction.
Qed.

Lemma detectBannedFile_first_exact_match_witness :
  let environ : gmap string string := {[ "NZBPO_BANNEDEXTENSIONS" := ".nfo, .exe" ]} in
  let st := state_of [("/d", [plain "movie.mkv"; plain "readme.nfo"; plain "setup.exe"])] in
  exists r st',
    detectBannedFile environ "/d" st = (Ret r, st') /\
    (is_Some r <->
     exists o, o ∈ ["movie.mkv"; "readme.nfo"; "setup.exe"] /\
               fs_isfile (st_fs st) "/d" o = true /\
               Py.splitext_ext o ∈ bannedExtensions environ) /\
    (forall item, r = Some item ->
       exists pre post,
         List.filter (fun o => fs_isfile (st_fs st) "/d" o)
           ["movie.mkv"; "readme.nfo"; "setup.exe"] = pre ++ item :: post /\
         Py.splitext_ext item ∈ bannedExtensions environ /\
         forall o, o ∈ pre -> ~ Py.splitext_ext o ∈ bannedExtensions environ).
Proof.
  intros environ st.
  apply (detectBannedFile_first_exact_match environ st "/d").
  vm_compute. reflexivity.
Defined.

(** C1, as stated, fails: README.NFO has an extension that is banned when
    case is ignored, and the scanner reports nothing. *)
Lemma scanner_is_case_sensitive :
  let environ : gmap string string := {[ "NZBPO_BANNEDEXTENSIONS" := ".nfo" ]} in
  let st := state_of [("/d", [plain "README.NFO"])] in
  fs_listdir (st_fs st) "/d" = Some ["README.NFO"] /\
  fs_isfile (st_fs st) "/d" "README.NFO" = true /\
  banned_ignoring_case (bannedExtensions environ) "README.NFO" /\
  detectBannedFile environ "/d" st = (Ret None, st).
Proof.
  intros environ st. split; [vm_compute; reflexivity|].
  split; [vm_compute; reflexivity|]. split.
  - unfold banned_ignoring_case.
    replace (Py.lower_str (Py.splitext_ext "README.NFO")) with ".nfo"
      by (vm_compute; reflexivity).
    replace (map Py.lower_str (bannedExtensions environ)) with [".nfo"]
      by (vm_compute; reflexivity).
    apply elem_of_cons. left. reflexivity.
  - vm_compute. reflexivity.
Qed.

(** With the option unset or empty the banned list is the empty string
    alone. *)
Lemma bannedExtensions_unset (environ : gmap string string) :
  environ !! "NZBPO_BANNEDEXTENSIONS" = None \/
  environ !! "NZBPO_BANNEDEXTENSIONS" = Some "" ->
  bannedExtensions environ = [""].
Proof.
  intros [H|H]; unfold bannedExtensions, getenv; rewrite H; reflexivity.
Qed.

(** C3 fails on the code: with BannedExtensions unset the banned list is
    not empty but holds the empty string, which is the extension of every
    name without one: a download holding README is marked bad. *)
Lemma unset_banned_extensions_flag_plain_names :
  let environ : gmap string string :=
    list_to_map [("NZBPP_DIRECTORY", "/d"); ("NZBPP_NZBNAME", "n");
                 ("NZBOP_ARTICLECACHE", "0"); ("NZBOP_TEMPDIR", "/tmp")] in
  let st := state_of [("/d", [plain "README"]); ("/tmp/BannedFiles", [])] in
  getenv environ "NZBPO_BANNEDEXTENSIONS" = None /\
  bannedExtensions environ = [""] /\
  (detectBannedFile environ "/d" st).1 = Ret (Some "README") /\
  (script environ dead_host st).1 = Exit POSTPROCESS_SUCCESS /\
  "[NZB] MARK=BAD" ∈ st_out (script environ dead_host st).2.
Proof.
  intros environ st. split; [reflexivity|]. split; [vm_compute; reflexivity|].
  split; [vm_compute; reflexivity|]. split; [vm_compute; reflexivity|].
  replace (st_out (script environ dead_host st).2) with
    ["[INFO] Detecting banned files in n";
     "[INFO] Found file with banned extension: README";
     "[NZB] NZBPR_PPSTATUS_BANNEDFILE=README";
     "[NZB] NZBPR_PPSTATUS_BANNED=yes"; "[NZB] MARK=BAD";
     "[DETAIL] Detecting banned files completed for n"]
    by (vm_compute; reflexivity).
  rewrite !elem_of_cons. tauto.
Qed.

(** ** Housekeeping *)

Lemma find_entry_drop_ne name other es :
  name <> other -> find_entry name (drop_entry other es) = find_entry name es.
Proof.
  intros Hne. unfold find_entry, drop_entry.
  induction es as [|e es IH]; simpl; [reflexivity|].
  destruct (String.eqb (d_name e) other) eqn:Eo; simpl.
  - apply String.eqb_eq in Eo.
    destruct (String.eqb (d_name e) name) eqn:En; [|exact IH].
    apply String.eqb_eq in En. congruence.
  - destruct (String.eqb (d_name e) name); [reflexivity|exact IH].
Qed.

Lemma can_unlink_drop_ne name other es :
  name <> other -> can_unlink (drop_entry other es) name = can_unlink es name.
Proof. intros H. unfold can_unlink. rewrite find_entry_drop_ne by assumption. reflexivity. Qed.

Lemma remove_temp_run folder name st es :
  fs_dirs (st_fs st) !! folder = Some es ->
  exists st',
    remove_temp folder name st = (Ret tt, st') /\
    st_rpc st' = st_rpc st /\
    fs_others (st_fs st') = fs_others (st_fs st) /\
    fs_dirs (st_fs st') =
      <[folder := if can_unlink es name then drop_entry name es else es]>
        (fs_dirs (st_fs st)) /\
    exists new, st_out st' = st_out st ++ new /\
      (can_unlink es name = false -> remove_error folder name ∈ new).
Proof.
  intros Hes. unfold remove_temp, try_except, bind, print, os_remove, fs_remove,
    can_unlink. simpl. rewrite Hes.
  destruct (find_entry name es) as [e|]; [destruct (removable e)|].
  - eexists. split; [reflexivity|]. simpl. repeat split.
    eexists. split; [reflexivity|]. discriminate.
  - eexists. split; [reflexivity|]. simpl. repeat split.
    + rewrite insert_id by assumption. reflexivity.
    + eexists. rewrite <- app_assoc. split; [reflexivity|].
      intros _. apply elem_of_cons. right. apply elem_of_cons. left. reflexivity.
  - eexists. split; [reflexivity|]. simpl. repeat split.
    + rewrite insert_id by assumption. reflexivity.
    + eexists. rewrite <- app_assoc. split; [reflexivity|].
      intros _. apply elem_of_cons. right. apply elem_of_cons. left. reflexivity.
Qed.

Lemma filter_twice {A} (f g : A -> bool) (l : list A) :
  List.filter g (List.filter f l) = List.filter (fun a => f a && g a) l.
Proof.
  induction l as [|a l IH]; simpl; [reflexivity|].
  destruct (f a); simpl; [destruct (g a)|]; rewrite IH; reflexivity.
Qed.

Lemma survivors_cons x l es :
  survivors l (if can_unlink es x then drop_entry x es else es)
  = survivors (x :: l) es.
Proof.
  unfold survivors. destruct (can_unlink es x) eqn:Ex.
  - unfold drop_entry at 2. rewrite filter_twice. apply filter_ext_in.
    intros e _. destruct (String.eqb (d_name e) x) eqn:En; simpl.
    + apply String.eqb_eq in En. rewrite En, Ex.
      rewrite bool_decide_eq_true_2 by (apply elem_of_cons; auto). reflexivity.
    + apply String.eqb_neq in En. rewrite can_unlink_drop_ne by assumption.
      f_equal. f_equal. apply bool_decide_ext. rewrite elem_of_cons. tauto.
  - apply filter_ext_in. intros e _.
    destruct (decide (d_name e = x)) as [->|En].
    + rewrite Ex, !andb_false_r. reflexivity.
    + f_equal. f_equal. apply bool_decide_ext. rewrite elem_of_cons. tauto.
Qed.

Lemma remove_all_run folder l : forall st es,
  fs_dirs (st_fs st) !! folder = Some es ->
  exists st',
    for_each l (remove_temp folder) st = (Ret tt, st') /\
    st_rpc st' = st_rpc st /\
    fs_others (st_fs st') = fs_others (st_fs st) /\
    fs_dirs (st_fs st') = <[folder := survivors l es]> (fs_dirs (st_fs st)) /\
    exists new, st_out st' = st_out st ++ new /\
      forall name, name ∈ l -> can_unlink es name = false ->
                   remove_error folder name ∈ new.
Proof.
  induction l as [|x l IH]; intros st es Hes; simpl.
  - exists st. split; [reflexivity|]. repeat split.
    + unfold survivors. rewrite insert_id; [reflexivity|]. rewrite Hes. f_equal.
      symmetry. apply forallb_filter_id. apply forallb_forall. intros e _.
      rewrite bool_decide_eq_false_2; [reflexivity|]. apply not_elem_of_nil.
    + exists []. rewrite app_nil_r. split; [reflexivity|].
      intros name Hin. apply elem_of_nil in Hin. tauto.
  - destruct (remove_temp_run folder x st es Hes)
      as (st1 & Hrun & Hrpc & Hoth & Hdirs & new1 & Hout & Herr).
    set (es1 := if can_unlink es x then drop_entry x es else es) in *.
    assert (Hes1 : fs_dirs (st_fs st1) !! folder = Some es1).
    { rewrite Hdirs. apply lookup_insert_eq. }
    destruct (IH st1 es1 Hes1)
      as (st2 & Hrun2 & Hrpc2 & Hoth2 & Hdirs2 & new2 & Hout2 & Herr2).
    exists st2. split; [erewrite bind_ret by eassumption; exact Hrun2|].
    split; [congruence|]. split; [congruence|]. split.
    + rewrite Hdirs2, Hdirs, insert_insert_eq. f_equal. apply survivors_cons.
    + exists (new1 ++ new2). split; [rewrite Hout2, Hout, app_assoc; reflexivity|].
      intros name Hin Hcan. apply elem_of_app.
      destruct (decide (name = x)) as [->|Hne]; [left; auto|]. right.
      apply Herr2.
      * apply elem_of_cons in Hin as [?|?]; [contradiction|assumption].
      * unfold es1. destruct (can_unlink es x); [|assumption].
        rewrite can_unlink_drop_ne by assumption. assumption.
Qed.

Lemma elem_of_old_temp_files nzb_id files nzbids name :
  name ∈ old_temp_files nzb_id files nzbids <->
  name ∈ files /\ (name ∉ nzbids \/ nzb_id = Some name).
Proof.
  unfold old_temp_files.
  set (old := elements ((list_to_set files : gset string) ∖ list_to_set nzbids)).
  assert (Hold : forall n, n ∈ old <-> n ∈ files /\ n ∉ nzbids).
  { intros n. unfold old. rewrite elem_of_elements, elem_of_difference,
      !elem_of_list_to_set. reflexivity. }
  destruct nzb_id as [i|].
  - destruct (bool_decide (i ∈ files) && negb (bool_decide (i ∈ old))) eqn:E.
    + apply andb_true_iff in E as [E1 E2]. apply bool_decide_eq_true_1 in E1.
      rewrite elem_of_app, Hold, list_elem_of_singleton. split.
      * intros [[? ?]| ->]; auto.
      * intros [? [?|[= ->]]]; auto.
    + rewrite Hold. split; [intros [? ?]; auto|].
      intros [Hf [?|[= ->]]]; [auto|]. split; [assumption|].
      apply andb_false_iff in E as [E|E].
      * apply bool_decide_eq_false_1 in E. contradiction.
      * apply negb_false_iff, bool_decide_eq_true_1, Hold in E. tauto.
  - rewrite Hold. split; [intros [? ?]; auto|]. intros [? [?|?]]; [auto|discriminate].
Qed.

Lemma environ_item_run (environ : gmap string string) k v st :
  environ !! k = Some v -> environ_item environ k st = (Ret v, st).
Proof. intros H. unfold environ_item. rewrite H. reflexivity. Qed.

Lemma callNzbget_run environ nzbget q data st :
  control_configured environ ->
  h_query nzbget q = Some data ->
  callNzbget environ nzbget q st
  = (Ret data, State (st_fs st) (st_out st) (st_rpc st ++ [Queried q])).
Proof.
  intros Hc Hq.
  assert (Hk : forall k, k ∈ ["NZBOP_CONTROLIP"; "NZBOP_CONTROLPORT";
                 "NZBOP_CONTROLUSERNAME"; "NZBOP_CONTROLPASSWORD"] ->
               exists v, environ !! k = Some v).
  { intros k Hin. destruct (Hc k Hin) as [v Hv]. eauto. }
  destruct (Hk "NZBOP_CONTROLIP") as [v1 H1]; [rewrite !elem_of_cons; tauto|].
  destruct (Hk "NZBOP_CONTROLPORT") as [v2 H2]; [rewrite !elem_of_cons; tauto|].
  destruct (Hk "NZBOP_CONTROLUSERNAME") as [v3 H3]; [rewrite !elem_of_cons; tauto|].
  destruct (Hk "NZBOP_CONTROLPASSWORD") as [v4 H4]; [rewrite !elem_of_cons; tauto|].
  unfold callNzbget.
  do 4 (erewrite bind_ret by (apply environ_item_run; eassumption)).
  unfold bind, record_rpc. simpl. rewrite Hq. reflexivity.
Qed.

Lemma elem_of_survivors l es e :
  e ∈ survivors l es <->
  e ∈ es /\ ~ (d_name e ∈ l /\ can_unlink es (d_name e) = true).
Proof.
  unfold survivors. rewrite (list_elem_of_In es e).
  rewrite (list_elem_of_In (List.filter _ es) e).
  rewrite filter_In, negb_true_iff, andb_false_iff. split.
  - intros [Hin [H|H]]; (split; [assumption|]); intros [H1 H2].
    + apply bool_decide_eq_false_1 in H. contradiction.
    + congruence.
  - intros [Hin Hn]. split; [assumption|].
    destruct (can_unlink es (d_name e)); [left|right; reflexivity].
    apply bool_decide_eq_false_2. intros Hl. apply Hn. auto.
Qed.

Lemma new_output_app st st' new :
  st_out st' = st_out st ++ new -> new_output st st' = new.
Proof. intros H. unfold new_output. rewrite H. apply drop_app_length. Qed.

(** The part of [cleanUp] after the live ids are known. *)
Lemma cleanUp_sweep (environ : gmap string string) st t es nzbids :
  fs_dirs (st_fs st) !! marker_dir t = Some es ->
  let doomed := fun name =>
    name ∉ nzbids \/ environ !! "NZBPP_NZBID" = Some name in
  exists st' remaining,
    for_each (old_temp_files (getenv environ "NZBPP_NZBID") (map d_name es) nzbids)
      (remove_temp (marker_dir t)) st = (Ret tt, st') /\
    st_rpc st' = st_rpc st /\
    fs_dirs (st_fs st') !! marker_dir t = Some remaining /\
    (forall e, e ∈ remaining <->
       e ∈ es /\ ~ (doomed (d_name e) /\ can_unlink es (d_name e) = true)) /\
    (forall e, e ∈ es -> doomed (d_name e) -> can_unlink es (d_name e) = false ->
       remove_error (marker_dir t) (d_name e) ∈ new_output st st').
Proof.
  intros Hes doomed.
  destruct (remove_all_run (marker_dir t)
              (old_temp_files (getenv environ "NZBPP_NZBID") (map d_name es) nzbids)
              st es Hes)
    as (st' & Hrun & Hrpc & _ & Hdirs & new & Hout & Herr).
  assert (Hin : forall e, e ∈ es ->
            (d_name e ∈ old_temp_files (getenv environ "NZBPP_NZBID")
                          (map d_name es) nzbids <-> doomed (d_name e))).
  { intros e He. rewrite elem_of_old_temp_files. unfold doomed, getenv.
    split; [tauto|]. intros H. split; [|assumption].
    apply list_elem_of_fmap. exists e. auto. }
  eexists st', _. split; [exact Hrun|]. split; [exact Hrpc|].
  split; [rewrite Hdirs; apply lookup_insert_eq|]. split.
  - intros e. rewrite elem_of_survivors. split.
    + intros [He Hn]. split; [assumption|]. rewrite <- (Hin e He). exact Hn.
    + intros [He Hn]. split; [assumption|]. rewrite (Hin e He). exact Hn.
  - intros e He Hd Hcan. rewrite (new_output_app _ _ _ Hout).
    apply Herr; [|assumption]. apply (Hin e He). exact Hd.
Qed.

(** C5, as the code has it: with more than one marker, [cleanUp] asks the
    host once and tries [os.remove] on exactly the markers whose names are
    not live ids, and on the marker of the current download (NZBPP_NZBID)
    whether it is live or not; the markers left are those not tried and
    those that could not be removed; a removal that fails prints an error
    line and the call still returns. *)
Theorem cleanUp_removes_stale_and_current
    (environ : gmap string string) (nzbget : host) (st : state)
    (t : string) (es : list dirent) (data : string) (nzbids : list string) :
  environ !! "NZBOP_TEMPDIR" = Some t ->
  fs_dirs (st_fs st) !! marker_dir t = Some es ->
  (1 < List.length es)%nat ->
  control_configured environ ->
  h_query nzbget listgroups = Some data ->
  parse_nzbids (Py.splitlines data) [] = Ret nzbids ->
  let doomed := fun name =>
    name ∉ nzbids \/ environ !! "NZBPP_NZBID" = Some name in
  exists st' remaining,
    cleanUp environ nzbget st = (Ret tt, st') /\
    new_rpc st st' = [Queried listgroups] /\
    fs_dirs (st_fs st') !! marker_dir t = Some remaining /\
    (forall e, e ∈ remaining <->
       e ∈ es /\ ~ (doomed (d_name e) /\ can_unlink es (d_name e) = true)) /\
    (forall e, e ∈ es -> doomed (d_name e) -> can_unlink es (d_name e) = false ->
       remove_error (marker_dir t) (d_name e) ∈ new_output st st').
Proof.
  intros Ht Hes Hlen Hc Hq Hp doomed.
  set (st1 := State (st_fs st) (st_out st) (st_rpc st ++ [Queried listgroups])).
  destruct (cleanUp_sweep environ st1 t es nzbids Hes)
    as (st' & remaining & Hrun & Hrpc & Hdirs & Hrem & Herr).
  exists st', remaining. split.
  { unfold cleanUp, getenv. rewrite Ht. unfold bind at 1, ret at 1.
    unfold bind at 1, os_listdir, fs_listdir. fold (marker_dir t). rewrite Hes.
    simpl. rewrite length_map.
    destruct (1 <? List.length es)%nat eqn:E; [|apply Nat.ltb_ge in E; lia].
    unfold bind at 1. unfold bind at 1.
    rewrite (callNzbget_run _ _ _ _ _ Hc Hq). unfold lift. rewrite Hp.
    exact Hrun. }
  split.
  { unfold new_rpc. rewrite Hrpc. simpl. apply drop_app_length. }
  split; [exact Hdirs|]. split; [exact Hrem|].
  intros e He Hd Hcan. exact (Herr e He Hd Hcan).
Qed.

Lemma cleanUp_removes_stale_and_current_witness :
  let environ : gmap string string :=
    list_to_map (("NZBOP_TEMPDIR", "/tmp") :: control_env) in
  let st := state_of [("/tmp/BannedFiles", [plain "1"; plain "2"; plain "3"])] in
  let es := [plain "1"; plain "2"; plain "3"] in
  let doomed := fun name =>
    name ∉ ["2"; "3"] \/ environ !! "NZBPP_NZBID" = Some name in
  exists st' remaining,
    cleanUp environ queue_host st = (Ret tt, st') /\
    new_rpc st st' = [Queried listgroups] /\
    fs_dirs (st_fs st') !! marker_dir "/tmp" = Some remaining /\
    (forall e, e ∈ remaining <->
       e ∈ es /\ ~ (doomed (d_name e) /\ can_unlink es (d_name e) = true)) /\
    (forall e, e ∈ es -> doomed (d_name e) -> can_unlink es (d_name e) = false ->
       remove_error (marker_dir "/tmp") (d_name e) ∈ new_output st st').
Proof.
  intros environ st es doomed.
  apply (cleanUp_removes_stale_and_current environ queue_host st "/tmp" es
           groups_2_3 ["2"; "3"]).
  - reflexivity.
  - reflexivity.
  - simpl. lia.
  - intros k Hk. rewrite !elem_of_cons in Hk.
    destruct Hk as [->|[->|[->|[->|Hk]]]];
      [eexists; reflexivity ..|apply elem_of_nil in Hk; tauto].
  - reflexivity.
  - vm_compute. reflexivity.
Defined.

(** Markers 1, 2, 3 with live ids 2 and 3 and no marker for the current
    download: marker 1 goes, 2 and 3 stay. *)
Lemma cleanUp_markers_1_2_3 :
  let environ : gmap string string :=
    list_to_map (("NZBOP_TEMPDIR", "/tmp") :: control_env) in
  let st := state_of [("/tmp/BannedFiles", [plain "1"; plain "2"; plain "3"])] in
  (cleanUp environ queue_host st).1 = Ret tt /\
  fs_dirs (st_fs (cleanUp environ queue_host st).2) !! "/tmp/BannedFiles"
  = Some [plain "2"; plain "3"].
Proof. intros environ st. split; vm_compute; reflexivity. Qed.

(** C5, as stated, fails: when the current download (NZBPP_NZBID) is 2,
    marker 2 is removed although 2 is in the live queue. *)
Lemma cleanUp_removes_live_current_marker :
  let environ : gmap string string :=
    list_to_map (("NZBOP_TEMPDIR", "/tmp") :: ("NZBPP_NZBID", "2") :: control_env) in
  let st := state_of [("/tmp/BannedFiles", [plain "1"; plain "2"; plain "3"])] in
  parse_nzbids (Py.splitlines groups_2_3) [] = Ret ["2"; "3"] /\
  (cleanUp environ queue_host st).1 = Ret tt /\
  fs_dirs (st_fs (cleanUp environ queue_host st).2) !! "/tmp/BannedFiles"
  = Some [plain "3"].
Proof. intros environ st. repeat split; vm_compute; reflexivity. Qed.

(** C2, as the code has it: with at most one marker the host is not asked,
    and [os.remove] is tried on the marker: what stays is what could not
    be removed. *)
Theorem cleanUp_lone_marker
    (environ : gmap string string) (nzbget : host) (st : state)
    (t : string) (es : list dirent) :
  environ !! "NZBOP_TEMPDIR" = Some t ->
  fs_dirs (st_fs st) !! marker_dir t = Some es ->
  (List.length es <= 1)%nat ->
  exists st' remaining,
    cleanUp environ nzbget st = (Ret tt, st') /\
    st_rpc st' = st_rpc st /\
    fs_dirs (st_fs st') !! marker_dir t = Some remaining /\
    (forall e, e ∈ remaining <-> e ∈ es /\ can_unlink es (d_name e) = false) /\
    (forall e, e ∈ es -> can_unlink es (d_name e) = false ->
       remove_error (marker_dir t) (d_name e) ∈ new_output st st').
Proof.
  intros Ht Hes Hlen.
  destruct (cleanUp_sweep environ st t es [] Hes)
    as (st' & remaining & Hrun & Hrpc & Hdirs & Hrem & Herr).
  exists st', remaining. split.
  { unfold cleanUp, getenv. rewrite Ht. unfold bind at 1, ret at 1.
    unfold bind at 1, os_listdir, fs_listdir. fold (marker_dir t). rewrite Hes.
    simpl. rewrite length_map.
    destruct (1 <? List.length es)%nat eqn:E; [apply Nat.ltb_lt in E; lia|].
    unfold bind at 1, ret at 1. exact Hrun. }
  split; [exact Hrpc|]. split; [exact Hdirs|]. split.
  - intros e. rewrite Hrem. split.
    + intros [He Hn]. split; [assumption|].
      destruct (can_unlink es (d_name e)); [|reflexivity].
      exfalso. apply Hn. split; [left; apply not_elem_of_nil|reflexivity].
    + intros [He Hc]. split; [assumption|]. intros [_ Hc']. congruence.
  - intros e He Hc. apply Herr; [assumption| |assumption].
    left. apply not_elem_of_nil.
Qed.

Lemma cleanUp_lone_marker_witness :
  let environ : gmap string string := {[ "NZBOP_TEMPDIR" := "/tmp" ]} in
  let es := [Dirent "7" RegularFile true] in
  let st := state_of [("/tmp/BannedFiles", es)] in
  exists st' remaining,
    cleanUp environ queue_host st = (Ret tt, st') /\
    st_rpc st' = st_rpc st /\
    fs_dirs (st_fs st') !! marker_dir "/tmp" = Some remaining /\
    (forall e, e ∈ remaining <-> e ∈ es /\ can_unlink es (d_name e) = false) /\
    (forall e, e ∈ es -> can_unlink es (d_name e) = false ->
       remove_error (marker_dir "/tmp") (d_name e) ∈ new_output st st').
Proof.
  intros environ es st.
  apply (cleanUp_lone_marker environ queue_host st "/tmp" es).
  - reflexivity.
  - reflexivity.
  - simpl. lia.
Defined.

(** C2, as stated, fails: a lone marker is removed, without asking the
    host, whatever the queue holds. *)
Lemma cleanUp_removes_lone_marker :
  let environ : gmap string string := {[ "NZBOP_TEMPDIR" := "/tmp" ]} in
  let st := state_of [("/tmp/BannedFiles", [plain "2"])] in
  h_query queue_host listgroups = Some groups_2_3 /\
  (cleanUp environ queue_host st).1 = Ret tt /\
  st_rpc (cleanUp environ queue_host st).2 = [] /\
  fs_dirs (st_fs st) !! "/tmp/BannedFiles" = Some [plain "2"] /\
  fs_dirs (st_fs (cleanUp environ queue_host st).2) !! "/tmp/BannedFiles" = Some [].
Proof. intros environ st. repeat split; vm_compute; reflexivity. Qed.

(** ** Reorder advisor *)

Lemma is_digit_not_space c : Py.is_digit c = true -> Py.is_space c = false.
Proof.
  unfold Py.is_digit, Py.is_space. generalize (N_of_ascii c). intros n H.
  apply andb_true_iff in H as [H1 H2]. apply N.leb_le in H1, H2.
  repeat match goal with
         | |- context [(?a <=? ?b)%N] => destruct (N.leb_spec a b)
         | |- context [(?a =? ?b)%N] => destruct (N.eqb_spec a b)
         end; simpl; try reflexivity; lia.
Qed.

Lemma lstrip_digits ds :
  Forall (fun c => Py.is_digit c = true) ds -> Py.lstrip ds = ds.
Proof.
  intros H. destruct H as [|c r Hc _]; simpl; [reflexivity|].
  rewrite (is_digit_not_space c Hc). reflexivity.
Qed.

Lemma strip_digits ds :
  Forall (fun c => Py.is_digit c = true) ds -> Py.strip ds = ds.
Proof.
  intros H. unfold Py.strip. rewrite (lstrip_digits ds H).
  rewrite lstrip_digits; [apply rev_involutive|].
  apply List.Forall_rev. assumption.
Qed.

Lemma digits_go_total ds : forall acc b,
  Forall (fun c => Py.is_digit c = true) ds ->
  (ds <> [] \/ b = true) ->
  exists n, Py.digits_go acc b ds = Some n.
Proof.
  induction ds as [|c r IH]; intros acc b H Hne; simpl.
  - destruct Hne as [?| ->]; [contradiction|eauto].
  - inversion H as [|? ? Hc Hr]; subst. rewrite Hc. apply IH; auto.
Qed.

(** [int] of a run of digits: a number that is not negative, unless the
    run is longer than the limit. *)
Lemma int_digits ds :
  Forall (fun c => Py.is_digit c = true) ds -> ds <> [] ->
  Py.int (Py.text ds)
  = if (Py.int_max_str_digits <? Py.count_digits ds)%N then None
    else Z.of_N <$> Py.digits_go 0 false ds.
Proof.
  intros H Hne. unfold Py.int, Py.chars, Py.text.
  rewrite list_ascii_of_string_of_list_ascii, (strip_digits ds H).
  destruct ds as [|c r]; [contradiction|].
  inversion H as [|? ? Hc Hr]; subst.
  destruct (Ascii.eqb_spec c "-") as [->|_]; [discriminate Hc|].
  destruct (Ascii.eqb_spec c "+") as [->|_]; [discriminate Hc|].
  reflexivity.
Qed.

Lemma int_digits_nonneg ds n :
  Forall (fun c => Py.is_digit c = true) ds -> ds <> [] ->
  Py.int (Py.text ds) = Some n -> 0 <= n.
Proof.
  intros H Hne. rewrite (int_digits ds H Hne).
  destruct (Py.int_max_str_digits <? Py.count_digits ds)%N; [discriminate|].
  destruct (Py.digits_go 0 false ds) as [m|]; [|discriminate].
  intros [= <-]. lia.
Qed.

Lemma regex_digits_spec cs ds rest :
  Regex.digits cs = (ds, rest) -> Forall (fun c => Py.is_digit c = true) ds.
Proof.
  revert ds rest. induction cs as [|c r IH]; intros ds rest; simpl.
  - intros [= <- <-]. constructor.
  - destruct (Py.is_digit c) eqn:E.
    + destruct (Regex.digits r) as [ds' rest'] eqn:E'. intros [= <- <-].
      constructor; [assumption|]. eapply IH. reflexivity.
    + intros [= <- <-]. constructor.
Qed.

Lemma dotstar_here here cs g :
  Regex.dotstar here cs = Some g -> exists cs', here cs' = Some g.
Proof.
  induction cs as [|c r IH]; simpl; [eauto|].
  destruct (Ascii.eqb c "010"); [eauto|].
  destruct (Regex.dotstar here r) as [g'|]; [|eauto].
  intros [= <-]. apply IH. reflexivity.
Qed.

Lemma part_rar_here_digits cs g :
  Regex.part_rar_here cs = Some g ->
  Forall (fun c => Py.is_digit c = true) g /\ g <> [].
Proof.
  unfold Regex.part_rar_here.
  destruct (Regex.literal _ cs) as [rest|]; [|discriminate].
  destruct (Regex.digits rest) as [ds rest'] eqn:E.
  destruct ds as [|d ds]; [discriminate|].
  destruct (Regex.literal _ rest'); [|discriminate].
  intros [= <-]. split; [eapply regex_digits_spec; eassumption|discriminate].
Qed.

Lemma r_here_digits cs g :
  Regex.r_here cs = Some g ->
  Forall (fun c => Py.is_digit c = true) g /\ g <> [].
Proof.
  unfold Regex.r_here.
  destruct (Regex.literal _ cs) as [rest|]; [|discriminate].
  destruct (Regex.digits rest) as [ds rest'] eqn:E.
  destruct ds as [|d ds]; [discriminate|].
  intros [= <-]. split; [eapply regex_digits_spec; eassumption|discriminate].
Qed.

Lemma volume_digits_int name g n :
  Regex.volume_digits name = Some g -> Py.int g = Some n -> 0 <= n.
Proof.
  unfold Regex.volume_digits, Regex.regex1, Regex.regex2.
  destruct (Regex.dotstar Regex.part_rar_here (Py.chars name)) as [ds|] eqn:E1; simpl.
  - intros [= <-]. apply dotstar_here in E1 as [cs' H].
    apply part_rar_here_digits in H as [H1 H2]. apply int_digits_nonneg; assumption.
  - destruct (Regex.dotstar Regex.r_here (Py.chars name)) as [ds|] eqn:E2; simpl;
      [|discriminate].
    intros [= <-]. apply dotstar_here in E2 as [cs' H].
    apply r_here_digits in H as [H1 H2]. apply int_digits_nonneg; assumption.
Qed.

Lemma volume_number_nonneg name N : volume_number name = Some N -> 0 <= N.
Proof.
  unfold volume_number. destruct (Regex.volume_digits name) as [g|] eqn:E;
    [|discriminate].
  intros H. exact (volume_digits_int name g N E H).
Qed.




Lemma entries_cons cur line rest :
  entries cur (line :: rest)
  = entries cur [line]
    ++ entries (if Py.startswith line id_key
                then Py.int (Py.slice line 7 (String.length line - 1)) else cur) rest.
Proof. simpl. destruct (Py.startswith line filename_key); reflexivity. Qed.


(** A readable listing is read to the end. *)
Lemma consider_total name s1 :
  is_Some (cur_id s1) -> volume_readable name = true ->
  exists s', consider name s1 = Ret s' /\ is_Some (cur_id s').
Proof.
  intros [i Hi] Hv. unfold consider. unfold volume_readable in Hv.
  destruct (Regex.volume_digits name) as [g|] eqn:Eg; [|eauto].
  apply bool_decide_eq_true_1 in Hv as [n Hn]. rewrite Hn, Hi.
  destruct (better n (file_num s1)); eauto.
Qed.

(** A line is not an [ID] line and a [Filename] line at once. *)
Lemma id_line_or_filename_line line :
  Py.startswith line id_key = true -> Py.startswith line filename_key = false.
Proof.
  unfold Py.startswith.
  set (k1 := id_key). vm_compute in k1. subst k1.
  set (k2 := filename_key). vm_compute in k2. subst k2.
  destruct line as [|a [|b l]]; cbn [String.prefix]; try discriminate.
  - destruct (ascii_dec "034" a); discriminate.
  - destruct (ascii_dec "034" a) as [<-|]; [|discriminate].
    destruct (ascii_dec "I" b) as [<-|]; [|discriminate].
    intros _. destruct (ascii_dec "F" "I"); [discriminate|reflexivity].
Qed.

Lemma scan_lines_total lines : forall s seen_id,
  readable seen_id lines = true ->
  (seen_id = true -> is_Some (cur_id s)) ->
  exists sel, scan_lines lines s = Ret sel.
Proof.
  induction lines as [|line rest IH]; intros s seen_id Hr Hs; simpl; [eauto|].
  simpl in Hr. unfold scan_line.
  destruct (Py.startswith line id_key) eqn:Eid.
  - apply andb_true_iff in Hr as [Hint Hr].
    apply bool_decide_eq_true_1 in Hint as [n Hn]. rewrite Hn. cbv beta iota.
    set (s1 := Selection (Some n) (file_num s) (file_id s) (file_name s)).
    rewrite (id_line_or_filename_line line Eid).
    apply (IH s1 true); [assumption|]. intros _. eexists. reflexivity.
  - cbv beta iota. destruct (Py.startswith line filename_key).
    + apply andb_true_iff in Hr as [Hr1 Hr].
      apply andb_true_iff in Hr1 as [-> Hv].
      fold (consider (Py.slice line 14 (String.length line - 2)) s).
      destruct (consider_total (Py.slice line 14 (String.length line - 2)) s)
        as (s' & Hs' & Hc); [auto|assumption|].
      rewrite Hs'. apply (IH s' true); auto.
    + apply (IH s seen_id); assumption.
Qed.
Lemma control_settings (environ : gmap string string) :
  control_configured environ ->
  exists ip port username password,
    environ !! "NZBOP_CONTROLIP" = Some ip /\
    environ !! "NZBOP_CONTROLPORT" = Some port /\
    environ !! "NZBOP_CONTROLUSERNAME" = Some username /\
    environ !! "NZBOP_CONTROLPASSWORD" = Some password.
Proof.
  intros Hc.
  assert (Hk : forall k, k ∈ ["NZBOP_CONTROLIP"; "NZBOP_CONTROLPORT";
                 "NZBOP_CONTROLUSERNAME"; "NZBOP_CONTROLPASSWORD"] ->
               exists v, environ !! k = Some v).
  { intros k Hin. destruct (Hc k Hin) as [v Hv]. eauto. }
  destruct (Hk "NZBOP_CONTROLIP") as [v1 H1]; [rewrite !elem_of_cons; tauto|].
  destruct (Hk "NZBOP_CONTROLPORT") as [v2 H2]; [rewrite !elem_of_cons; tauto|].
  destruct (Hk "NZBOP_CONTROLUSERNAME") as [v3 H3]; [rewrite !elem_of_cons; tauto|].
  destruct (Hk "NZBOP_CONTROLPASSWORD") as [v4 H4]; [rewrite !elem_of_cons; tauto|].
  exists v1, v2, v3, v4. auto.
Qed.

(** With the four settings present [connectNzbget] returns, or raises
    the [ValueError] of [ServerProxy]; it changes nothing. *)
Lemma connectNzbget_outcome environ nzbget st :
  control_configured environ ->
  exists url,
    connectNzbget environ nzbget st
    = (if h_proxy_refused nzbget url then Raise ValueError else Ret tt, st) /\
    (proxy_accepted environ nzbget -> h_proxy_refused nzbget url = false).
Proof.
  intros Hc.
  destruct (control_settings environ Hc) as (ip & port & user & pw & H1 & H2 & H3 & H4).
  exists (xmlRpcUrl user pw (local_host ip) port). split.
  - unfold connectNzbget.
    do 4 (erewrite bind_ret by (apply environ_item_run; eassumption)).
    destruct (h_proxy_refused nzbget _); reflexivity.
  - intros Hp. apply Hp; assumption.
Qed.



(** [sort_inner_files] once the loop has ended with [sel]. *)
Lemma sort_inner_files_eq environ nzbget st v nzb_id data sel :
  environ !! "NZBNA_NZBID" = Some v ->
  Py.int v = Some nzb_id ->
  control_configured environ ->
  h_query nzbget (listfiles nzb_id) = Some data ->
  scan_lines (Py.splitlines data) no_selection = Ret sel ->
  sort_inner_files environ nzbget st
  = (if truthy (file_id sel) then
       print ("[INFO] Moving last rar-file to the top: "
              +:+ default "None" (file_name sel)) ;;
       connectNzbget environ nzbget ;;
       editqueue_FileMoveTop nzbget [default 0 (file_id sel)]
     else print "[INFO] Skipping sorting since could not find any rar-files")
      (State (st_fs st) (st_out st) (st_rpc st ++ [Queried (listfiles nzb_id)])).
Proof.
  intros Hid Hint Hc Hq Hscan.
  unfold sort_inner_files, getenv.
  rewrite Hid, Hint. unfold bind at 1, ret at 1. unfold bind at 1.
  rewrite (callNzbget_run _ _ _ _ _ Hc Hq). unfold bind at 1, lift.
  rewrite Hscan. reflexivity.
Qed.





(** The example of the specification: of a.part1.rar, a.part2.rar and
    a.part10.rar the last one is moved to the top. *)
Lemma sort_inner_files_three_volumes :
  let environ : gmap string string :=
    list_to_map ([("NZBNA_NZBID", "5")] ++ control_env) in
  entries None (Py.splitlines three_volumes)
  = [(Some 1, "a.part1.rar"); (Some 2, "a.part2.rar"); (Some 3, "a.part10.rar")] /\
  sort_inner_files environ (files_host three_volumes) empty_state
  = (Ret tt,
     State (Filesystem ∅ ∅)
       ["[INFO] Moving last rar-file to the top: a.part10.rar"]
       [Queried (listfiles 5); FileMoveTop [3]]).
Proof. intros environ. split; vm_compute; reflexivity. Qed.

(** A [Filename] line before any [ID] line ends the loop with an
    exception: [cur_id] is not bound yet. *)
Lemma scan_lines_filename_before_id :
  scan_lines (Py.splitlines (filename_key +:+ "a.part1.rar" +:+ dq +:+ ","))
    no_selection = Raise UnboundLocalError.
Proof. vm_compute. reflexivity. Qed.


(** The truth test of line 203 takes the id 0 for no file at all: an
    entry with that id is selected and skipped. *)
Lemma sort_inner_files_skips_id_zero :
  let environ : gmap string string :=
    list_to_map ([("NZBNA_NZBID", "5")] ++ control_env) in
  let data := file_entry "0" "a.part1.rar" in
  entries None (Py.splitlines data) = [(Some 0, "a.part1.rar")] /\
  volume_number "a.part1.rar" = Some 1 /\
  sort_inner_files environ (files_host data) empty_state
  = (Ret tt,
     State (Filesystem ∅ ∅)
       ["[INFO] Skipping sorting since could not find any rar-files"]
       [Queried (listfiles 5)]).
Proof. intros environ data. repeat split; vm_compute; reflexivity. Qed.

(** ** The sentinels of [main] *)

Lemma respects_any {A} (m : M A) st :
  respects (fun _ => True) m -> exists new, st_out (m st).2 = st_out st ++ new.
Proof. intros H. destruct (H st) as [_ (new & Hnew & _)]. eauto. Qed.

Lemma getenv_is_true (environ : gmap string string) k v :
  getenv_is environ k v = true -> environ !! k = Some v.
Proof. intros H. apply bool_decide_eq_true_1 in H. exact H. Qed.

Lemma new_output_elem st st' mid line :
  st_out st' = st_out st ++ mid -> line ∈ mid -> line ∈ new_output st st'.
Proof. intros H Hin. rewrite (new_output_app _ _ _ H). assumption. Qed.

Lemma reorder_trigger_event (environ : gmap string string) :
  reorder_trigger environ = true -> in_environ environ "NZBNA_EVENT" = true.
Proof.
  unfold reorder_trigger. intros H.
  apply orb_true_iff in H as [H|H]; [|apply andb_true_iff in H as [H _]];
    apply getenv_is_true in H; eapply in_environ_true; eassumption.
Qed.

(** [main] once the gatekeeper has let the call through and the context
    has been read. *)
Lemma main_run environ nzbget st st1 dir name :
  startCheck environ nzbget st = (Ret tt, st1) ->
  environ !! (Prefix environ +:+ "DIRECTORY") = Some dir ->
  environ !! (Prefix environ +:+ "NZBNAME") = Some name ->
  main environ nzbget st
  = (reorder_block environ nzbget name ;;
     scan_block environ nzbget (Prefix environ) dir name) st1.
Proof.
  intros Hstart Hdir Hname. unfold main.
  erewrite bind_ret by eassumption. cbv zeta.
  erewrite bind_ret by (apply environ_item_run; eassumption).
  erewrite bind_ret by (apply environ_item_run; eassumption).
  reflexivity.
Qed.

Lemma prefix_queue (environ : gmap string string) :
  in_environ environ "NZBNA_EVENT" = true -> Prefix environ = "NZBNA_".
Proof. intros H. unfold Prefix. rewrite H. reflexivity. Qed.

Lemma prefix_pp (environ : gmap string string) :
  in_environ environ "NZBNA_EVENT" = false -> Prefix environ = "NZBPP_".
Proof. intros H. unfold Prefix. rewrite H. reflexivity. Qed.

(** When [main] reaches the reorder trigger with the trigger on, and
    [sort_inner_files] returns, the sentinel NZBPR_BANNEDFILES_SORTED=yes
    is the argument of a [print], whatever the listing held and whether
    or not a reorder command was sent. *)
Lemma sorted_flag_printed_after_reorder
    (environ : gmap string string) (nzbget : host) (st st1 st2 : state)
    (dir name : string) :
  startCheck environ nzbget st = (Ret tt, st1) ->
  environ !! "NZBNA_DIRECTORY" = Some dir ->
  environ !! "NZBNA_NZBNAME" = Some name ->
  reorder_trigger environ = true ->
  sort_inner_files environ nzbget
    (print ("[INFO] Sorting inner files for earlier file detection in " +:+ name)
       st1).2 = (Ret tt, st2) ->
  sorted_sentinel ∈ new_output st (script environ nzbget st).2.
Proof.
  intros Hstart Hdir Hname Htrig Hsort.
  pose proof (prefix_queue environ (reorder_trigger_event environ Htrig)) as Hp.
  destruct (respects_any (startCheck environ nzbget) st) as [n1 H1].
  { apply respects_startCheck. auto. }
  rewrite Hstart in H1. simpl in H1.
  destruct (respects_any (sort_inner_files environ nzbget)
              (print ("[INFO] Sorting inner files for earlier file detection in "
                      +:+ name) st1).2) as [n2 H2].
  { apply respects_sort_inner_files. auto. }
  rewrite Hsort in H2. simpl in H2.
  set (st3 := State (st_fs st2) (st_out st2 ++ [sorted_sentinel]) (st_rpc st2)).
  set (rest := ((if getenv_is environ "NZBNA_EVENT" "NZB_ADDED"
                 then sys_exit POSTPROCESS_NONE else ret tt) ;;
                scan_block environ nzbget "NZBNA_" dir name ;;
                sys_exit POSTPROCESS_SUCCESS) : M unit).
  assert (Hrun : (script environ nzbget st).2 = (rest st3).2).
  { unfold script. unfold bind at 1.
    rewrite (main_run environ nzbget st st1 dir name Hstart)
      by (rewrite Hp; assumption).
    rewrite Hp. unfold reorder_block. rewrite Htrig.
    unfold bind at 1. unfold bind at 1. unfold bind at 1.
    simpl in Hsort. simpl. rewrite Hsort.
    unfold rest, st3, bind. simpl.
    destruct (getenv_is environ "NZBNA_EVENT" "NZB_ADDED"); simpl; [reflexivity|].
    destruct (scan_block environ nzbget "NZBNA_" dir name _) as [[?|?|?] ?];
      reflexivity. }
  destruct (respects_any rest st3) as [n3 H3].
  { unfold rest.
    frame (fun (l : string) (_ : l <> clear_sentinel) => I)
      ltac:(first [ apply respects_scan_block; auto ]). }
  rewrite Hrun. eapply new_output_elem.
  - rewrite H3. unfold st3. simpl. rewrite H2. simpl. rewrite H1.
    rewrite <- !app_assoc. reflexivity.
  - rewrite !elem_of_app. right. right. right. left.
    apply list_elem_of_singleton. reflexivity.
Qed.

(** A run in which no file name matches and no reorder command is sent. *)
Lemma sorted_flag_without_reorder :
  let nzbget := files_host (file_entry "1" "movie.mkv") in
  let st := state_of [("/d", download_dir)] in
  volume_number "movie.mkv" = None /\
  st_rpc (script file_downloaded_env nzbget st).2 = [Queried (listfiles 5)] /\
  st_out (script file_downloaded_env nzbget st).2
  = ["[INFO] Sorting inner files for earlier file detection in n";
     "[INFO] Skipping sorting since could not find any rar-files";
     "[NZB] NZBPR_BANNEDFILES_SORTED=yes";
     "[INFO] Detecting banned files in n";
     "[INFO] No Banned files detected in n yet";
     "[DETAIL] Detecting banned files completed for n"].
Proof. intros nzbget st. repeat split; vm_compute; reflexivity. Qed.

Lemma emitted_between st stA stB st' line :
  extends (fun _ => True) st stA ->
  st_out stB = st_out stA ++ [line] ->
  extends (fun _ => True) stB st' ->
  line ∈ new_output st st'.
Proof.
  intros [_ (n1 & H1 & _)] HB [_ (n2 & H2 & _)].
  apply (new_output_elem st st' (n1 ++ [line] ++ n2)).
  - rewrite H2, HB, H1, <- !app_assoc. reflexivity.
  - rewrite !elem_of_app. right. left. apply list_elem_of_singleton. reflexivity.
Qed.

Lemma respects_run {A} P (m : M A) st o st' :
  respects P m -> m st = (o, st') -> extends P st st'.
Proof. intros H E. specialize (H st). rewrite E in H. exact H. Qed.

Lemma any_line (l : string) : l <> clear_sentinel -> True.
Proof. auto. Qed.

(** Without a persisted verdict nothing prints the clearing sentinel. *)
Lemma no_clear_without_verdict environ nzbget st :
  getenv_is environ "NZBPR_PPSTATUS_BANNED" "yes" = false ->
  clear_sentinel ∉ new_output st (script environ nzbget st).2.
Proof.
  intros Hno.
  assert (H : respects (fun l => l <> clear_sentinel) (script environ nzbget)).
  { apply respects_script; [auto|]. rewrite Hno. discriminate. }
  destruct (H st) as [_ (new & Hnew & Hall)].
  rewrite (new_output_app _ _ _ Hnew). intros Hin.
  rewrite Forall_forall in Hall. exact (Hall _ Hin eq_refl).
Qed.

(** When [main] reaches the scan and [detectBannedFile] finds no banned
    file, the sentinel that clears the persisted verdict is the argument
    of a [print] if and only if NZBPR_PPSTATUS_BANNED is 'yes'. *)
Lemma clear_printed_iff_previously_banned
    (environ : gmap string string) (nzbget : host) (st st1 st2 st3 : state)
    (dir name : string) :
  startCheck environ nzbget st = (Ret tt, st1) ->
  environ !! (Prefix environ +:+ "DIRECTORY") = Some dir ->
  environ !! (Prefix environ +:+ "NZBNAME") = Some name ->
  reorder_block environ nzbget name st1 = (Ret tt, st2) ->
  detectBannedFile environ dir
    (print ("[INFO] Detecting banned files in " +:+ name) st2).2 = (Ret None, st3) ->
  (clear_sentinel ∈ new_output st (script environ nzbget st).2 <->
   environ !! "NZBPR_PPSTATUS_BANNED" = Some "yes").
Proof.
  intros Hstart Hdir Hname Hreorder Hscan. split.
  - intros Hin.
    destruct (getenv_is environ "NZBPR_PPSTATUS_BANNED" "yes") eqn:E;
      [apply getenv_is_true; assumption|].
    exfalso. exact (no_clear_without_verdict environ nzbget st E Hin).
  - intros Hyes.
    assert (Hb : getenv_is environ "NZBPR_PPSTATUS_BANNED" "yes" = true).
    { apply bool_decide_eq_true_2. exact Hyes. }
    set (stA := State (st_fs st3)
                  (st_out st3 ++ ["[INFO] No Banned files detected in " +:+ name
                                  +:+ " yet"]) (st_rpc st3)).
    set (stB := State (st_fs stA) (st_out stA ++ [clear_sentinel]) (st_rpc stA)).
    set (rest := (print ("[DETAIL] Detecting banned files completed for " +:+ name) ;;
                  (if String.eqb (Prefix environ) "NZBPP_"
                   then cleanUp environ nzbget else ret tt) ;;
                  sys_exit POSTPROCESS_SUCCESS) : M unit).
    assert (Hrun : (script environ nzbget st).2 = (rest stB).2).
    { unfold script. unfold bind at 1.
      rewrite (main_run environ nzbget st st1 dir name Hstart Hdir Hname).
      unfold bind at 1. rewrite Hreorder. unfold scan_block.
      unfold bind at 1. unfold bind at 1. simpl in Hscan. simpl. rewrite Hscan.
      simpl. rewrite Hb. unfold rest, bind. simpl. fold stA. fold stB.
      destruct (String.eqb (Prefix environ) "NZBPP_"); [|reflexivity].
      destruct (cleanUp environ nzbget _) as [[?|?|?] ?]; reflexivity. }
    rewrite Hrun. apply (emitted_between st stA stB); [|reflexivity|].
    + eapply extends_trans.
      { eapply respects_run; [apply respects_startCheck; apply any_line|exact Hstart]. }
      eapply extends_trans.
      { eapply respects_run;
          [apply respects_reorder_block; apply any_line|exact Hreorder]. }
      eapply extends_trans.
      { apply (respects_print (fun _ => True)
                 ("[INFO] Detecting banned files in " +:+ name) I st2). }
      eapply extends_trans.
      { eapply respects_run;
          [apply respects_detectBannedFile; apply any_line|exact Hscan]. }
      apply (respects_print (fun _ => True)
               ("[INFO] No Banned files detected in " +:+ name +:+ " yet") I st3).
    + assert (Hr : respects (fun _ => True) rest).
      { unfold rest.
        frame any_line
          ltac:(first [ apply respects_cleanUp; apply any_line
                      | apply respects_print; exact I ]). }
      exact (Hr stB).
Qed.

(** The output of a run that clears the persisted verdict. *)
Lemma redo_clears_the_verdict :
  script redo_env dead_host (state_of [("/d", download_dir); ("/tmp/BannedFiles", [])])
  = (Exit POSTPROCESS_SUCCESS,
     State (Filesystem (list_to_map [("/d", download_dir); ("/tmp/BannedFiles", [])]) ∅)
       ["[INFO] Detecting banned files in n";
        "[INFO] No Banned files detected in n yet";
        "[NZB] NZBPR_PPSTATUS_BANNED=";
        "[DETAIL] Detecting banned files completed for n"]
       []).
Proof. vm_compute. reflexivity. Qed.

(** ** Housekeeping without a marker directory *)

Lemma cleanUp_raises environ nzbget st :
  marker_dir_missing environ (st_fs st) ->
  exists e, cleanUp environ nzbget st = (Raise e, st).
Proof.
  unfold marker_dir_missing, cleanUp, getenv. intros H.
  destruct (environ !! "NZBOP_TEMPDIR") as [t|]; [|eexists; reflexivity].
  unfold fs_exists in H. apply orb_false_iff in H as [H _].
  apply bool_decide_eq_false_1 in H.
  assert (Hd : fs_dirs (st_fs st) !! marker_dir t = None).
  { destruct (fs_dirs (st_fs st) !! marker_dir t); [exfalso; eauto|reflexivity]. }
  exists OSError. unfold bind at 1, ret at 1. unfold bind at 1, os_listdir, fs_listdir.
  fold (marker_dir t). rewrite Hd. reflexivity.
Qed.

Lemma getenv_is_false (environ : gmap string string) k v :
  environ !! k <> Some v -> getenv_is environ k v = false.
Proof. intros H. apply bool_decide_eq_false_2. exact H. Qed.

Lemma getenv_is_eq (environ : gmap string string) k v :
  environ !! k = Some v -> getenv_is environ k v = true.
Proof. intros H. apply bool_decide_eq_true_2. exact H. Qed.

Lemma in_environ_is_Some (environ : gmap string string) k :
  is_Some (environ !! k) -> in_environ environ k = true.
Proof. intros [v H]. eapply in_environ_true. eassumption. Qed.

Lemma raises_bind {A B} (m : M A) (k : A -> M B) st :
  raises (m st) -> raises (bind m k st).
Proof.
  intros [e H]. exists e. unfold bind. destruct (m st) as [[?|?|?] ?];
    simpl in *; congruence.
Qed.

Lemma raises_bind_ret {A B} (m : M A) (k : A -> M B) st a st' :
  m st = (Ret a, st') -> raises (k a st') -> raises (bind m k st).
Proof. intros H Hk. erewrite bind_ret by eassumption. assumption. Qed.

Lemma cleanUp_raises' environ nzbget st :
  marker_dir_missing environ (st_fs st) -> raises (cleanUp environ nzbget st).
Proof.
  intros H. destruct (cleanUp_raises environ nzbget st H) as [e He].
  exists e. rewrite He. reflexivity.
Qed.

Lemma cleanUp_raises_same_fs environ nzbget st :
  marker_dir_missing environ (st_fs st) ->
  exists e, forall st', st_fs st' = st_fs st ->
                        cleanUp environ nzbget st' = (Raise e, st').
Proof.
  unfold marker_dir_missing, cleanUp, getenv. intros H.
  destruct (environ !! "NZBOP_TEMPDIR") as [t|]; [|eexists; reflexivity].
  unfold fs_exists in H. apply orb_false_iff in H as [H _].
  apply bool_decide_eq_false_1 in H.
  assert (Hd : fs_dirs (st_fs st) !! marker_dir t = None).
  { destruct (fs_dirs (st_fs st) !! marker_dir t); [exfalso; eauto|reflexivity]. }
  exists OSError. intros st' Hfs.
  unfold bind at 1, ret at 1. unfold bind at 1, os_listdir, fs_listdir.
  fold (marker_dir t). rewrite Hfs, Hd. reflexivity.
Qed.

(** Past its first two checks, [startCheck] either raises or returns without
    having touched the state, and then none of its early exits applied. *)
Lemma startCheck_without_marker_dir environ nzbget st :
  marker_dir_missing environ (st_fs st) ->
  gate_open environ ->
  raises (startCheck environ nzbget st) \/
  (startCheck environ nzbget st = (Ret tt, st) /\
   environ !! "NZBPP_STATUS" <> Some "FAILURE/BAD" /\
   (forall d, environ !! "NZBPP_DIRECTORY" = Some d ->
              fs_exists (st_fs st) d = true) /\
   environ !! "NZBPP_TOTALSTATUS" <> Some "FAILURE").
Proof.
  intros Hm (Hsome & Hac & Hknown).
  destruct (cleanUp_raises_same_fs environ nzbget st Hm) as [e He].
  assert (Hgate : negb (in_environ environ "NZBNA_EVENT"
                        || in_environ environ "NZBPP_DIRECTORY")
                  || negb (in_environ environ "NZBOP_ARTICLECACHE") = false).
  { rewrite (in_environ_is_Some _ _ Hac).
    destruct Hsome as [H|H]; rewrite (in_environ_is_Some _ _ H);
      [reflexivity|]. rewrite orb_true_r. reflexivity. }
  unfold startCheck, getenv. rewrite Hgate. unfold getenv in Hknown. rewrite Hknown.
  unfold bind, ret, print, get_fs, sys_exit, raise, getenv. simpl.
  destruct (getenv_is environ "NZBPP_STATUS" "FAILURE/BAD") eqn:Es.
  { left.
    destruct (getenv_is environ "NZBPR_PPSTATUS_BANNED" "yes");
      [destruct (environ !! "NZBPR_PPSTATUS_BANNEDFILE")|];
      try rewrite He by reflexivity; eexists; reflexivity. }
  destruct (environ !! "NZBPP_DIRECTORY") as [d|] eqn:Ed.
  - destruct (fs_exists (st_fs st) d) eqn:Ex; simpl.
    + destruct (getenv_is environ "NZBPP_TOTALSTATUS" "FAILURE") eqn:Et.
      * left. rewrite He by reflexivity. eexists; reflexivity.
      * right. split; [reflexivity|]. split.
        { intros H. apply getenv_is_eq in H. congruence. }
        split; [intros d' [= <-]; assumption|].
        intros H. apply getenv_is_eq in H. congruence.
    + left. rewrite He by reflexivity. eexists; reflexivity.
  - destruct (getenv_is environ "NZBPP_TOTALSTATUS" "FAILURE") eqn:Et.
    + left. rewrite He by reflexivity. eexists; reflexivity.
    + right. split; [reflexivity|]. split.
      { intros H. apply getenv_is_eq in H. congruence. }
      split; [intros d' [=]|].
      intros H. apply getenv_is_eq in H. congruence.
Qed.

Lemma environ_item_missing (environ : gmap string string) k st :
  environ !! k = None -> environ_item environ k st = (Raise (KeyError k), st).
Proof. intros H. unfold environ_item. rewrite H. reflexivity. Qed.

Lemma detectBannedFile_outcome environ dir st :
  raises (detectBannedFile environ dir st) \/
  exists r st', detectBannedFile environ dir st = (Ret r, st') /\
                st_fs st' = st_fs st.
Proof.
  unfold detectBannedFile, bind, os_listdir, get_fs.
  destruct (fs_listdir (st_fs st) dir) as [names|]; [|left; eexists; reflexivity].
  right.
  destruct (detect_loop_find environ
              (List.filter (fun o => fs_isfile (st_fs st) dir o) names) st)
    as (st' & Hrun & Hfs & _).
  eauto.
Qed.

Lemma scan_block_raises environ nzbget dir name st :
  marker_dir_missing environ (st_fs st) ->
  raises (scan_block environ nzbget "NZBPP_" dir name st).
Proof.
  intros Hm. unfold scan_block.
  eapply raises_bind_ret; [reflexivity|].
  destruct (detectBannedFile_outcome environ dir
              (State (st_fs st)
                 (st_out st ++ ["[INFO] Detecting banned files in " +:+ name])
                 (st_rpc st)))
    as [Hr|(r & st' & Hrun & Hfs)]; [apply raises_bind; exact Hr|].
  eapply raises_bind_ret; [exact Hrun|]. simpl in Hfs.
  destruct (found_banned r).
  - eapply raises_bind_ret; [reflexivity|].
    eapply raises_bind_ret; [reflexivity|].
    apply cleanUp_raises'. simpl. rewrite Hfs. exact Hm.
  - destruct (getenv_is environ "NZBPR_PPSTATUS_BANNED" "yes").
    + eapply raises_bind_ret; [reflexivity|].
      eapply raises_bind_ret; [reflexivity|].
      apply cleanUp_raises'. simpl. rewrite Hfs. exact Hm.
    + eapply raises_bind_ret; [reflexivity|].
      eapply raises_bind_ret; [reflexivity|].
      apply cleanUp_raises'. simpl. rewrite Hfs. exact Hm.
Qed.

(** C8: when NZBOP_TEMPDIR is unset or its BannedFiles subdirectory does
    not exist, [cleanUp] raises; so, for a call that passes the first two
    checks, each early exit of [startCheck] that runs [cleanUp] raises,
    and so does every run of the script that reaches [cleanUp]: none ends
    with the exit status written after the call. *)
Theorem housekeeping_raises_without_marker_dir
    (environ : gmap string string) (nzbget : host) (st : state) :
  marker_dir_missing environ (st_fs st) ->
  (exists e, cleanUp environ nzbget st = (Raise e, st)) /\
  (gate_open environ -> early_exit environ (st_fs st) ->
   raises (startCheck environ nzbget st)) /\
  (gate_open environ -> reaches_cleanUp environ (st_fs st) ->
   raises (script environ nzbget st)).
Proof.
  intros Hm. split; [apply cleanUp_raises; assumption|].
  assert (Hearly : gate_open environ -> early_exit environ (st_fs st) ->
                   raises (startCheck environ nzbget st)).
  { intros Hgate Hearly.
    destruct (startCheck_without_marker_dir environ nzbget st Hm Hgate)
      as [Hr|(Hstart & Hs & Hd & Ht)]; [assumption|]. exfalso.
    destruct Hearly as [H|[(d & Hd1 & Hd2)|H]]; try contradiction.
    rewrite (Hd d Hd1) in Hd2. discriminate. }
  split; [exact Hearly|].
  intros Hgate [Hreach|Hev].
  { unfold script, main. apply raises_bind. apply raises_bind.
    apply Hearly; assumption. }
  destruct (startCheck_without_marker_dir environ nzbget st Hm Hgate)
    as [Hr|(Hstart & _)].
  { unfold script, main. apply raises_bind. apply raises_bind. exact Hr. }
  destruct Hgate as ([[v Hv]|[d Hd]] & _ & _); [congruence|].
  assert (Hin : in_environ environ "NZBNA_EVENT" = false)
    by (apply in_environ_false; assumption).
  unfold script. apply raises_bind. unfold main.
  eapply raises_bind_ret; [exact Hstart|].
  unfold Prefix. rewrite Hin.
  eapply raises_bind_ret; [apply environ_item_run; exact Hd|].
  destruct (environ !! "NZBPP_NZBNAME") as [name|] eqn:En.
  - eapply raises_bind_ret; [apply environ_item_run; exact En|].
    assert (Htrig : reorder_trigger environ = false).
    { unfold reorder_trigger.
      rewrite !getenv_is_false by (rewrite Hev; discriminate). reflexivity. }
    eapply raises_bind_ret; [unfold reorder_block; rewrite Htrig; reflexivity|].
    apply scan_block_raises. exact Hm.
  - apply raises_bind. exists (KeyError "NZBPP_NZBNAME").
    exact (f_equal fst (environ_item_missing environ "NZBPP_NZBNAME" st En)).
Qed.

Lemma housekeeping_raises_without_marker_dir_witness :
  let st := state_of [("/d", download_dir)] in
  marker_dir_missing failed_env (st_fs st) /\
  (exists e, cleanUp failed_env dead_host st = (Raise e, st)) /\
  raises (startCheck failed_env dead_host st) /\
  raises (script failed_env dead_host st).
Proof.
  intros st.
  assert (Hm : marker_dir_missing failed_env (st_fs st))
    by (vm_compute; reflexivity).
  assert (Hgate : gate_open failed_env).
  { split; [right; eexists; reflexivity|].
    split; [eexists; reflexivity|vm_compute; reflexivity]. }
  assert (Hearly : early_exit failed_env (st_fs st))
    by (right; right; reflexivity).
  destruct (housekeeping_raises_without_marker_dir failed_env dead_host st Hm)
    as (H1 & H2 & H3).
  split; [exact Hm|]. split; [exact H1|].
  split; [exact (H2 Hgate Hearly)|exact (H3 Hgate (or_introl Hearly))].
Defined.

(** In that run the script was to leave with POSTPROCESS_NONE; it ends
    with the [OSError] of [os.listdir]. *)
Lemma failed_download_ends_in_OSError :
  (script failed_env dead_host (state_of [("/d", download_dir)])).1 = Raise OSError.
Proof. vm_compute. reflexivity. Qed.

(** ** Further properties of the script *)

(** ** Bounds on what a run can do *)

Section Keeps.

Variable B : bounds.

Lemma within_refl {A} (o : outcome A) st :
  (forall c, o = Exit c -> b_exit B c) -> within B st (o, st).
Proof.
  intros H. split; [reflexivity|]. split; [reflexivity|].
  split; [exists []; rewrite app_nil_r; auto|].
  split; [exists []; rewrite app_nil_r; auto|]. exact H.
Qed.

Lemma within_trans {A B'} (o1 : outcome A) (o2 : outcome B') st1 st2 st3 :
  within B st1 (o1, st2) -> within B st2 (o2, st3) -> within B st1 (o2, st3).
Proof.
  intros (Ho1 & Hd1 & (r1 & Hr1 & Hq1) & (n1 & Hn1 & Hp1) & _)
         (Ho2 & Hd2 & (r2 & Hr2 & Hq2) & (n2 & Hn2 & Hp2) & He).
  unfold within. simpl in *. split; [congruence|]. split.
  { intros dir Hdir. rewrite (Hd2 dir Hdir). apply Hd1. assumption. }
  split.
  { exists (r1 ++ r2). rewrite Hr2, Hr1, app_assoc. split; [reflexivity|].
    apply Forall_app; auto. }
  split; [|exact He].
  exists (n1 ++ n2). rewrite Hn2, Hn1, app_assoc. split; [reflexivity|].
  apply Forall_app; auto.
Qed.

Lemma keeps_ret {A} (a : A) : keeps B (ret a).
Proof. intros st. apply within_refl. discriminate. Qed.

Lemma keeps_raise {A} e : keeps B (@raise A e).
Proof. intros st. apply within_refl. discriminate. Qed.

Lemma keeps_exit {A} c : b_exit B c -> keeps B (@sys_exit A c).
Proof. intros H st. apply within_refl. intros c' [= <-]. exact H. Qed.

Lemma keeps_lift {A} (o : outcome A) :
  (forall c, o <> Exit c) -> keeps B (lift o).
Proof. intros H st. apply within_refl. intros c Hc. destruct (H c Hc). Qed.

Lemma keeps_get_fs : keeps B get_fs.
Proof. intros st. apply within_refl. discriminate. Qed.

Lemma keeps_bind {A A'} (m : M A) (k : A -> M A') :
  keeps B m -> (forall a, keeps B (k a)) -> keeps B (bind m k).
Proof.
  intros Hm Hk st. unfold bind. specialize (Hm st).
  destruct (m st) as [[a|c|e] st1] eqn:E.
  - specialize (Hk a st1). destruct (k a st1) as [o st2].
    eapply within_trans; eassumption.
  - destruct Hm as (H1 & H2 & H3 & H4 & H5). repeat split; try assumption.
    intros c' [= <-]. apply H5. reflexivity.
  - destruct Hm as (H1 & H2 & H3 & H4 & H5). repeat split; try assumption.
    discriminate.
Qed.

Lemma keeps_bind_ret {A A'} (a : A) (k : A -> M A') :
  keeps B (k a) -> keeps B (bind (ret a) k).
Proof. intros H st. exact (H st). Qed.

Lemma keeps_print line : b_out B line -> keeps B (print line).
Proof.
  intros HP st. split; [reflexivity|]. split; [reflexivity|].
  split; [exists []; simpl; rewrite app_nil_r; auto|].
  split; [exists [line]; auto|]. discriminate.
Qed.

Lemma keeps_record_rpc r : b_rpc B r -> keeps B (record_rpc r).
Proof.
  intros HQ st. split; [reflexivity|]. split; [reflexivity|].
  split; [exists [r]; auto|].
  split; [exists []; simpl; rewrite app_nil_r; auto|]. discriminate.
Qed.

Lemma keeps_os_listdir dir : keeps B (os_listdir dir).
Proof.
  intros st. unfold os_listdir.
  destruct (fs_listdir (st_fs st) dir); apply within_refl; discriminate.
Qed.

Lemma keeps_os_remove dir name : b_dir B dir -> keeps B (os_remove dir name).
Proof.
  intros HD st. unfold os_remove, fs_remove.
  destruct (fs_dirs (st_fs st) !! dir) as [es|];
    [|apply within_refl; discriminate].
  destruct (find_entry name es) as [e|]; [|apply within_refl; discriminate].
  destruct (removable e); [|apply within_refl; discriminate].
  split; [reflexivity|]. split.
  { intros d Hd. simpl. apply lookup_insert_ne. intros ->. contradiction. }
  split; [exists []; simpl; rewrite app_nil_r; auto|].
  split; [exists []; simpl; rewrite app_nil_r; auto|]. discriminate.
Qed.

Lemma keeps_try_except body handler :
  keeps B body -> keeps B handler -> keeps B (try_except body handler).
Proof.
  intros Hb Hh st. unfold try_except. specialize (Hb st).
  destruct (body st) as [[a|c|e] st1]; [assumption| |];
    (specialize (Hh st1); destruct (handler st1) as [o st2];
     eapply within_trans; eassumption).
Qed.

Lemma keeps_for_each {A} (l : list A) body :
  (forall x, keeps B (body x)) -> keeps B (for_each l body).
Proof.
  intros Hb. induction l as [|x l IH]; simpl.
  - apply keeps_ret.
  - apply keeps_bind; [apply Hb|intros _; apply IH].
Qed.

Lemma keeps_environ_item environ k : keeps B (environ_item environ k).
Proof.
  unfold environ_item. destruct (environ !! k);
    [apply keeps_ret|apply keeps_raise].
Qed.

End Keeps.

Lemma parse_nzbids_no_exit lines : forall acc c, parse_nzbids lines acc <> Exit c.
Proof.
  induction lines as [|line rest IH]; intros acc c; simpl; [discriminate|].
  destruct (Py.startswith line nzbid_key); [|apply IH].
  destruct (Py.int _); [apply IH|discriminate].
Qed.

Lemma consider_no_exit name s c : consider name s <> Exit c.
Proof.
  unfold consider. destruct (Regex.volume_digits name); [|discriminate].
  destruct (Py.int _); [|discriminate].
  destruct (better _ _); [|discriminate].
  destruct (cur_id s); discriminate.
Qed.

Lemma scan_line_no_exit line s c : scan_line line s <> Exit c.
Proof.
  unfold scan_line. destruct (Py.startswith line id_key).
  - destruct (Py.int _); [|discriminate].
    destruct (Py.startswith line filename_key);
      [apply consider_no_exit|discriminate].
  - destruct (Py.startswith line filename_key);
      [apply consider_no_exit|discriminate].
Qed.

Lemma scan_lines_no_exit lines : forall s c, scan_lines lines s <> Exit c.
Proof.
  induction lines as [|line rest IH]; intros s c; simpl; [discriminate|].
  destruct (scan_line line s) as [s'|c'|e] eqn:E; [apply IH| |discriminate].
  destruct (scan_line_no_exit line s c' E).
Qed.

Ltac not_directive :=
  let H := fresh in
  intros H;
  unfold directives, banned_sentinel, mark_bad, clear_sentinel,
    sorted_sentinel in H;
  rewrite !elem_of_cons in H; cbn in H;
  repeat match type of H with
         | _ \/ _ => destruct H as [H|H]
         end;
  first [ discriminate H | apply elem_of_nil in H; exact H ].

Ltac exit_code :=
  unfold POSTPROCESS_SUCCESS, POSTPROCESS_NONE; rewrite !elem_of_cons; tauto.

Ltac bound_step Hout Hexit :=
  first
    [ apply keeps_ret | apply keeps_raise
    | apply keeps_exit; apply Hexit; exit_code
    | apply keeps_get_fs
    | apply keeps_os_listdir
    | apply keeps_environ_item
    | apply keeps_print; apply Hout; not_directive
    | apply keeps_try_except
    | apply keeps_for_each; intros ?
    | apply keeps_bind_ret
    | apply keeps_bind; [|intros ?]
    | match goal with
      | |- keeps _ (if ?b then _ else _) => destruct b eqn:?
      | |- keeps _ (match ?x with _ => _ end) => destruct x eqn:?
      | |- keeps _ (let _ := _ in _) => cbv zeta
      end ].

Ltac bound Hout Hexit known := repeat first [ known | bound_step Hout Hexit ].

Section ScriptKeeps.

Variable B : bounds.
Variable environ : gmap string string.
Variable nzbget : host.
Hypothesis Hout : forall line, line ∉ directives -> b_out B line.
Hypothesis Hexit : forall c, c ∈ [0; 1; 93; 95] -> b_exit B c.

Lemma keeps_callNzbget q :
  b_rpc B (Queried q) -> keeps B (callNzbget environ nzbget q).
Proof.
  intros Hq. unfold callNzbget.
  bound Hout Hexit ltac:(apply keeps_record_rpc; exact Hq).
Qed.

Lemma keeps_connectNzbget : keeps B (connectNzbget environ nzbget).
Proof. unfold connectNzbget. bound Hout Hexit fail. Qed.

Lemma keeps_remove_temp folder id :
  b_dir B folder -> keeps B (remove_temp folder id).
Proof.
  intros Hd. unfold remove_temp.
  bound Hout Hexit ltac:(apply keeps_os_remove; exact Hd).
Qed.

Hypothesis Hgroups : b_rpc B (Queried listgroups).
Hypothesis Hmarker :
  forall t, environ !! "NZBOP_TEMPDIR" = Some t -> b_dir B (marker_dir t).

Lemma keeps_cleanUp : keeps B (cleanUp environ nzbget).
Proof.
  unfold cleanUp, getenv.
  destruct (environ !! "NZBOP_TEMPDIR") as [t|] eqn:Et.
  - bound Hout Hexit
      ltac:(first [ apply keeps_callNzbget; exact Hgroups
                  | apply keeps_lift; apply parse_nzbids_no_exit
                  | apply keeps_remove_temp; apply Hmarker; reflexivity ]).
  - intros st. apply within_refl. discriminate.
Qed.

Lemma keeps_startCheck : keeps B (startCheck environ nzbget).
Proof. unfold startCheck. bound Hout Hexit ltac:(apply keeps_cleanUp). Qed.

Lemma keeps_detect_loop l : keeps B (detect_loop environ l).
Proof. induction l as [|item l IH]; simpl; bound Hout Hexit ltac:(exact IH). Qed.

Lemma keeps_detectBannedFile dir : keeps B (detectBannedFile environ dir).
Proof. unfold detectBannedFile. bound Hout Hexit ltac:(apply keeps_detect_loop). Qed.

Lemma truthy_nonzero o :
  truthy o = true -> exists i, o = Some i /\ i <> 0.
Proof.
  destruct o as [i|]; [|discriminate]. simpl. intros H. exists i.
  split; [reflexivity|]. intros ->. discriminate.
Qed.

Lemma keeps_sort_inner_files :
  (forall n, b_rpc B (Queried (listfiles n))) ->
  (forall i, i <> 0 -> b_rpc B (FileMoveTop [i])) ->
  keeps B (sort_inner_files environ nzbget).
Proof.
  intros Hfiles Hedit. unfold sort_inner_files, editqueue_FileMoveTop.
  bound Hout Hexit
    ltac:(first [ apply keeps_callNzbget; apply Hfiles
                | apply keeps_lift; apply scan_lines_no_exit
                | apply keeps_connectNzbget
                | apply keeps_record_rpc;
                  match goal with
                  | H : truthy ?o = true |- _ =>
                      destruct (truthy_nonzero o H) as (? & -> & ?);
                      apply Hedit; assumption
                  end ]).
Qed.

Lemma keeps_reorder_block name :
  (reorder_trigger environ = true ->
   (forall n, b_rpc B (Queried (listfiles n))) /\
   (forall i, i <> 0 -> b_rpc B (FileMoveTop [i])) /\
   b_out B sorted_sentinel) ->
  keeps B (reorder_block environ nzbget name).
Proof.
  intros H. unfold reorder_block.
  destruct (reorder_trigger environ); [|apply keeps_ret].
  destruct (H eq_refl) as (Hfiles & Hedit & Hsorted).
  bound Hout Hexit
    ltac:(first [ apply keeps_sort_inner_files; assumption
                | apply keeps_print; exact Hsorted ]).
Qed.

Lemma keeps_scan_block pre dir name :
  b_out B banned_sentinel -> b_out B mark_bad ->
  (getenv_is environ "NZBPR_PPSTATUS_BANNED" "yes" = true ->
   b_out B clear_sentinel) ->
  keeps B (scan_block environ nzbget pre dir name).
Proof.
  intros Hb Hm Hc. unfold scan_block.
  bound Hout Hexit
    ltac:(first [ apply keeps_detectBannedFile | apply keeps_cleanUp
                | apply keeps_print; exact Hb | apply keeps_print; exact Hm
                | apply keeps_print; apply Hc; first [assumption|reflexivity] ]).
Qed.

Lemma keeps_main :
  (reorder_trigger environ = true ->
   (forall n, b_rpc B (Queried (listfiles n))) /\
   (forall i, i <> 0 -> b_rpc B (FileMoveTop [i])) /\
   b_out B sorted_sentinel) ->
  b_out B banned_sentinel -> b_out B mark_bad ->
  (getenv_is environ "NZBPR_PPSTATUS_BANNED" "yes" = true ->
   b_out B clear_sentinel) ->
  keeps B (main environ nzbget).
Proof.
  intros Hr Hb Hm Hc. unfold main.
  bound Hout Hexit
    ltac:(first [ apply keeps_startCheck | apply keeps_reorder_block; exact Hr
                | apply keeps_scan_block; assumption ]).
Qed.

Lemma keeps_script :
  (reorder_trigger environ = true ->
   (forall n, b_rpc B (Queried (listfiles n))) /\
   (forall i, i <> 0 -> b_rpc B (FileMoveTop [i])) /\
   b_out B sorted_sentinel) ->
  b_out B banned_sentinel -> b_out B mark_bad ->
  (getenv_is environ "NZBPR_PPSTATUS_BANNED" "yes" = true ->
   b_out B clear_sentinel) ->
  keeps B (script environ nzbget).
Proof.
  intros Hr Hb Hm Hc. unfold script.
  apply keeps_bind; [apply keeps_main; assumption|]. intros _.
  apply keeps_exit. apply Hexit. exit_code.
Qed.

End ScriptKeeps.

(** ** What the script never does *)

(** For bounds that allow every exit status. *)
Lemma any_status (c : Z) : c ∈ [0; 1; 93; 95] -> True.
Proof. auto. Qed.

(** X1: the only directory the script ever changes is the BannedFiles
    directory under NZBOP_TEMPDIR: every other directory, the download
    directory included, lists after the run exactly what it listed
    before, however the run ends. *)
Theorem script_touches_only_marker_dir
    (environ : gmap string string) (nzbget : host) (st : state) (dir : string) :
  (forall t, environ !! "NZBOP_TEMPDIR" = Some t -> dir <> marker_dir t) ->
  fs_dirs (st_fs (script environ nzbget st).2) !! dir = fs_dirs (st_fs st) !! dir.
Proof.
  intros Hdir.
  assert (H : keeps (marker_bounds environ) (script environ nzbget)).
  { apply keeps_script; simpl; auto. intros t Ht. exists t. auto. }
  destruct (H st) as (_ & Hd & _). apply Hd.
  intros (t & Ht & ->). exact (Hdir t Ht eq_refl).
Qed.

Lemma script_touches_only_marker_dir_witness :
  let st := state_of [("/d", download_dir); ("/tmp/BannedFiles", [plain "4"])] in
  fs_dirs (st_fs (script redo_env dead_host st).2) !! "/d" = fs_dirs (st_fs st) !! "/d".
Proof.
  intros st. apply (script_touches_only_marker_dir redo_env dead_host st "/d").
  intros t Ht. vm_compute in Ht. injection Ht as <-. vm_compute. discriminate.
Defined.

(** X2: unless the reorder trigger is on (NZB_ADDED, or FILE_DOWNLOADED
    without the sorted flag), the only remote call the script can make is
    the [listgroups] query of [cleanUp]: no file listing is asked for and
    no queue edit is sent. *)
Theorem script_queries_only_groups_without_trigger
    (environ : gmap string string) (nzbget : host) (st : state) :
  reorder_trigger environ = false ->
  Forall (fun r => r = Queried listgroups) (new_rpc st (script environ nzbget st).2).
Proof.
  intros Htrig.
  set (B := Bounds (fun _ => True) (fun r => r = Queried listgroups)
                   (fun _ => True) (fun _ => True)).
  assert (H : keeps B (script environ nzbget)).
  { apply keeps_script; simpl; auto. rewrite Htrig. discriminate. }
  destruct (H st) as (_ & _ & (new & Hnew & Hall) & _).
  unfold new_rpc. rewrite Hnew, drop_app_length. exact Hall.
Qed.

Lemma script_queries_only_groups_without_trigger_witness :
  Forall (fun r => r = Queried listgroups)
    (new_rpc marker_state (script redo_env dead_host marker_state).2).
Proof.
  apply (script_queries_only_groups_without_trigger redo_env dead_host marker_state).
  vm_compute. reflexivity.
Defined.

(** The line that sets NZBPR_BANNEDFILES_SORTED is the argument of a
    [print] only in a run whose reorder trigger is on. *)
Lemma sorted_flag_not_printed_without_trigger
    (environ : gmap string string) (nzbget : host) (st : state) :
  reorder_trigger environ = false ->
  sorted_sentinel ∉ new_output st (script environ nzbget st).2.
Proof.
  intros Htrig.
  set (B := Bounds (fun _ => True) (fun _ => True)
                   (fun line => line <> sorted_sentinel) (fun _ => True)).
  assert (H : keeps B (script environ nzbget)).
  { apply keeps_script; simpl; auto; try discriminate.
    - intros line Hl ->. apply Hl. unfold directives. rewrite !elem_of_cons. tauto.
    - rewrite Htrig. discriminate. }
  destruct (H st) as (_ & _ & _ & (new & Hnew & Hall) & _).
  rewrite (new_output_app _ _ _ Hnew). intros Hin.
  rewrite Forall_forall in Hall. exact (Hall _ Hin eq_refl).
Qed.

(** X4: the script never falls off its end: it leaves through [sys.exit]
    or with an uncaught exception, and the only exit statuses are 0, 1,
    POSTPROCESS_SUCCESS and POSTPROCESS_NONE; POSTPROCESS_ERROR is never
    used. *)
Theorem script_exit_statuses
    (environ : gmap string string) (nzbget : host) (st : state) :
  match (script environ nzbget st).1 with
  | Ret _ => False
  | Exit c => c ∈ [0; 1; POSTPROCESS_SUCCESS; POSTPROCESS_NONE]
  | Raise _ => True
  end.
Proof.
  set (B := Bounds (fun _ => True) (fun _ => True) (fun _ => True)
                   (fun c => c ∈ [0; 1; 93; 95])).
  assert (H : keeps B (script environ nzbget)).
  { apply keeps_script; simpl; auto. }
  destruct (H st) as (_ & _ & _ & _ & He).
  destruct (script environ nzbget st) as [[[]|c|e] st'] eqn:E; simpl in *.
  - unfold script, bind in E. destruct (main environ nzbget st) as [[?|?|?] ?];
      discriminate.
  - apply He. reflexivity.
  - exact I.
Qed.

(** ** Gatekeeper: the ways out *)

(** X5: called outside NZBGet (neither NZBNA_EVENT nor NZBPP_DIRECTORY
    set, or NZBOP_ARTICLECACHE not set) the script prints its two usage
    lines and exits with status 1, and does nothing else. *)
Theorem foreign_call_exits_with_usage
    (environ : gmap string string) (nzbget : host) (st : state) :
  foreign_call environ ->
  script environ nzbget st
  = (Exit 1, State (st_fs st) (st_out st ++ usage_lines) (st_rpc st)).
Proof.
  intros Hf.
  assert (Hc : negb (in_environ environ "NZBNA_EVENT"
                     || in_environ environ "NZBPP_DIRECTORY")
               || negb (in_environ environ "NZBOP_ARTICLECACHE") = true).
  { destruct Hf as [[H1 H2]|H].
    - rewrite (in_environ_false _ _ H1), (in_environ_false _ _ H2). reflexivity.
    - rewrite (in_environ_false _ _ H). apply orb_true_r. }
  unfold script, main, startCheck. rewrite Hc.
  unfold bind, print, sys_exit. simpl. rewrite <- app_assoc. reflexivity.
Qed.

Lemma foreign_call_exits_with_usage_witness :
  script ∅ dead_host empty_state = (Exit 1, State (Filesystem ∅ ∅) usage_lines []).
Proof.
  apply (foreign_call_exits_with_usage ∅ dead_host empty_state).
  left. split; reflexivity.
Defined.

Lemma no_ret_exit {A} c : no_ret (@sys_exit A c).
Proof. intros st a st'. discriminate. Qed.

Lemma no_ret_raise {A} e : no_ret (@raise A e).
Proof. intros st a st'. discriminate. Qed.

Lemma no_ret_bind_l {A A'} (m : M A) (k : A -> M A') :
  no_ret m -> no_ret (bind m k).
Proof.
  intros H st a st'. unfold bind. specialize (H st).
  destruct (m st) as [[x|?|?] st1]; [|discriminate ..].
  destruct (H x st1 eq_refl).
Qed.

Lemma no_ret_bind_r {A A'} (m : M A) (k : A -> M A') :
  (forall x, no_ret (k x)) -> no_ret (bind m k).
Proof.
  intros H st a st'. unfold bind.
  destruct (m st) as [[x|?|?] st1]; [apply H|discriminate ..].
Qed.

Lemma bind_ret_l {A A'} (a : A) (k : A -> M A') st : bind (ret a) k st = k a st.
Proof. reflexivity. Qed.

Lemma bind_assoc {A A' A''} (m : M A) (k : A -> M A') (r : A' -> M A'') st :
  bind (bind m k) r st = bind m (fun x => bind (k x) r) st.
Proof. unfold bind. destruct (m st) as [[?|?|?] ?]; reflexivity. Qed.

Lemma bind_get_fs {A} (k : filesystem -> M A) st :
  bind get_fs k st = k (st_fs st) st.
Proof. reflexivity. Qed.

Lemma startCheck_ret_inv environ nzbget st st' :
  startCheck environ nzbget st = (Ret tt, st') ->
  st' = st /\ gate_open environ /\ ~ early_exit environ (st_fs st).
Proof.
  unfold startCheck. intros H.
  destruct (negb (in_environ environ "NZBNA_EVENT"
                  || in_environ environ "NZBPP_DIRECTORY")
            || negb (in_environ environ "NZBOP_ARTICLECACHE")) eqn:E1.
  { exfalso. revert H. apply no_ret_bind_l. do 2 (apply no_ret_bind_r; intros _).
    apply no_ret_exit. }
  rewrite bind_ret_l in H.
  destruct (known_event (getenv environ "NZBNA_EVENT")) eqn:E2; simpl negb in H;
    cbv iota in H.
  2: { exfalso. revert H. apply no_ret_bind_l. apply no_ret_exit. }
  rewrite bind_ret_l in H.
  destruct (getenv_is environ "NZBPP_STATUS" "FAILURE/BAD") eqn:E3.
  { exfalso. revert H. apply no_ret_bind_l. do 2 (apply no_ret_bind_r; intros _).
    apply no_ret_exit. }
  rewrite bind_ret_l in H.
  assert (Hgate : gate_open environ).
  { apply orb_false_iff in E1 as [Ea Eb]. apply negb_false_iff in Ea, Eb.
    unfold in_environ in Ea, Eb. apply orb_true_iff in Ea.
    split; [|split; [apply bool_decide_eq_true_1 in Eb; exact Eb|exact E2]].
    destruct Ea as [Ea|Ea]; apply bool_decide_eq_true_1 in Ea; auto. }
  assert (Hbad : environ !! "NZBPP_STATUS" <> Some "FAILURE/BAD").
  { apply bool_decide_eq_false_1 in E3. exact E3. }
  unfold getenv in H.
  destruct (environ !! "NZBPP_DIRECTORY") as [d|] eqn:Ed.
  - rewrite bind_assoc, bind_get_fs in H.
    destruct (fs_exists (st_fs st) d) eqn:Ex; simpl negb in H; cbv iota in H.
    2: { exfalso. revert H. apply no_ret_bind_l.
         do 2 (apply no_ret_bind_r; intros _). apply no_ret_exit. }
    rewrite bind_ret_l in H.
    destruct (getenv_is environ "NZBPP_TOTALSTATUS" "FAILURE") eqn:E5.
    { exfalso. revert H. apply no_ret_bind_r; intros _. apply no_ret_exit. }
    injection H as <-. split; [reflexivity|]. split; [assumption|].
    apply bool_decide_eq_false_1 in E5. unfold getenv in E5.
    intros [?|[(d' & Hd' & Hd)|?]]; [congruence| |congruence].
    rewrite Ed in Hd'. injection Hd' as <-. congruence.
  - rewrite bind_ret_l in H.
    destruct (getenv_is environ "NZBPP_TOTALSTATUS" "FAILURE") eqn:E5.
    { exfalso. revert H. apply no_ret_bind_r; intros _. apply no_ret_exit. }
    injection H as <-. split; [reflexivity|]. split; [assumption|].
    apply bool_decide_eq_false_1 in E5. unfold getenv in E5.
    intros [?|[(d' & Hd' & Hd)|?]]; congruence.
Qed.

Lemma startCheck_pass environ nzbget st :
  gate_open environ -> ~ early_exit environ (st_fs st) ->
  startCheck environ nzbget st = (Ret tt, st).
Proof.
  intros (Hsome & Hac & Hknown) Hearly.
  assert (Hgate : negb (in_environ environ "NZBNA_EVENT"
                        || in_environ environ "NZBPP_DIRECTORY")
                  || negb (in_environ environ "NZBOP_ARTICLECACHE") = false).
  { rewrite (in_environ_is_Some _ _ Hac).
    destruct Hsome as [H|H]; rewrite (in_environ_is_Some _ _ H);
      [reflexivity|]. rewrite orb_true_r. reflexivity. }
  unfold startCheck, getenv. rewrite Hgate. unfold getenv in Hknown. rewrite Hknown.
  rewrite (getenv_is_false environ "NZBPP_STATUS" "FAILURE/BAD")
    by (intros H; apply Hearly; left; exact H).
  rewrite (getenv_is_false environ "NZBPP_TOTALSTATUS" "FAILURE")
    by (intros H; apply Hearly; right; right; exact H).
  simpl negb. cbv iota. rewrite !bind_ret_l.
  destruct (environ !! "NZBPP_DIRECTORY") as [d|] eqn:Ed; [|reflexivity].
  unfold bind, get_fs, ret.
  destruct (fs_exists (st_fs st) d) eqn:Ex; [reflexivity|].
  exfalso. apply Hearly. right. left. eauto.
Qed.

(** X6: the gatekeeper lets a call through exactly when it passes the first
    two checks and none of the three early exits applies, and then it has
    printed, removed and asked nothing. *)
Theorem startCheck_passes_iff
    (environ : gmap string string) (nzbget : host) (st st' : state) :
  startCheck environ nzbget st = (Ret tt, st') <->
  st' = st /\ gate_open environ /\ ~ early_exit environ (st_fs st).
Proof.
  split; [apply startCheck_ret_inv|].
  intros (-> & Hg & He). apply startCheck_pass; assumption.
Qed.

(** With at most one marker [cleanUp] returns. *)
Lemma cleanUp_small_returns environ nzbget st t es :
  environ !! "NZBOP_TEMPDIR" = Some t ->
  fs_dirs (st_fs st) !! marker_dir t = Some es ->
  (List.length es <= 1)%nat ->
  exists st', cleanUp environ nzbget st = (Ret tt, st').
Proof.
  intros Ht Hes Hlen.
  destruct (cleanUp_sweep environ st t es [] Hes) as (st' & rem & Hrun & _).
  exists st'. unfold cleanUp, getenv. rewrite Ht. unfold bind at 1, ret at 1.
  unfold bind at 1, os_listdir, fs_listdir. fold (marker_dir t). rewrite Hes.
  simpl. rewrite length_map.
  destruct (1 <? List.length es)%nat eqn:E; [apply Nat.ltb_lt in E; lia|].
  unfold bind at 1, ret at 1. exact Hrun.
Qed.

(** X7: the early exits of the gatekeeper, when housekeeping has at most one
    marker to look at: a download already marked bad ends the call with
    POSTPROCESS_SUCCESS, after the recorded file name has been printed
    again as a warning; a missing directory or a failed download ends it
    with POSTPROCESS_NONE. *)
Theorem early_exit_statuses
    (environ : gmap string string) (nzbget : host) (st : state)
    (t : string) (es : list dirent) :
  environ !! "NZBOP_TEMPDIR" = Some t ->
  fs_dirs (st_fs st) !! marker_dir t = Some es ->
  (List.length es <= 1)%nat ->
  gate_open environ ->
  (environ !! "NZBPP_STATUS" = Some "FAILURE/BAD" ->
   (environ !! "NZBPR_PPSTATUS_BANNED" <> Some "yes" ->
    (script environ nzbget st).1 = Exit POSTPROCESS_SUCCESS) /\
   (forall f, environ !! "NZBPR_PPSTATUS_BANNED" = Some "yes" ->
              environ !! "NZBPR_PPSTATUS_BANNEDFILE" = Some f ->
      (script environ nzbget st).1 = Exit POSTPROCESS_SUCCESS /\
      ("[WARNING] Download contains banned extension " +:+ f)
        ∈ new_output st (script environ nzbget st).2)) /\
  (environ !! "NZBPP_STATUS" <> Some "FAILURE/BAD" ->
   (exists d, environ !! "NZBPP_DIRECTORY" = Some d /\ fs_exists (st_fs st) d = false)
   \/ environ !! "NZBPP_TOTALSTATUS" = Some "FAILURE" ->
   (script environ nzbget st).1 = Exit POSTPROCESS_NONE).
Proof.
  intros Ht Hes Hlen (Hsome & Hac & Hknown).
  assert (Hgate : negb (in_environ environ "NZBNA_EVENT"
                        || in_environ environ "NZBPP_DIRECTORY")
                  || negb (in_environ environ "NZBOP_ARTICLECACHE") = false).
  { rewrite (in_environ_is_Some _ _ Hac).
    destruct Hsome as [H|H]; rewrite (in_environ_is_Some _ _ H);
      [reflexivity|]. rewrite orb_true_r. reflexivity. }
  assert (Hclean : forall st1, st_fs st1 = st_fs st ->
            exists st', cleanUp environ nzbget st1 = (Ret tt, st')).
  { intros st1 Hfs. eapply cleanUp_small_returns; [eassumption| |eassumption].
    rewrite Hfs. exact Hes. }
  assert (Hscript : forall c st', startCheck environ nzbget st = (Exit c, st') ->
                                  script environ nzbget st = (Exit c, st')).
  { intros c st' H. unfold script, main.
    erewrite bind_exit; [reflexivity|]. erewrite bind_exit; [reflexivity|]. exact H. }
  assert (Hstart : startCheck environ nzbget st
    = (((if getenv_is environ "NZBPP_STATUS" "FAILURE/BAD" then
          (if getenv_is environ "NZBPR_PPSTATUS_BANNED" "yes" then
             match getenv environ "NZBPR_PPSTATUS_BANNEDFILE" with
             | Some f => print ("[WARNING] Download contains banned extension " +:+ f)
             | None => raise TypeError
             end
           else ret tt) ;;
          cleanUp environ nzbget ;;
          sys_exit POSTPROCESS_SUCCESS
        else ret tt) ;;
       (match getenv environ "NZBPP_DIRECTORY" with
        | Some directory =>
            fs <- get_fs ;;
            if negb (fs_exists fs directory) then
              print "Destination directory doesn't exist, exiting" ;;
              cleanUp environ nzbget ;;
              sys_exit POSTPROCESS_NONE
            else ret tt
        | None => ret tt
        end) ;;
       (if getenv_is environ "NZBPP_TOTALSTATUS" "FAILURE" then
          cleanUp environ nzbget ;;
          sys_exit POSTPROCESS_NONE
        else ret tt)) : M unit) st).
  { unfold startCheck. rewrite Hgate. unfold getenv in Hknown.
    unfold getenv at 1. rewrite Hknown. reflexivity. }
  split.
  - intros Hbad. rewrite (getenv_is_eq _ _ _ Hbad) in Hstart. split.
    + intros Hno. rewrite (getenv_is_false _ _ _ Hno) in Hstart.
      destruct (Hclean st eq_refl) as [st' Hc].
      erewrite Hscript; [reflexivity|]. rewrite Hstart.
      rewrite bind_assoc, bind_ret_l, bind_assoc. erewrite bind_ret by exact Hc.
      reflexivity.
    + intros f Hyes Hf. rewrite (getenv_is_eq _ _ _ Hyes) in Hstart.
      unfold getenv at 1 in Hstart. rewrite Hf in Hstart.
      set (st1 := State (st_fs st)
                    (st_out st ++ ["[WARNING] Download contains banned extension "
                                   +:+ f]) (st_rpc st)).
      destruct (Hclean st1 eq_refl) as [st' Hc].
      pose proof (respects_run (fun _ => True) _ _ _ _
                    (respects_cleanUp _ any_line environ nzbget) Hc)
        as [_ (new & Hnew & _)].
      assert (Hrun : script environ nzbget st = (Exit POSTPROCESS_SUCCESS, st')).
      { apply Hscript. rewrite Hstart. rewrite bind_assoc.
        erewrite bind_ret by reflexivity. fold st1.
        rewrite bind_assoc. erewrite bind_ret by exact Hc. reflexivity. }
      rewrite Hrun. split; [reflexivity|]. simpl.
      eapply new_output_elem;
        [rewrite Hnew; unfold st1; simpl; rewrite <- app_assoc; reflexivity|].
      apply elem_of_cons. left. reflexivity.
  - intros Hbad Hwhy. rewrite (getenv_is_false _ _ _ Hbad) in Hstart.
    rewrite bind_ret_l in Hstart. unfold getenv at 1 in Hstart.
    destruct (environ !! "NZBPP_DIRECTORY") as [d|] eqn:Ed.
    + rewrite bind_assoc, bind_get_fs in Hstart.
      destruct (fs_exists (st_fs st) d) eqn:Ex; simpl negb in Hstart;
        cbv iota in Hstart.
      * destruct Hwhy as [(d' & [= <-] & Hd)|Hfail]; [congruence|].
        rewrite (getenv_is_eq _ _ _ Hfail), bind_ret_l in Hstart.
        destruct (Hclean st eq_refl) as [st' Hc].
        erewrite Hscript; [reflexivity|]. rewrite Hstart.
        erewrite bind_ret by exact Hc. reflexivity.
      * set (st1 := State (st_fs st)
                      (st_out st ++ ["Destination directory doesn't exist, exiting"])
                      (st_rpc st)).
        destruct (Hclean st1 eq_refl) as [st' Hc].
        erewrite Hscript; [reflexivity|]. rewrite Hstart.
        rewrite bind_assoc. erewrite bind_ret by reflexivity. fold st1.
        rewrite bind_assoc. erewrite bind_ret by exact Hc. reflexivity.
    + destruct Hwhy as [(d' & [=] & Hd)|Hfail].
      rewrite (getenv_is_eq _ _ _ Hfail), bind_ret_l in Hstart.
      destruct (Hclean st eq_refl) as [st' Hc].
      erewrite Hscript; [reflexivity|]. rewrite Hstart.
      erewrite bind_ret by exact Hc. reflexivity.
Qed.

Lemma early_exit_statuses_witness :
  let environ := failed_env in
  let st := state_of [("/d", download_dir); ("/tmp/BannedFiles", [plain "4"])] in
  (environ !! "NZBPP_STATUS" = Some "FAILURE/BAD" ->
   (environ !! "NZBPR_PPSTATUS_BANNED" <> Some "yes" ->
    (script environ dead_host st).1 = Exit POSTPROCESS_SUCCESS) /\
   (forall f, environ !! "NZBPR_PPSTATUS_BANNED" = Some "yes" ->
              environ !! "NZBPR_PPSTATUS_BANNEDFILE" = Some f ->
      (script environ dead_host st).1 = Exit POSTPROCESS_SUCCESS /\
      ("[WARNING] Download contains banned extension " +:+ f)
        ∈ new_output st (script environ dead_host st).2)) /\
  (environ !! "NZBPP_STATUS" <> Some "FAILURE/BAD" ->
   (exists d, environ !! "NZBPP_DIRECTORY" = Some d /\ fs_exists (st_fs st) d = false)
   \/ environ !! "NZBPP_TOTALSTATUS" = Some "FAILURE" ->
   (script environ dead_host st).1 = Exit POSTPROCESS_NONE).
Proof.
  intros environ st.
  apply (early_exit_statuses environ dead_host st "/tmp" [plain "4"]).
  - vm_compute. reflexivity.
  - vm_compute. reflexivity.
  - simpl. lia.
  - split; [right; eexists; vm_compute; reflexivity|].
    split; [eexists; vm_compute; reflexivity|vm_compute; reflexivity].
Defined.

(** ** A download is added *)

Lemma keeps_bind_dead B {A A'} (m : M A) (k : A -> M A') :
  keeps B m -> no_ret m -> keeps B (bind m k).
Proof.
  intros Hm Hn st. unfold bind. specialize (Hm st). specialize (Hn st).
  destruct (m st) as [[a|c|e] st1].
  - destruct (Hn a st1 eq_refl).
  - destruct Hm as (H1 & H2 & H3 & H4 & H5). repeat split; try assumption.
    intros c' [= <-]. apply H5. reflexivity.
  - destruct Hm as (H1 & H2 & H3 & H4 & H5). repeat split; try assumption.
    discriminate.
Qed.

Lemma reorder_block_added_no_ret environ nzbget name :
  environ !! "NZBNA_EVENT" = Some "NZB_ADDED" ->
  no_ret (reorder_block environ nzbget name).
Proof.
  intros Hev. unfold reorder_block, reorder_trigger.
  rewrite (getenv_is_eq _ _ _ Hev). simpl orb. cbv iota.
  do 3 (apply no_ret_bind_r; intros _). apply no_ret_exit.
Qed.

(** When a download is added to the queue the script stops after the
    reorder: none of the three verdict lines is the argument of a
    [print]. *)
Lemma added_event_prints_no_verdict
    (environ : gmap string string) (nzbget : host) (st : state) :
  environ !! "NZBNA_EVENT" = Some "NZB_ADDED" ->
  forall line, line ∈ [banned_sentinel; mark_bad; clear_sentinel] ->
               line ∉ new_output st (script environ nzbget st).2.
Proof.
  intros Hev line Hline.
  set (B := Bounds (fun _ => True) (fun _ => True)
                   (fun l => l ∉ [banned_sentinel; mark_bad; clear_sentinel])
                   (fun _ => True)).
  assert (Hout : forall l, l ∉ directives -> b_out B l).
  { intros l Hl. simpl. intros Hin. apply Hl. unfold directives.
    rewrite !elem_of_cons in Hin. rewrite !elem_of_cons. tauto. }
  assert (H : keeps B (script environ nzbget)).
  { unfold script, main. apply keeps_bind_dead; [|].
    - apply keeps_bind; [apply keeps_startCheck; simpl; auto|]. intros _.
      apply keeps_bind; [apply keeps_environ_item|]. intros dir.
      apply keeps_bind; [apply keeps_environ_item|]. intros name.
      apply keeps_bind_dead.
      + apply keeps_reorder_block; simpl; auto. intros _.
        split; [auto|]. split; [auto|].
        unfold sorted_sentinel, banned_sentinel, mark_bad, clear_sentinel.
        rewrite !elem_of_cons. intros [H|[H|[H|H]]];
          [discriminate ..|apply elem_of_nil in H; exact H].
      + apply reorder_block_added_no_ret. exact Hev.
    - apply no_ret_bind_r. intros _.
      do 2 (apply no_ret_bind_r; intros ?).
      apply no_ret_bind_l. apply reorder_block_added_no_ret. exact Hev. }
  destruct (H st) as (_ & _ & _ & (new & Hnew & Hall) & _).
  rewrite (new_output_app _ _ _ Hnew). intros Hin.
  rewrite Forall_forall in Hall. exact (Hall _ Hin Hline).
Qed.

(** ** Remote calls *)

Lemma control_configured_or_missing (environ : gmap string string) :
  control_configured environ \/
  exists k, environ !! k = None /\
            k ∈ ["NZBOP_CONTROLIP"; "NZBOP_CONTROLPORT";
                 "NZBOP_CONTROLUSERNAME"; "NZBOP_CONTROLPASSWORD"].
Proof.
  destruct (environ !! "NZBOP_CONTROLIP") as [v1|] eqn:E1;
    [|right; eexists; split; [eassumption|rewrite !elem_of_cons; tauto]].
  destruct (environ !! "NZBOP_CONTROLPORT") as [v2|] eqn:E2;
    [|right; eexists; split; [eassumption|rewrite !elem_of_cons; tauto]].
  destruct (environ !! "NZBOP_CONTROLUSERNAME") as [v3|] eqn:E3;
    [|right; eexists; split; [eassumption|rewrite !elem_of_cons; tauto]].
  destruct (environ !! "NZBOP_CONTROLPASSWORD") as [v4|] eqn:E4;
    [|right; eexists; split; [eassumption|rewrite !elem_of_cons; tauto]].
  left. intros k Hk. rewrite !elem_of_cons in Hk.
  destruct Hk as [->|[->|[->|[->|Hk]]]]; eauto.
  apply elem_of_nil in Hk. tauto.
Qed.

(** The first of the four settings that is missing, if any: the key of
    the [KeyError] of [callNzbget]. *)
Lemma callNzbget_missing environ nzbget q st k :
  environ !! k = None ->
  k ∈ ["NZBOP_CONTROLIP"; "NZBOP_CONTROLPORT";
       "NZBOP_CONTROLUSERNAME"; "NZBOP_CONTROLPASSWORD"] ->
  exists k', environ !! k' = None /\
             k' ∈ ["NZBOP_CONTROLIP"; "NZBOP_CONTROLPORT";
                   "NZBOP_CONTROLUSERNAME"; "NZBOP_CONTROLPASSWORD"] /\
             callNzbget environ nzbget q st = (Raise (KeyError k'), st).
Proof.
  intros Hk Hin. unfold callNzbget.
  destruct (environ !! "NZBOP_CONTROLIP") as [v1|] eqn:E1.
  2: { exists "NZBOP_CONTROLIP". split; [assumption|].
       split; [rewrite !elem_of_cons; tauto|].
       erewrite bind_raise; [reflexivity|]. apply environ_item_missing. assumption. }
  erewrite bind_ret by (apply environ_item_run; eassumption).
  destruct (environ !! "NZBOP_CONTROLPORT") as [v2|] eqn:E2.
  2: { exists "NZBOP_CONTROLPORT". split; [assumption|].
       split; [rewrite !elem_of_cons; tauto|].
       erewrite bind_raise; [reflexivity|]. apply environ_item_missing. assumption. }
  erewrite bind_ret by (apply environ_item_run; eassumption).
  destruct (environ !! "NZBOP_CONTROLUSERNAME") as [v3|] eqn:E3.
  2: { exists "NZBOP_CONTROLUSERNAME". split; [assumption|].
       split; [rewrite !elem_of_cons; tauto|].
       erewrite bind_raise; [reflexivity|]. apply environ_item_missing. assumption. }
  erewrite bind_ret by (apply environ_item_run; eassumption).
  destruct (environ !! "NZBOP_CONTROLPASSWORD") as [v4|] eqn:E4.
  2: { exists "NZBOP_CONTROLPASSWORD". split; [assumption|].
       split; [rewrite !elem_of_cons; tauto|].
       erewrite bind_raise; [reflexivity|]. apply environ_item_missing. assumption. }
  exfalso. rewrite !elem_of_cons in Hin.
  destruct Hin as [->|[->|[->|[->|Hin]]]]; try congruence.
  apply elem_of_nil in Hin. exact Hin.
Qed.

(** With the four settings present: the answer, after one request; or a
    failure after the request; or the refusal of the URL, with nothing
    sent. *)
Lemma callNzbget_sent environ nzbget q st :
  control_configured environ ->
  let sent := State (st_fs st) (st_out st) (st_rpc st ++ [Queried q]) in
  match h_query nzbget q with
  | Some data => callNzbget environ nzbget q st = (Ret data, sent)
  | None =>
      callNzbget environ nzbget q st = (Raise HostError, sent) \/
      callNzbget environ nzbget q st = (Raise InvalidURL, st)
  end.
Proof.
  intros Hc sent. destruct (h_query nzbget q) as [data|] eqn:Eq.
  - apply callNzbget_run; assumption.
  - destruct (control_settings environ Hc)
      as (ip & port & user & pw & H1 & H2 & H3 & H4).
    unfold callNzbget.
    do 4 (erewrite bind_ret by (apply environ_item_run; eassumption)).
    rewrite Eq. destruct (h_url_refused nzbget _); [right|left]; reflexivity.
Qed.

(** X9: [callNzbget] reaches [urlopen] exactly when the four connection
    settings are present.  Then it returns the answer of the host, having
    sent one request; or it raises after the request was sent; or
    [urllib] refuses the URL and nothing was sent.  With a setting
    missing it raises [KeyError] for a missing setting, and nothing was
    sent. *)
Theorem callNzbget_needs_connection_settings
    (environ : gmap string string) (nzbget : host) (q : query) (st : state) :
  let r := callNzbget environ nzbget q st in
  (control_configured environ /\
   ((exists data, h_query nzbget q = Some data /\ r.1 = Ret data /\
                  new_rpc st r.2 = [Queried q]) \/
    (h_query nzbget q = None /\ r.1 = Raise HostError /\
     new_rpc st r.2 = [Queried q]) \/
    (h_query nzbget q = None /\ r = (Raise InvalidURL, st)))) \/
  (exists k, environ !! k = None /\
             k ∈ ["NZBOP_CONTROLIP"; "NZBOP_CONTROLPORT";
                  "NZBOP_CONTROLUSERNAME"; "NZBOP_CONTROLPASSWORD"] /\
             r = (Raise (KeyError k), st)).
Proof.
  intros r. unfold r.
  destruct (control_configured_or_missing environ) as [Hc|(k & Hk & Hin)].
  - left. split; [assumption|].
    pose proof (callNzbget_sent environ nzbget q st Hc) as H. simpl in H.
    destruct (h_query nzbget q) as [data|].
    + left. exists data. rewrite H. split; [reflexivity|]. split; [reflexivity|].
      unfold new_rpc. simpl. apply drop_app_length.
    + destruct H as [H|H]; rewrite H.
      * right. left. split; [reflexivity|]. split; [reflexivity|].
        unfold new_rpc. simpl. apply drop_app_length.
      * right. right. split; reflexivity.
  - right. apply (callNzbget_missing environ nzbget q st k); assumption.
Qed.

(** The remote calls of [sort_inner_files], by the way it ends. *)
Lemma sort_inner_files_calls
    (environ : gmap string string) (nzbget : host) (st : state) :
  let calls := new_rpc st (sort_inner_files environ nzbget st).2 in
  calls = [] \/
  exists v n, environ !! "NZBNA_NZBID" = Some v /\ Py.int v = Some n /\
    (calls = [Queried (listfiles n)] \/
     exists data sel i,
       h_query nzbget (listfiles n) = Some data /\
       scan_lines (Py.splitlines data) no_selection = Ret sel /\
       file_id sel = Some i /\ i <> 0 /\
       calls = [Queried (listfiles n); FileMoveTop [i]]).
Proof.
  intros calls. unfold calls.
  assert (Hnil : forall s : state, new_rpc s s = []).
  { intros s. unfold new_rpc. apply drop_all. }
  destruct (environ !! "NZBNA_NZBID") as [v|] eqn:Ev.
  2: { left. unfold sort_inner_files, getenv. rewrite Ev. apply Hnil. }
  destruct (Py.int v) as [n|] eqn:En.
  2: { left. unfold sort_inner_files, getenv. rewrite Ev, En. apply Hnil. }
  destruct (control_configured_or_missing environ) as [Hc|(k & Hk & Hin)].
  2: { left. destruct (callNzbget_missing environ nzbget (listfiles n) st k Hk Hin)
         as (k' & _ & _ & Hraise).
       unfold sort_inner_files, getenv. rewrite Ev, En, bind_ret_l.
       erewrite bind_raise by exact Hraise. apply Hnil. }
  pose proof (callNzbget_sent environ nzbget (listfiles n) st Hc) as Ho.
  simpl in Ho.
  destruct (h_query nzbget (listfiles n)) as [data|] eqn:Hq.
  2: { destruct Ho as [Ho|Ho].
       - right. exists v, n. split; [reflexivity|]. split; [exact En|]. left.
         unfold sort_inner_files, getenv. rewrite Ev, En, bind_ret_l.
         erewrite bind_raise by exact Ho. unfold new_rpc. simpl.
         apply drop_app_length.
       - left. unfold sort_inner_files, getenv. rewrite Ev, En, bind_ret_l.
         erewrite bind_raise by exact Ho. apply Hnil. }
  right. exists v, n. split; [reflexivity|]. split; [exact En|].
  destruct (scan_lines (Py.splitlines data) no_selection) as [sel|c|e] eqn:Es.
  - rewrite (sort_inner_files_eq environ nzbget st v n data sel Ev En Hc Hq Es).
    destruct (truthy (file_id sel)) eqn:Et.
    + destruct (truthy_nonzero _ Et) as (i & Hi & Hne).
      erewrite bind_ret by (unfold print; reflexivity).
      match goal with
      | |- context [bind (connectNzbget environ nzbget) _ ?s] =>
          destruct (connectNzbget_outcome environ nzbget s Hc) as (url & E & _)
      end.
      destruct (h_proxy_refused nzbget url).
      * left. erewrite bind_raise by exact E.
        unfold new_rpc. simpl. apply drop_app_length.
      * right. exists data, sel, i.
        repeat (split; [assumption|]). erewrite bind_ret by exact E. rewrite Hi.
        change (default 0 (Some i)) with i.
        unfold editqueue_FileMoveTop, bind, record_rpc, new_rpc.
        destruct (h_editqueue nzbget [i]); simpl;
          rewrite <- app_assoc; apply drop_app_length.
    + left. unfold new_rpc. simpl. apply drop_app_length.
  - destruct (scan_lines_no_exit _ _ _ Es).
  - left. unfold sort_inner_files, getenv. rewrite Ev, En, bind_ret_l.
    erewrite bind_ret by exact Ho. unfold bind, lift. rewrite Es.
    unfold new_rpc. simpl. apply drop_app_length.
Qed.

(** X10: [sort_inner_files] sends nothing, or the [listfiles] query for the
    download NZBNA_NZBID alone, or that query followed by one
    [FileMoveTop] command for a single file whose id is not 0. *)
Theorem sort_inner_files_remote_calls
    (environ : gmap string string) (nzbget : host) (st : state) :
  let calls := new_rpc st (sort_inner_files environ nzbget st).2 in
  calls = [] \/
  exists v n, environ !! "NZBNA_NZBID" = Some v /\ Py.int v = Some n /\
    (calls = [Queried (listfiles n)] \/
     exists i, i <> 0 /\ calls = [Queried (listfiles n); FileMoveTop [i]]).
Proof.
  intros calls.
  destruct (sort_inner_files_calls environ nzbget st)
    as [E|(v & n & Hv & Hn & [E|(data & sel & i & _ & _ & _ & Hne & E)])].
  - left. exact E.
  - right. exists v, n. auto.
  - right. exists v, n. split; [assumption|]. split; [assumption|].
    right. exists i. auto.
Qed.

(** ** The scan and its verdict *)

Lemma detect_loop_run (environ : gmap string string) (l : list string) (st : state) :
  let r := List.find
             (fun o => bool_decide (Py.splitext_ext o ∈ bannedExtensions environ)) l in
  detect_loop environ l st
  = (Ret r, State (st_fs st)
              (st_out st ++ match r with Some item => found_lines item | None => [] end)
              (st_rpc st)).
Proof.
  induction l as [|item l IH]; simpl.
  - rewrite app_nil_r. destruct st; reflexivity.
  - destruct (bool_decide (Py.splitext_ext item ∈ bannedExtensions environ)).
    + unfold bind, print, ret. simpl. rewrite <- app_assoc. reflexivity.
    + exact IH.
Qed.

Lemma detectBannedFile_run environ dir st :
  detectBannedFile environ dir st
  = match fs_listdir (st_fs st) dir with
    | Some names =>
        let r := first_banned environ (st_fs st) dir names in
        (Ret r, State (st_fs st)
                  (st_out st ++ match r with
                                | Some item => found_lines item
                                | None => []
                                end)
                  (st_rpc st))
    | None => (Raise OSError, st)
    end.
Proof.
  unfold detectBannedFile, bind, os_listdir, get_fs.
  destruct (fs_listdir (st_fs st) dir) as [names|]; [|reflexivity].
  apply detect_loop_run.
Qed.

Lemma first_banned_spec environ fs dir names item :
  first_banned environ fs dir names = Some item ->
  item ∈ names /\ fs_isfile fs dir item = true /\
  Py.splitext_ext item ∈ bannedExtensions environ.
Proof.
  unfold first_banned. intros H. apply find_some in H as [Hin Hhit].
  apply filter_In in Hin as [Hin Hfile].
  split; [apply list_elem_of_In; assumption|]. split; [assumption|].
  apply bool_decide_eq_true_1 in Hhit. exact Hhit.
Qed.

(** X11: the scan touches neither the file system nor the host, and what it
    reports depends on the file system alone: scanning again, after any
    amount of printing and remote calls, reports the same. *)
Theorem detectBannedFile_reads_only
    (environ : gmap string string) (dir : string) (st : state) :
  let r := detectBannedFile environ dir st in
  st_fs r.2 = st_fs st /\ st_rpc r.2 = st_rpc st /\
  (detectBannedFile environ dir r.2).1 = r.1 /\
  forall out calls,
    (detectBannedFile environ dir (State (st_fs st) out calls)).1 = r.1.
Proof.
  intros r. unfold r. rewrite !detectBannedFile_run.
  assert (Hsame : forall out calls,
            (detectBannedFile environ dir (State (st_fs st) out calls)).1
            = (match fs_listdir (st_fs st) dir with
               | Some names => Ret (first_banned environ (st_fs st) dir names)
               | None => Raise OSError
               end)).
  { intros out calls. rewrite detectBannedFile_run. simpl.
    destruct (fs_listdir (st_fs st) dir); reflexivity. }
  destruct (fs_listdir (st_fs st) dir) as [names|] eqn:El; simpl.
  - rewrite El. simpl. repeat split. intros out calls. rewrite Hsame. reflexivity.
  - rewrite El. repeat split. intros out calls. rewrite Hsame. reflexivity.
Qed.

Lemma unmarked_out (l : string) : l ∉ directives -> l <> mark_bad.
Proof.
  intros Hl ->. apply Hl. unfold directives. rewrite !elem_of_cons. tauto.
Qed.

Lemma within_new_output B {A} st (r : outcome A * state) line :
  within B st r -> line ∈ new_output st r.2 -> b_out B line.
Proof.
  intros (_ & _ & _ & (new & Hnew & Hall) & _) Hin.
  rewrite (new_output_app _ _ _ Hnew) in Hin.
  rewrite Forall_forall in Hall. auto.
Qed.

Lemma within_same_fs {A} st (r : outcome A * state) :
  within unmarked st r -> st_fs r.2 = st_fs st.
Proof.
  intros (Ho & Hd & _). destruct (st_fs r.2) as [d1 o1], (st_fs st) as [d2 o2].
  simpl in *. f_equal; [|assumption]. apply map_eq. intros k. apply Hd. tauto.
Qed.

Lemma new_output_split st st1 st2 mid line :
  st_out st1 = st_out st ++ mid ->
  (exists new, st_out st2 = st_out st1 ++ new) ->
  line ∈ new_output st st2 <-> line ∈ mid \/ line ∈ new_output st1 st2.
Proof.
  intros H1 [new H2]. rewrite (new_output_app st1 st2 new H2).
  rewrite (new_output_app st st2 (mid ++ new))
    by (rewrite H2, H1, app_assoc; reflexivity).
  apply elem_of_app.
Qed.

Lemma bind_print {A} line (k : unit -> M A) st :
  bind (print line) k st
  = k tt (State (st_fs st) (st_out st ++ [line]) (st_rpc st)).
Proof. reflexivity. Qed.

Lemma found_banned_some r :
  found_banned r = true -> exists item, r = Some item /\ item <> "".
Proof.
  destruct r as [item|]; [|discriminate]. simpl. intros H. exists item.
  split; [reflexivity|]. intros ->. discriminate.
Qed.

Lemma scan_block_run environ nzbget pre dir name st :
  scan_block environ nzbget pre dir name st
  = match fs_listdir (st_fs st) dir with
    | Some names =>
        let r := first_banned environ (st_fs st) dir names in
        after_scan environ nzbget pre name r
          (State (st_fs st)
             (st_out st ++ (["[INFO] Detecting banned files in " +:+ name]
                            ++ match r with
                               | Some item => found_lines item
                               | None => []
                               end))
             (st_rpc st))
    | None =>
        (Raise OSError,
         State (st_fs st)
           (st_out st ++ ["[INFO] Detecting banned files in " +:+ name]) (st_rpc st))
    end.
Proof.
  unfold scan_block. rewrite bind_print. unfold bind at 1.
  rewrite detectBannedFile_run. simpl st_fs.
  destruct (fs_listdir (st_fs st) dir) as [names|]; [|reflexivity].
  cbv beta iota zeta. simpl st_out. simpl st_rpc. rewrite <- app_assoc. reflexivity.
Qed.

(** What [scan_block] printed when MARK=BAD is among it. *)
Lemma scan_block_marks environ nzbget pre dir name st :
  mark_bad ∈ new_output st (scan_block environ nzbget pre dir name st).2 ->
  exists names item,
    fs_listdir (st_fs st) dir = Some names /\
    first_banned environ (st_fs st) dir names = Some item /\ item <> "" /\
    forall line, line ∈ found_lines item ++ [banned_sentinel] ->
      line ∈ new_output st (scan_block environ nzbget pre dir name st).2.
Proof.
  rewrite scan_block_run.
  destruct (fs_listdir (st_fs st) dir) as [names|] eqn:El.
  2: { simpl. unfold new_output. simpl. rewrite drop_app_length.
       intros H. apply list_elem_of_singleton in H. discriminate. }
  cbv zeta. set (r := first_banned environ (st_fs st) dir names).
  set (st3 := State _ _ _).
  assert (Hst3 : st_out st3
                 = st_out st ++ (["[INFO] Detecting banned files in " +:+ name]
                                 ++ match r with
                                    | Some item => found_lines item
                                    | None => []
                                    end)) by reflexivity.
  unfold after_scan.
  destruct (found_banned r) eqn:Ef.
  - intros _. destruct (found_banned_some r Ef) as (item & Hr & Hne).
    exists names, item. split; [reflexivity|]. split; [exact Hr|].
    split; [exact Hne|]. intros line Hline.
    set (T := if String.eqb pre "NZBPP_" then cleanUp environ nzbget else ret tt).
    set (st5 := State (st_fs st3)
                  (((st_out st3 ++ [banned_sentinel]) ++ [mark_bad])
                   ++ ["[DETAIL] Detecting banned files completed for " +:+ name])
                  (st_rpc st3)).
    assert (E : (((print "[NZB] NZBPR_PPSTATUS_BANNED=yes" ;; print "[NZB] MARK=BAD") ;;
                 print ("[DETAIL] Detecting banned files completed for " +:+ name) ;;
                 T) : M unit) st3 = T st5) by reflexivity.
    rewrite E. clear E.
    assert (Hst5 : st_out st5
                   = st_out st ++ (["[INFO] Detecting banned files in " +:+ name]
                                   ++ found_lines item
                                   ++ [banned_sentinel; mark_bad;
                                       "[DETAIL] Detecting banned files completed for "
                                       +:+ name])).
    { unfold st5. simpl. rewrite Hr. rewrite <- !app_assoc. reflexivity. }
    assert (Htail : exists new, st_out (T st5).2 = st_out st5 ++ new).
    { unfold T. destruct (String.eqb pre "NZBPP_").
      - apply respects_any. apply respects_cleanUp. apply any_line.
      - exists []. simpl. rewrite app_nil_r. reflexivity. }
    apply (new_output_split st st5 _ _ line Hst5 Htail). left.
    rewrite !elem_of_app in Hline. rewrite !elem_of_app, !elem_of_cons.
    destruct Hline as [Hl|Hl]; [tauto|].
    apply list_elem_of_singleton in Hl. tauto.
  - intros Hin. exfalso.
    assert (Hrest : keeps unmarked_sweep
              ((print ("[INFO] No Banned files detected in " +:+ name +:+ " yet") ;;
                (if getenv_is environ "NZBPR_PPSTATUS_BANNED" "yes"
                 then print "[NZB] NZBPR_PPSTATUS_BANNED=" else ret tt)) ;;
               print ("[DETAIL] Detecting banned files completed for " +:+ name) ;;
               (if String.eqb pre "NZBPP_" then cleanUp environ nzbget else ret tt))).
    { bound unmarked_out any_status
        ltac:(first [ apply keeps_cleanUp; simpl; auto using unmarked_out
                    | apply keeps_print; discriminate ]). }
    specialize (Hrest st3).
    destruct Hrest as (_ & _ & _ & Hout & _).
    match type of Hout with
    | exists new, st_out ?f.2 = _ /\ _ =>
        apply (new_output_split st st3 f.2 _ mark_bad Hst3) in Hin;
          [|destruct Hout as (new & Hn & _); eauto]
    end.
    destruct Hin as [Hin|Hin].
    + rewrite elem_of_app in Hin. destruct Hin as [Hin|Hin].
      * apply list_elem_of_singleton in Hin. discriminate.
      * destruct r as [item|]; [|apply elem_of_nil in Hin; exact Hin].
        unfold found_lines in Hin. rewrite !elem_of_cons in Hin.
        destruct Hin as [H|[H|H]]; [discriminate ..|apply elem_of_nil in H; exact H].
    + destruct Hout as (new & Hn & Hall).
      rewrite (new_output_app _ _ _ Hn) in Hin.
      rewrite Forall_forall in Hall. exact (Hall _ Hin eq_refl).
Qed.

Lemma script_state environ nzbget st :
  (script environ nzbget st).2 = (main environ nzbget st).2.
Proof.
  unfold script, bind. destruct (main environ nzbget st) as [[?|?|?] ?]; reflexivity.
Qed.

Lemma bind_state_stop {A A'} (m : M A) (k : A -> M A') st :
  (forall a, (m st).1 <> Ret a) -> (bind m k st).2 = (m st).2.
Proof.
  intros H. unfold bind. destruct (m st) as [[a|?|?] ?]; [|reflexivity ..].
  destruct (H a eq_refl).
Qed.

Lemma keeps_unmarked_reorder environ nzbget name :
  keeps unmarked (reorder_block environ nzbget name).
Proof.
  apply keeps_reorder_block.
  - apply unmarked_out.
  - apply any_status.
  - intros _. simpl. split; [auto|]. split; [auto|]. discriminate.
Qed.

(** MARK=BAD is the argument of a [print] only for a download whose
    directory holds, among its direct regular files, one with a banned
    extension; the line naming that file and the line that persists the
    verdict go with it. *)
Lemma mark_bad_printed_for_banned_file
    (environ : gmap string string) (nzbget : host) (st : state) :
  mark_bad ∈ new_output st (script environ nzbget st).2 ->
  exists dir names item,
    environ !! (Prefix environ +:+ "DIRECTORY") = Some dir /\
    fs_listdir (st_fs st) dir = Some names /\
    item ∈ names /\ fs_isfile (st_fs st) dir item = true /\
    Py.splitext_ext item ∈ bannedExtensions environ /\
    ("[NZB] NZBPR_PPSTATUS_BANNEDFILE=" +:+ item)
      ∈ new_output st (script environ nzbget st).2 /\
    banned_sentinel ∈ new_output st (script environ nzbget st).2.
Proof.
  rewrite script_state. intros Hin.
  destruct (startCheck environ nzbget st) as [[[]|c|e] st1] eqn:Estart.
  2,3: exfalso;
    assert (Hk : within unmarked_sweep st (startCheck environ nzbget st))
      by (apply keeps_startCheck; simpl; auto using unmarked_out);
    unfold main in Hin; rewrite bind_state_stop in Hin
      by (rewrite Estart; discriminate);
    exact (within_new_output _ _ _ _ Hk Hin eq_refl).
  apply startCheck_ret_inv in Estart as Hinv. destruct Hinv as (-> & Hgate & Hearly).
  assert (Hnil : mark_bad ∉ new_output st st).
  { unfold new_output. rewrite drop_all. apply not_elem_of_nil. }
  destruct (environ !! (Prefix environ +:+ "DIRECTORY")) as [dir|] eqn:Edir.
  2: { exfalso. apply Hnil. unfold main in Hin.
       erewrite bind_ret in Hin by exact Estart.
       erewrite bind_raise in Hin by (apply environ_item_missing; exact Edir).
       exact Hin. }
  destruct (environ !! (Prefix environ +:+ "NZBNAME")) as [name|] eqn:Ename.
  2: { exfalso. apply Hnil. unfold main in Hin.
       erewrite bind_ret in Hin by exact Estart.
       erewrite bind_ret in Hin by (apply environ_item_run; exact Edir).
       erewrite bind_raise in Hin by (apply environ_item_missing; exact Ename).
       exact Hin. }
  rewrite (main_run environ nzbget st st dir name Estart Edir Ename) in Hin |- *.
  pose proof (keeps_unmarked_reorder environ nzbget name st) as Hre.
  destruct (reorder_block environ nzbget name st) as [[[]|c|e] st2] eqn:Ere.
  2,3: exfalso; rewrite bind_state_stop in Hin by (rewrite Ere; discriminate);
    rewrite Ere in Hin; exact (within_new_output _ _ _ _ Hre Hin eq_refl).
  pose proof (within_same_fs _ _ Hre) as Hfs. simpl in Hfs.
  destruct Hre as (_ & _ & _ & (n2 & Hn2 & Hall2) & _). simpl in Hn2.
  unfold bind in Hin |- *. rewrite Ere in Hin |- *.
  assert (Hext : exists new,
            st_out (scan_block environ nzbget (Prefix environ) dir name st2).2
            = st_out st2 ++ new).
  { apply respects_any. apply respects_scan_block; intros; exact I. }
  apply (new_output_split st st2 _ n2 mark_bad Hn2 Hext) in Hin.
  destruct Hin as [Hin|Hin].
  { exfalso. rewrite Forall_forall in Hall2. exact (Hall2 _ Hin eq_refl). }
  destruct (scan_block_marks _ _ _ _ _ _ Hin)
    as (names & item & Hl & Hfirst & _ & Hlines).
  rewrite Hfs in Hl, Hfirst.
  apply first_banned_spec in Hfirst as (Hi1 & Hi2 & Hi3).
  exists dir, names, item. split; [reflexivity|].
  repeat (split; [assumption|]).
  split; apply (new_output_split st st2 _ n2 _ Hn2 Hext); right; apply Hlines;
    unfold found_lines; rewrite !elem_of_app, !elem_of_cons; tauto.
Qed.

(** X13: when the scan is reached and the first regular file with a banned
    extension is [item], the script names it, persists the verdict and
    tells the host to mark the download bad; called for a queue event it
    then leaves with POSTPROCESS_SUCCESS. *)
Theorem banned_file_gets_marked
    (environ : gmap string string) (nzbget : host) (st st2 : state)
    (dir name : string) (names : list string) (item : string) :
  gate_open environ -> ~ early_exit environ (st_fs st) ->
  environ !! (Prefix environ +:+ "DIRECTORY") = Some dir ->
  environ !! (Prefix environ +:+ "NZBNAME") = Some name ->
  reorder_block environ nzbget name st = (Ret tt, st2) ->
  fs_listdir (st_fs st) dir = Some names ->
  first_banned environ (st_fs st) dir names = Some item ->
  item <> "" ->
  (forall line,
     line ∈ ["[NZB] NZBPR_PPSTATUS_BANNEDFILE=" +:+ item; banned_sentinel; mark_bad] ->
     line ∈ new_output st (script environ nzbget st).2) /\
  (is_Some (environ !! "NZBNA_EVENT") ->
   (script environ nzbget st).1 = Exit POSTPROCESS_SUCCESS).
Proof.
  intros Hgate Hearly Hdir Hname Hre Hl Hfirst Hne.
  pose proof (startCheck_pass environ nzbget st Hgate Hearly) as Hstart.
  pose proof (keeps_unmarked_reorder environ nzbget name st) as Hk.
  rewrite Hre in Hk. pose proof (within_same_fs _ _ Hk) as Hfs. simpl in Hfs.
  destruct Hk as (_ & _ & _ & (n2 & Hn2 & _) & _). simpl in Hn2.
  set (T := if String.eqb (Prefix environ) "NZBPP_"
            then cleanUp environ nzbget else ret tt).
  set (lines := ["[INFO] Detecting banned files in " +:+ name]
                ++ found_lines item
                ++ [banned_sentinel; mark_bad;
                    "[DETAIL] Detecting banned files completed for " +:+ name]).
  set (st5 := State (st_fs st) (st_out st2 ++ lines) (st_rpc st2)).
  assert (Hmain : main environ nzbget st = T st5).
  { rewrite (main_run environ nzbget st st dir name Hstart Hdir Hname).
    erewrite bind_ret by exact Hre. rewrite scan_block_run, Hfs, Hl. cbv zeta.
    rewrite Hfirst. unfold after_scan.
    assert (Hf : found_banned (Some item) = true).
    { simpl. destruct (String.eqb_spec item ""); [contradiction|reflexivity]. }
    rewrite Hf. unfold bind, print, T, st5, lines. simpl.
    rewrite <- !app_assoc. reflexivity. }
  split.
  - intros line Hline. rewrite script_state, Hmain.
    assert (Htail : exists new, st_out (T st5).2 = st_out st5 ++ new).
    { unfold T. destruct (String.eqb (Prefix environ) "NZBPP_").
      - apply respects_any. apply respects_cleanUp. apply any_line.
      - exists []. simpl. rewrite app_nil_r. reflexivity. }
    assert (Hst5 : st_out st5 = st_out st ++ (n2 ++ lines)).
    { unfold st5. simpl. rewrite Hn2, app_assoc. reflexivity. }
    apply (new_output_split st st5 _ _ line Hst5 Htail). left.
    unfold lines, found_lines. rewrite !elem_of_cons in Hline.
    rewrite !elem_of_app, !elem_of_cons. tauto.
  - intros Hev. unfold script. erewrite bind_ret; [reflexivity|].
    rewrite Hmain. unfold T.
    rewrite (prefix_queue environ (in_environ_is_Some _ _ Hev)). reflexivity.
Qed.

Lemma banned_file_gets_marked_witness :
  let environ := redo_env in
  let st := infected_state in
  (forall line,
     line ∈ ["[NZB] NZBPR_PPSTATUS_BANNEDFILE=" +:+ "setup.exe";
             banned_sentinel; mark_bad] ->
     line ∈ new_output st (script environ dead_host st).2) /\
  (is_Some (environ !! "NZBNA_EVENT") ->
   (script environ dead_host st).1 = Exit POSTPROCESS_SUCCESS).
Proof.
  intros environ st.
  apply (banned_file_gets_marked environ dead_host st st "/d" "n"
           ["movie.mkv"; "setup.exe"] "setup.exe").
  - split; [right; eexists; vm_compute; reflexivity|].
    split; [eexists; vm_compute; reflexivity|vm_compute; reflexivity].
  - intros [H|[(d & Hd & He)|H]].
    + vm_compute in H. discriminate.
    + vm_compute in Hd. injection Hd as <-. vm_compute in He. discriminate.
    + vm_compute in H. discriminate.
  - vm_compute. reflexivity.
  - vm_compute. reflexivity.
  - vm_compute. reflexivity.
  - vm_compute. reflexivity.
  - vm_compute. reflexivity.
  - discriminate.
Defined.

(** ** Text: slices, prefixes, and the decimal round trip *)

Lemma length_app (a b : string) :
  String.length (a +:+ b) = (String.length a + String.length b)%nat.
Proof. induction a as [|c a IH]; simpl; [reflexivity|]. rewrite IH. reflexivity. Qed.

Lemma chars_app (a b : string) : Py.chars (a +:+ b) = Py.chars a ++ Py.chars b.
Proof.
  unfold Py.chars. induction a as [|c a IH]; simpl; [reflexivity|].
  rewrite IH. reflexivity.
Qed.

Lemma substring_skip (a s : string) n :
  substring (String.length a) n (a +:+ s) = substring 0 n s.
Proof. induction a as [|c a IH]; simpl; [reflexivity|exact IH]. Qed.

Lemma substring_take (b c : string) :
  substring 0 (String.length b) (b +:+ c) = b.
Proof.
  induction b as [|x b IH]; simpl.
  - destruct c; reflexivity.
  - rewrite IH. reflexivity.
Qed.

Lemma startswith_app (p s : string) : Py.startswith (p +:+ s) p = true.
Proof.
  unfold Py.startswith. apply prefix_correct. apply substring_take.
Qed.

(** [line[len(a) : len(line) - len(c)]] of [line = a + b + c] is [b]. *)
Lemma slice_middle (a b c : string) :
  Py.slice (a +:+ b +:+ c) (String.length a)
    (String.length (a +:+ b +:+ c) - String.length c) = b.
Proof.
  unfold Py.slice. rewrite !length_app.
  replace (String.length a + (String.length b + String.length c)
           - String.length c - String.length a)%nat
    with (String.length b) by lia.
  rewrite substring_skip. apply substring_take.
Qed.

Lemma pretty_N_char_digit d :
  (d < 10)%N ->
  Py.is_digit (pretty_N_char d) = true /\ Py.digit_val (pretty_N_char d) = d.
Proof.
  intros H.
  assert (d = 0 \/ d = 1 \/ d = 2 \/ d = 3 \/ d = 4 \/ d = 5 \/ d = 6 \/ d = 7
          \/ d = 8 \/ d = 9)%N as Hd by lia.
  repeat destruct Hd as [->|Hd]; try subst d; split; reflexivity.
Qed.

(** Reading the digits that [pretty_N_go] writes. *)
Lemma digits_go_pretty x : forall s acc b,
  exists p,
    Py.digits_go acc b (Py.chars (pretty_N_go x s))
    = Py.digits_go (acc * p + x)%N (b || (0 <? x)%N) (Py.chars s).
Proof.
  induction (N.lt_wf_0 x) as [x _ IH]. intros s acc b.
  destruct (N.eq_dec x 0) as [->|Hx].
  - exists 1%N. rewrite pretty_N_go_0, N.mul_1_r, N.add_0_r, orb_false_r. reflexivity.
  - assert (Hpos : (0 < x)%N) by lia.
    rewrite pretty_N_go_step by assumption.
    destruct (IH (x `div` 10)%N (N.div_lt x 10 Hpos eq_refl)
                (String (pretty_N_char (x `mod` 10)) s) acc b) as [p Hp].
    exists (p * 10)%N. rewrite Hp. simpl Py.chars.
    destruct (pretty_N_char_digit (x `mod` 10)%N) as [Hd Hv];
      [apply N.mod_lt; lia|].
    change (Py.chars (String ?c ?s)) with (c :: Py.chars s).
    simpl Py.digits_go. rewrite Hd, Hv.
    replace (0 <? x)%N with true by (symmetry; apply N.ltb_lt; assumption).
    rewrite orb_true_r. f_equal.
    pose proof (N.div_mod x 10). lia.
Qed.

Lemma chars_pretty_digits x : forall s,
  Forall (fun c => Py.is_digit c = true) (Py.chars s) ->
  Forall (fun c => Py.is_digit c = true) (Py.chars (pretty_N_go x s)).
Proof.
  induction (N.lt_wf_0 x) as [x _ IH]. intros s Hs.
  destruct (N.eq_dec x 0) as [->|Hx]; [rewrite pretty_N_go_0; assumption|].
  assert (Hpos : (0 < x)%N) by lia.
  rewrite pretty_N_go_step by assumption.
  apply IH; [apply N.div_lt; [assumption|reflexivity]|].
  change (Py.chars (String ?c ?s)) with (c :: Py.chars s).
  constructor; [|assumption].
  apply pretty_N_char_digit. apply N.mod_lt. lia.
Qed.

Lemma pretty_pos (p : positive) : pretty (Npos p) = pretty_N_go (Npos p) "".
Proof.
  unfold pretty, pretty_N. destruct (decide (N.pos p = 0%N)) as [H|_]; [discriminate|].
  reflexivity.
Qed.

Lemma pretty_pos_digits (p : positive) :
  exists c r, Py.chars (pretty (Npos p)) = c :: r /\
              Forall (fun c => Py.is_digit c = true) (c :: r) /\
              Py.digits_go 0 false (c :: r) = Some (Npos p).
Proof.
  rewrite pretty_pos.
  assert (Hall := chars_pretty_digits (Npos p) "" (List.Forall_nil _)).
  destruct (digits_go_pretty (Npos p) "" 0%N false) as [q Hq].
  simpl in Hq.
  destruct (Py.chars (pretty_N_go (N.pos p) "")) as [|c r] eqn:E;
    [discriminate Hq|].
  exists c, r. split; [reflexivity|]. split; [assumption|]. exact Hq.
Qed.

Lemma lstrip_head c r : Py.is_space c = false -> Py.lstrip (c :: r) = c :: r.
Proof. intros H. simpl. rewrite H. reflexivity. Qed.

Lemma str_pos p : Py.str (Zpos p) = pretty (Npos p).
Proof. reflexivity. Qed.

Lemma str_neg p : Py.str (Zneg p) = "-" +:+ pretty (Npos p).
Proof. reflexivity. Qed.

Lemma pretty_N_go_length (k : nat) : forall x s,
  (x < 10 ^ N.of_nat k)%N ->
  (List.length (Py.chars (pretty_N_go x s)) <= k + List.length (Py.chars s))%nat.
Proof.
  induction k as [|k IH]; intros x s Hx.
  - assert (x = 0%N) as -> by (simpl in Hx; lia).
    rewrite pretty_N_go_0. lia.
  - destruct (N.eq_dec x 0) as [->|Hne]; [rewrite pretty_N_go_0; lia|].
    rewrite pretty_N_go_step by lia.
    assert (Hdiv : (x `div` 10 < 10 ^ N.of_nat k)%N).
    { apply N.Div0.div_lt_upper_bound.
      rewrite Nat2N.inj_succ, N.pow_succ_r' in Hx. exact Hx. }
    specialize (IH _ (String (pretty_N_char (x `mod` 10)) s) Hdiv).
    change (Py.chars (String ?c ?t)) with (c :: Py.chars t) in IH.
    simpl List.length in IH. lia.
Qed.

Lemma count_digits_le cs : (Py.count_digits cs <= N.of_nat (List.length cs))%N.
Proof.
  unfold Py.count_digits. pose proof (List.filter_length_le Py.is_digit cs). lia.
Qed.

Lemma pretty_short (p : positive) :
  (Npos p < 10 ^ Py.int_max_str_digits)%N ->
  (Py.count_digits (Py.chars (pretty (Npos p))) <= Py.int_max_str_digits)%N.
Proof.
  intros H. rewrite pretty_pos.
  pose proof (count_digits_le (Py.chars (pretty_N_go (Npos p) ""))) as Hc.
  pose proof (pretty_N_go_length (N.to_nat Py.int_max_str_digits) (Npos p) "") as Hl.
  rewrite N2Nat.id in Hl. specialize (Hl H).
  change (List.length (Py.chars "")) with 0%nat in Hl.
  generalize dependent Py.int_max_str_digits. intros m _ Hl. lia.
Qed.

Lemma count_digits_sign c r :
  Py.is_digit c = false -> Py.count_digits (c :: r) = Py.count_digits r.
Proof. intros H. unfold Py.count_digits. simpl. rewrite H. reflexivity. Qed.

(** [int(str(n)) == n], for a number [int] is willing to read. *)
Lemma int_str (n : Z) : short_number n -> Py.int (Py.str n) = Some n.
Proof.
  unfold short_number. intros Hn. destruct n as [|p|p].
  - reflexivity.
  - rewrite str_pos.
    destruct (pretty_pos_digits p) as (c & r & Hc & Hall & Hgo).
    pose proof (pretty_short p Hn) as Hs. rewrite Hc in Hs.
    apply N.ltb_ge in Hs.
    unfold Py.int. rewrite Hc, (strip_digits _ Hall), Hs.
    inversion Hall as [|? ? Hd _]; subst.
    destruct (Ascii.eqb_spec c "-") as [->|_]; [discriminate Hd|].
    destruct (Ascii.eqb_spec c "+") as [->|_]; [discriminate Hd|].
    rewrite Hgo. reflexivity.
  - rewrite str_neg.
    destruct (pretty_pos_digits p) as (c & r & Hc & Hall & Hgo).
    pose proof (pretty_short p Hn) as Hs. rewrite Hc in Hs.
    apply N.ltb_ge in Hs.
    unfold Py.int. rewrite chars_app, Hc.
    change (Py.chars "-") with ["-"%char]. simpl app.
    assert (Hstrip : Py.strip ("-"%char :: c :: r) = "-"%char :: c :: r).
    { unfold Py.strip. rewrite lstrip_head by reflexivity.
      change (rev ("-"%char :: c :: r)) with (rev (c :: r) ++ ["-"%char]).
      assert (Hrev : Forall (fun c => Py.is_digit c = true) (rev (c :: r)))
        by (apply List.Forall_rev; assumption).
      destruct (rev (c :: r)) as [|x xs] eqn:Er.
      { apply (f_equal (@List.length _)) in Er. rewrite length_rev in Er.
        discriminate. }
      inversion Hrev as [|? ? Hx _]; subst.
      simpl app. rewrite lstrip_head by (apply is_digit_not_space; assumption).
      change (x :: xs ++ ["-"%char]) with ((x :: xs) ++ ["-"%char]).
      rewrite <- Er, rev_app_distr, rev_involutive. reflexivity. }
    rewrite Hstrip, (count_digits_sign "-" (c :: r) eq_refl), Hs.
    change ((fun n => - Z.of_N n) <$> Py.digits_go 0 false (c :: r) = Some (Z.neg p)).
    rewrite Hgo. reflexivity.
Qed.

(** ** Which volume is moved *)

Lemma selects_first_nothing : selects_first [] no_selection.
Proof.
  unfold selects_first. simpl. split; [reflexivity|]. split; [reflexivity|].
  intros i name H. apply elem_of_nil in H. tauto.
Qed.

Lemma selects_first_keep seen sel i name :
  selects_first seen sel ->
  (forall N, volume_number name = Some N ->
             exists M, file_num sel = Some M /\ N <= M /\ M <> 0) ->
  selects_first (seen ++ [(i, name)]) sel.
Proof.
  unfold selects_first. intros H Hnew. destruct (file_num sel) as [M|].
  - destruct H as (before & j & nm & after & -> & Hid & Hname & Hnum & Hb & Ha).
    exists before, j, nm, (after ++ [(i, name)]).
    split; [rewrite <- app_assoc; reflexivity|].
    split; [assumption|]. split; [assumption|]. split; [assumption|].
    split; [assumption|].
    intros i' name' N' Hin' Hn'. apply elem_of_app in Hin' as [Hin'|Hin'].
    + eapply Ha; eassumption.
    + apply list_elem_of_singleton in Hin'. injection Hin' as -> ->.
      destruct (Hnew N' Hn') as (M' & [= <-] & Hle & Hne). auto.
  - destruct H as (Hid & Hname & Hnone). split; [assumption|].
    split; [assumption|]. intros i' name' Hin'.
    apply elem_of_app in Hin' as [Hin'|Hin']; [eapply Hnone; eassumption|].
    apply list_elem_of_singleton in Hin'. injection Hin' as -> ->.
    destruct (volume_number name) as [N|] eqn:E; [|reflexivity].
    destruct (Hnew N eq_refl) as (M' & HM & _). discriminate.
Qed.

Lemma consider_first name s1 s' seen :
  consider name s1 = Ret s' ->
  selects_first seen s1 ->
  cur_id s' = cur_id s1 /\ selects_first (seen ++ [(cur_id s1, name)]) s'.
Proof.
  unfold consider. intros Hrun Hinv.
  destruct (Regex.volume_digits name) as [g|] eqn:Eg.
  - destruct (Py.int g) as [c|] eqn:Ec; [|discriminate].
    assert (Hvol : volume_number name = Some c).
    { unfold volume_number. rewrite Eg. assumption. }
    assert (Hc : 0 <= c) by (eapply volume_number_nonneg; eassumption).
    destruct (better c (file_num s1)) eqn:Eb.
    + destruct (cur_id s1) as [i|] eqn:Ei; [|discriminate].
      injection Hrun as <-. split; [reflexivity|].
      unfold selects_first. simpl. exists seen, i, name, [].
      split; [reflexivity|]. split; [reflexivity|]. split; [reflexivity|].
      split; [assumption|]. split.
      * intros i' name' N' Hin' Hn'.
        assert (0 <= N') by (eapply volume_number_nonneg; eassumption).
        unfold selects_first in Hinv. unfold better, truthy in Eb.
        destruct (file_num s1) as [f|].
        -- destruct Hinv as (before & j & nm & after & -> & _ & _ & Hf & Hb & Ha).
           assert (Hold : f = 0 \/ f < c).
           { destruct (Z.eqb_spec f 0); simpl in Eb; [auto|].
             apply Z.ltb_lt in Eb. auto. }
           apply elem_of_app in Hin' as [Hin'|Hin'].
           { specialize (Hb _ _ _ Hin' Hn'). lia. }
           apply elem_of_cons in Hin' as [Hin'|Hin'].
           { injection Hin' as -> ->. rewrite Hf in Hn'. injection Hn' as <-. lia. }
           specialize (Ha _ _ _ Hin' Hn'). lia.
        -- destruct Hinv as (_ & _ & Hnone).
           rewrite (Hnone i' name' Hin') in Hn'. discriminate.
      * intros i' name' N' Hin'. apply elem_of_nil in Hin'. tauto.
    + injection Hrun as <-. split; [reflexivity|].
      apply selects_first_keep; [assumption|].
      intros N HN. rewrite Hvol in HN. injection HN as <-.
      unfold better, truthy in Eb. destruct (file_num s1) as [f|]; [|discriminate].
      exists f. split; [reflexivity|].
      destruct (Z.eqb_spec f 0); simpl in Eb; [discriminate|].
      apply Z.ltb_ge in Eb. auto.
  - injection Hrun as <-. split; [reflexivity|].
    apply selects_first_keep; [assumption|].
    intros N HN. unfold volume_number in HN. rewrite Eg in HN. discriminate.
Qed.

Lemma scan_line_first line s s' seen :
  scan_line line s = Ret s' ->
  selects_first seen s ->
  cur_id s' =
    (if Py.startswith line id_key
     then Py.int (Py.slice line 7 (String.length line - 1)) else cur_id s) /\
  selects_first (seen ++ entries (cur_id s) [line]) s'.
Proof.
  unfold scan_line. simpl entries. intros Hrun Hinv.
  destruct (Py.startswith line id_key).
  - destruct (Py.int (Py.slice line 7 (String.length line - 1))) as [n|];
      [|discriminate].
    set (s1 := Selection (Some n) (file_num s) (file_id s) (file_name s)) in *.
    assert (Hinv1 : selects_first seen s1) by exact Hinv.
    destruct (Py.startswith line filename_key).
    + apply (consider_first _ _ _ seen) in Hrun as [H1 H2]; [|assumption]. auto.
    + injection Hrun as <-. rewrite app_nil_r. auto.
  - destruct (Py.startswith line filename_key).
    + apply (consider_first _ _ _ seen) in Hrun as [H1 H2]; [|assumption]. auto.
    + injection Hrun as <-. rewrite app_nil_r. auto.
Qed.

Lemma scan_lines_first lines : forall s sel seen,
  scan_lines lines s = Ret sel ->
  selects_first seen s ->
  selects_first (seen ++ entries (cur_id s) lines) sel.
Proof.
  induction lines as [|line rest IH]; intros s sel seen Hrun Hinv.
  - simpl in *. injection Hrun as <-. rewrite app_nil_r. assumption.
  - simpl in Hrun. destruct (scan_line line s) as [s1| |] eqn:E; try discriminate.
    destruct (scan_line_first line s s1 seen E Hinv) as [Hcur Hinv1].
    rewrite entries_cons, app_assoc, <- Hcur. apply IH; assumption.
Qed.

(** X14: whenever [sort_inner_files] sends [FileMoveTop] for the file [i], the
    listing it read holds an entry with that id whose volume number [N]
    is the largest, and that entry is the first of its kind: every entry
    before it has a smaller number (or the number 0), and no entry after
    it has a larger one.  A selected number 0 is replaced by any later
    match, so then no later entry has a number at all. *)
Theorem sort_inner_files_moves_first_of_largest
    (environ : gmap string string) (nzbget : host) (st : state) (i : Z) :
  FileMoveTop [i] ∈ new_rpc st (sort_inner_files environ nzbget st).2 ->
  exists v n data before name N after,
    environ !! "NZBNA_NZBID" = Some v /\ Py.int v = Some n /\
    h_query nzbget (listfiles n) = Some data /\
    entries None (Py.splitlines data) = before ++ (Some i, name) :: after /\
    volume_number name = Some N /\
    (forall i' name' N',
       (i', name') ∈ before -> volume_number name' = Some N' ->
       N' < N \/ N' = 0) /\
    (forall i' name' N',
       (i', name') ∈ after -> volume_number name' = Some N' ->
       N' <= N /\ N <> 0).
Proof.
  intros Hin.
  destruct (sort_inner_files_calls environ nzbget st)
    as [E|(v & n & Hv & Hn & [E|(data & sel & j & Hq & Hscan & Hj & Hne & E)])];
    simpl in E; rewrite E in Hin.
  - apply elem_of_nil in Hin. tauto.
  - apply list_elem_of_singleton in Hin. discriminate.
  - apply elem_of_cons in Hin as [Hin|Hin]; [discriminate|].
    apply list_elem_of_singleton in Hin. injection Hin as ->.
    pose proof (scan_lines_first _ _ _ [] Hscan selects_first_nothing) as Hinv.
    simpl in Hinv. unfold selects_first in Hinv.
    destruct (file_num sel) as [N|].
    + destruct Hinv as (before & i' & name & after & He & Hid & _ & Hnum & Hb & Ha).
      rewrite Hj in Hid. injection Hid as <-.
      exists v, n, data, before, name, N, after. auto 10.
    + destruct Hinv as (Hid & _). rewrite Hj in Hid. discriminate.
Qed.

Lemma sort_inner_files_moves_first_of_largest_witness :
  let environ : gmap string string :=
    list_to_map ([("NZBNA_NZBID", "5")] ++ control_env) in
  let nzbget := files_host tied_volumes in
  exists v n data before name N after,
    environ !! "NZBNA_NZBID" = Some v /\ Py.int v = Some n /\
    h_query nzbget (listfiles n) = Some data /\
    entries None (Py.splitlines data) = before ++ (Some 1, name) :: after /\
    volume_number name = Some N /\
    (forall i' name' N',
       (i', name') ∈ before -> volume_number name' = Some N' ->
       N' < N \/ N' = 0) /\
    (forall i' name' N',
       (i', name') ∈ after -> volume_number name' = Some N' ->
       N' <= N /\ N <> 0).
Proof.
  intros environ nzbget.
  apply (sort_inner_files_moves_first_of_largest environ nzbget empty_state 1).
  apply list_elem_of_In. vm_compute. tauto.
Defined.

(** ** The two parsers of the answers of the host *)

Lemma slice_nzbid_line n :
  Py.slice (nzbid_line n) 10 (String.length (nzbid_line n) - 1) = Py.str n.
Proof. exact (slice_middle nzbid_key (Py.str n) ","). Qed.

Lemma slice_id_line i :
  Py.slice (id_line i) 7 (String.length (id_line i) - 1) = Py.str i.
Proof. exact (slice_middle id_key (Py.str i) ","). Qed.

Lemma slice_filename_line name :
  Py.slice (filename_line name) 14 (String.length (filename_line name) - 2) = name.
Proof. exact (slice_middle filename_key name (dq +:+ ",")). Qed.

Lemma id_line_not_filename i : Py.startswith (id_line i) filename_key = false.
Proof. reflexivity. Qed.

Lemma filename_line_not_id name : Py.startswith (filename_line name) id_key = false.
Proof. reflexivity. Qed.

(** X15: the loop of [cleanUp] inverts the layout of the queue listing:
    for ids of at most [Py.int_max_str_digits] digits it collects the ids
    of the id lines, in order, and skips the rest. *)
Theorem parse_nzbids_reads_queue_ids (items : list (Z + string)) (acc : list string) :
  (forall n, inl n ∈ items -> short_number n) ->
  (forall other, inr other ∈ items -> Py.startswith other nzbid_key = false) ->
  parse_nzbids (map queue_line items) acc = Ret (acc ++ map Py.str (queue_ids items)).
Proof.
  revert acc. induction items as [|item rest IH]; intros acc Hshort Hother.
  - simpl. rewrite app_nil_r. reflexivity.
  - assert (Hrest : forall other, inr other ∈ rest ->
                                  Py.startswith other nzbid_key = false).
    { intros other Hin. apply Hother. apply elem_of_cons. auto. }
    assert (Hrest' : forall n, inl n ∈ rest -> short_number n).
    { intros n Hin. apply Hshort. apply elem_of_cons. auto. }
    destruct item as [n|other].
    + change (map queue_line (inl n :: rest))
        with (nzbid_line n :: map queue_line rest).
      cbn [parse_nzbids].
      rewrite (startswith_app nzbid_key (Py.str n +:+ ",")
               : Py.startswith (nzbid_line n) nzbid_key = true).
      rewrite slice_nzbid_line, int_str by (apply Hshort; apply elem_of_cons; auto).
      rewrite (IH _ Hrest' Hrest), <- app_assoc. reflexivity.
    + change (map queue_line (inr other :: rest))
        with (other :: map queue_line rest).
      cbn [parse_nzbids]. rewrite (Hother other) by (apply elem_of_cons; auto).
      apply IH; assumption.
Qed.

Lemma parse_nzbids_reads_queue_ids_witness :
  let items : list (Z + string) := [inr "{"; inl 2; inl 30; inr "}"] in
  parse_nzbids (map queue_line items) [] = Ret ([] ++ map Py.str (queue_ids items)).
Proof.
  intros items. apply (parse_nzbids_reads_queue_ids items []).
  - intros n H. unfold items in H. rewrite !elem_of_cons in H.
    destruct H as [H|[H|[H|[H|H]]]]; try discriminate H.
    + injection H as ->. unfold short_number. vm_compute. reflexivity.
    + injection H as ->. unfold short_number. vm_compute. reflexivity.
    + apply elem_of_nil in H. destruct H.
  - intros other H. unfold items in H. rewrite !elem_of_cons in H.
    destruct H as [H|[H|[H|[H|H]]]]; try discriminate H.
    + injection H as ->. reflexivity.
    + injection H as ->. reflexivity.
    + apply elem_of_nil in H. destruct H.
Defined.

Lemma readable_other fields : forall seen rest,
  Forall other_field fields ->
  readable seen (fields ++ rest) = readable seen rest.
Proof.
  induction fields as [|line more IH]; intros seen rest H; [reflexivity|].
  inversion H as [|? ? [H1 H2] Hmore]; subst. simpl. rewrite H1, H2.
  apply IH. assumption.
Qed.

Lemma entries_other fields : forall cur rest,
  Forall other_field fields ->
  entries cur (fields ++ rest) = entries cur rest.
Proof.
  induction fields as [|line more IH]; intros cur rest H; [reflexivity|].
  inversion H as [|? ? [H1 H2] Hmore]; subst. simpl. rewrite H1, H2.
  apply IH. assumption.
Qed.

Lemma readable_filename_line name rest :
  volume_readable name = true ->
  readable true (filename_line name :: rest) = readable true rest.
Proof.
  intros Hv. cbn [readable]. rewrite filename_line_not_id.
  rewrite (startswith_app filename_key (name +:+ dq +:+ ",")
           : Py.startswith (filename_line name) filename_key = true).
  rewrite slice_filename_line, Hv. reflexivity.
Qed.

Lemma entries_filename_line cur name rest :
  entries cur (filename_line name :: rest) = (cur, name) :: entries cur rest.
Proof.
  cbn [entries]. rewrite filename_line_not_id.
  rewrite (startswith_app filename_key (name +:+ dq +:+ ",")
           : Py.startswith (filename_line name) filename_key = true).
  rewrite slice_filename_line. reflexivity.
Qed.

Lemma readable_id_line seen i rest :
  short_number i ->
  readable seen (id_line i :: rest) = readable true rest.
Proof.
  intros Hi. cbn [readable].
  rewrite (startswith_app id_key (Py.str i +:+ ",")
           : Py.startswith (id_line i) id_key = true).
  rewrite slice_id_line, int_str by assumption. reflexivity.
Qed.

Lemma entries_id_line cur i rest :
  short_number i ->
  entries cur (id_line i :: rest) = entries (Some i) rest.
Proof.
  intros Hi. cbn [entries].
  rewrite (startswith_app id_key (Py.str i +:+ ",")
           : Py.startswith (id_line i) id_key = true).
  rewrite id_line_not_filename, slice_id_line, int_str by assumption. reflexivity.
Qed.

Lemma listing_lines_readable files : forall seen,
  Forall listed_file files ->
  readable seen (listing_lines files) = true.
Proof.
  induction files as [|[[i fields] name] rest IH]; intros seen H; [reflexivity|].
  inversion H as [|? ? (Hi & Hf & Hv) Hrest]; subst. simpl in Hi, Hf, Hv.
  change (listing_lines ((i, fields, name) :: rest))
    with (id_line i :: (fields ++ [filename_line name]) ++ listing_lines rest).
  rewrite (readable_id_line _ _ _ Hi), <- app_assoc, (readable_other _ _ _ Hf).
  change ([filename_line name] ++ listing_lines rest)
    with (filename_line name :: listing_lines rest).
  rewrite (readable_filename_line _ _ Hv). apply IH. assumption.
Qed.

Lemma listing_lines_entries files : forall cur,
  Forall listed_file files ->
  entries cur (listing_lines files) = map (fun f => (Some f.1.1, f.2)) files.
Proof.
  induction files as [|[[i fields] name] rest IH]; intros cur H; [reflexivity|].
  inversion H as [|? ? (Hi & Hf & Hv) Hrest]; subst. simpl in Hi, Hf, Hv.
  change (listing_lines ((i, fields, name) :: rest))
    with (id_line i :: (fields ++ [filename_line name]) ++ listing_lines rest).
  rewrite (entries_id_line _ _ _ Hi), <- app_assoc, (entries_other _ _ _ Hf).
  change ([filename_line name] ++ listing_lines rest)
    with (filename_line name :: listing_lines rest).
  rewrite entries_filename_line, (IH _ Hrest). reflexivity.
Qed.

(** X16: the loop of [sort_inner_files] inverts the layout of the file
    listing: for files whose ids and volume numbers have at most
    [Py.int_max_str_digits] digits it reads the listing to the end,
    without an exception, and what it has selected then is the first
    file with the largest volume number, paired with that file's own
    id. *)
Theorem scan_lines_reads_file_listing (files : list (Z * list string * string)) :
  Forall listed_file files ->
  exists sel,
    scan_lines (listing_lines files) no_selection = Ret sel /\
    selects_first (map (fun f => (Some f.1.1, f.2)) files) sel.
Proof.
  intros H.
  destruct (scan_lines_total (listing_lines files) no_selection false
              (listing_lines_readable files false H)) as [sel Hsel];
    [discriminate|].
  exists sel. split; [assumption|].
  pose proof (scan_lines_first _ _ _ [] Hsel selects_first_nothing) as Hinv.
  simpl in Hinv. rewrite (listing_lines_entries files None H) in Hinv. exact Hinv.
Qed.

Lemma scan_lines_reads_file_listing_witness :
  let files : list (Z * list string * string) :=
    [(1, ["{"], "a.part1.rar"); (2, [], "a.part2.rar")] in
  exists sel,
    scan_lines (listing_lines files) no_selection = Ret sel /\
    selects_first (map (fun f => (Some f.1.1, f.2)) files) sel.
Proof.
  intros files. apply (scan_lines_reads_file_listing files).
  repeat constructor; vm_compute; reflexivity.
Defined.

(** ** Extensions *)

Lemma text_chars s : Py.text (Py.chars s) = s.
Proof. apply string_of_list_ascii_of_string. Qed.

Lemma chars_text cs : Py.chars (Py.text cs) = cs.
Proof. apply list_ascii_of_string_of_list_ascii. Qed.

Lemma chars_length s : List.length (Py.chars s) = String.length s.
Proof. induction s as [|c s IH]; simpl; [reflexivity|]. rewrite IH. reflexivity. Qed.

Lemma chars_substring s : forall a n,
  Py.chars (substring a n s) = take n (drop a (Py.chars s)).
Proof.
  induction s as [|c s IH]; intros a n.
  - destruct a, n; reflexivity.
  - destruct a as [|a].
    + destruct n as [|n]; [reflexivity|].
      change (Py.chars (String c (substring 0 n s)) = c :: take n (drop 0 (Py.chars s))).
      change (Py.chars (String c ?t)) with (c :: Py.chars t).
      rewrite IH. reflexivity.
    + change (Py.chars (substring a n s) = take n (drop a (Py.chars s))). apply IH.
Qed.

Lemma chars_slice_from s a : Py.chars (Py.slice_from s a) = drop a (Py.chars s).
Proof.
  unfold Py.slice_from. rewrite chars_substring, <- chars_length.
  apply take_ge. rewrite length_drop. lia.
Qed.

Lemma chars_slice s a b :
  Py.chars (Py.slice s a b) = take (b - a) (drop a (Py.chars s)).
Proof. apply chars_substring. Qed.

(** [rfind] returns the position of the last occurrence. *)
Lemma rfind_go_spec c cs : forall i last,
  (Py.rfind_go c cs i last = last /\ Forall (fun x => Ascii.eqb x c = false) cs) \/
  exists pre post,
    cs = pre ++ c :: post /\
    Py.rfind_go c cs i last = i + Z.of_nat (List.length pre) /\
    Forall (fun x => Ascii.eqb x c = false) post.
Proof.
  induction cs as [|x r IH]; intros i last; simpl.
  - left. split; [reflexivity|constructor].
  - destruct (IH (i + 1) (if Ascii.eqb x c then i else last))
      as [[Hr Hall]|(pre & post & -> & Hr & Hall)].
    + rewrite Hr. destruct (Ascii.eqb_spec x c) as [->|Hne].
      * right. exists [], r. simpl. split; [reflexivity|].
        split; [lia|assumption].
      * left. split; [reflexivity|]. constructor; [|assumption].
        apply Ascii.eqb_neq. assumption.
    + right. exists (x :: pre), post. split; [reflexivity|].
      split; [rewrite Hr; simpl List.length; lia|assumption].
Qed.

Lemma rfind_spec c s :
  (Py.rfind c s = -1 /\ Forall (fun x => Ascii.eqb x c = false) (Py.chars s)) \/
  exists pre post,
    Py.chars s = pre ++ c :: post /\
    Py.rfind c s = Z.of_nat (List.length pre) /\
    Forall (fun x => Ascii.eqb x c = false) post.
Proof.
  unfold Py.rfind. destruct (rfind_go_spec c (Py.chars s) 0 (-1))
    as [H|(pre & post & H1 & H2 & H3)]; [left; assumption|].
  right. exists pre, post. repeat split; assumption.
Qed.

Lemma Forall_drop_suffix {A} (P : A -> Prop) (pre post pre' post' : list A) c c' :
  pre ++ c :: post = pre' ++ c' :: post' ->
  (List.length pre < List.length pre')%nat ->
  Forall P post -> Forall P post'.
Proof.
  intros E Hlt Hall.
  assert (Hd : drop (S (List.length pre')) (pre ++ c :: post) = post').
  { rewrite E.
    change (S (List.length pre')) with (1 + List.length pre')%nat.
    rewrite Nat.add_comm, <- drop_drop, drop_app_length. reflexivity. }
  rewrite <- Hd. rewrite drop_app_ge by lia.
  destruct (S (List.length pre') - List.length pre)%nat as [|k] eqn:Ek; [lia|].
  simpl. apply Forall_drop. assumption.
Qed.

Lemma splitext_ext_simple (p : string) : simple_extension (Py.splitext_ext p) = true.
Proof.
  unfold Py.splitext_ext.
  destruct ((Py.rfind "/" p <? Py.rfind "." p)
            && existsb (fun c => negb (Ascii.eqb c "."))
                 (Py.chars (Py.slice p (Z.to_nat (Py.rfind "/" p + 1))
                              (Z.to_nat (Py.rfind "." p))))) eqn:E;
    [|reflexivity].
  apply andb_true_iff in E as [Hlt _]. apply Z.ltb_lt in Hlt.
  destruct (rfind_spec "." p) as [[Hd _]|(pre & post & Hp & Hd & Hdots)].
  { destruct (rfind_spec "/" p) as [[Hs _]|(pre' & post' & _ & Hs & _)]; lia. }
  unfold simple_extension.
  rewrite chars_slice_from, Hd, Nat2Z.id, Hp, drop_app_length.
  apply andb_true_iff. split; [reflexivity|].
  apply forallb_forall. intros x Hx. apply negb_true_iff, orb_false_iff.
  rewrite List.Forall_forall in Hdots. split; [apply Hdots; assumption|].
  destruct (rfind_spec "/" p) as [[_ Hall]|(pre' & post' & Hp' & Hs & Hall)].
  - rewrite Hp in Hall. rewrite List.Forall_forall in Hall. apply Hall.
    apply in_or_app. right. right. assumption.
  - assert (Hpost : Forall (fun x => Ascii.eqb x "/" = false) post).
    { apply (Forall_drop_suffix _ pre' post' pre post "/"%char "."%char);
        [congruence|lia|assumption]. }
    rewrite List.Forall_forall in Hpost. apply Hpost. assumption.
Qed.

(** X17: an entry of the banned list that is not of the shape of an extension
    (no leading dot as in exe, a second dot as in .tar.gz, or a slash)
    matches no file: with only such entries, [detectBannedFile] reports
    nothing and prints nothing, whatever the directory holds. *)
Theorem detectBannedFile_ignores_malformed_entries
    (environ : gmap string string) (dir : string) (st : state) :
  (forall e, e ∈ bannedExtensions environ -> simple_extension e = false) ->
  detectBannedFile environ dir st = (Ret None, st) \/
  detectBannedFile environ dir st = (Raise OSError, st).
Proof.
  intros Hbad. rewrite detectBannedFile_run.
  destruct (fs_listdir (st_fs st) dir) as [names|]; [left|right; reflexivity].
  destruct (first_banned environ (st_fs st) dir names) as [item|] eqn:E.
  - apply first_banned_spec in E as (_ & _ & Hin).
    pose proof (splitext_ext_simple item) as Hs. rewrite (Hbad _ Hin) in Hs.
    discriminate.
  - simpl. rewrite app_nil_r. destruct st; reflexivity.
Qed.

Lemma detectBannedFile_ignores_malformed_entries_witness :
  let environ : gmap string string := {[ "NZBPO_BANNEDEXTENSIONS" := "exe,.tar.gz" ]} in
  let st := state_of [("/d", [plain "setup.exe"; plain "backup.tar.gz"])] in
  detectBannedFile environ "/d" st = (Ret None, st) \/
  detectBannedFile environ "/d" st = (Raise OSError, st).
Proof.
  intros environ st.
  apply (detectBannedFile_ignores_malformed_entries environ "/d" st).
  intros e He.
  assert (Hb : bannedExtensions environ = ["exe"; ".tar.gz"])
    by (vm_compute; reflexivity).
  rewrite Hb in He. rewrite !elem_of_cons in He.
  destruct He as [->|[->|He]]; [reflexivity|reflexivity|].
  apply elem_of_nil in He. destruct He.
Defined.

(** ** The banned list *)

Lemma split_go_word sep word : forall cur rest,
  Forall (fun c => Ascii.eqb c sep = false) word ->
  Py.split_go sep cur (word ++ rest) = Py.split_go sep (rev word ++ cur) rest.
Proof.
  induction word as [|c word IH]; intros cur rest H; [reflexivity|].
  inversion H as [|? ? Hc Hword]; subst. simpl. rewrite Hc, (IH _ _ Hword).
  rewrite <- app_assoc. reflexivity.
Qed.

Lemma chars_concat_cons sep x y t :
  Py.chars (String.concat sep (x :: y :: t))
  = Py.chars x ++ Py.chars sep ++ Py.chars (String.concat sep (y :: t)).
Proof.
  change (String.concat sep (x :: y :: t))
    with (x +:+ sep +:+ String.concat sep (y :: t)).
  rewrite !chars_app. reflexivity.
Qed.

Lemma split_concat exts : forall e,
  Forall (fun w => Forall (fun c => Ascii.eqb c "," = false) (Py.chars w)) (e :: exts) ->
  Py.split_go "," [] (Py.chars (String.concat "," (e :: exts))) = e :: exts.
Proof.
  induction exts as [|y t IH]; intros e H; inversion H as [|? ? He Ht]; subst.
  - simpl String.concat. rewrite <- (app_nil_r (Py.chars e)).
    rewrite (split_go_word _ _ _ _ He). simpl.
    rewrite app_nil_r, rev_involutive, text_chars. reflexivity.
  - rewrite chars_concat_cons, (split_go_word _ _ _ _ He).
    change (Py.chars ",") with [","%char]. simpl.
    rewrite app_nil_r, rev_involutive, text_chars. f_equal. apply IH. assumption.
Qed.

Lemma filter_spaces_word w :
  Forall (fun c => Ascii.eqb c " " = false) w ->
  List.filter (fun c => negb (Ascii.eqb c " ")) w = w.
Proof.
  induction 1 as [|c w Hc _ IH]; [reflexivity|]. simpl. rewrite Hc, IH. reflexivity.
Qed.

Lemma remove_spaces_concat exts : forall e,
  Forall (fun w => Forall (fun c => Ascii.eqb c " " = false) (Py.chars w)) (e :: exts) ->
  Py.remove_spaces (String.concat ", " (e :: exts)) = String.concat "," (e :: exts).
Proof.
  unfold Py.remove_spaces.
  induction exts as [|y t IH]; intros e H; inversion H as [|? ? He Ht]; subst.
  - simpl String.concat. rewrite (filter_spaces_word _ He). apply text_chars.
  - rewrite chars_concat_cons, List.filter_app, (filter_spaces_word _ He).
    change (Py.chars ", ") with [","%char; " "%char].
    rewrite List.filter_app. simpl List.filter at 1.
    specialize (IH y Ht). apply (f_equal Py.chars) in IH.
    rewrite chars_text in IH. rewrite IH. rewrite <- (text_chars (String.concat "," (e :: y :: t))).
    rewrite chars_concat_cons. reflexivity.
Qed.

(** X18: the banned list written the usual way, its words separated by a comma
    and a space, is read back word for word. *)
Theorem bannedExtensions_reads_written_list
    (environ : gmap string string) (e : string) (exts : list string) :
  Forall plain_word (e :: exts) ->
  environ !! "NZBPO_BANNEDEXTENSIONS" = Some (String.concat ", " (e :: exts)) ->
  bannedExtensions environ = e :: exts.
Proof.
  intros Hplain Hv. unfold bannedExtensions, getenv. rewrite Hv.
  change (Py.split "," (Py.remove_spaces (String.concat ", " (e :: exts))) = e :: exts).
  unfold Py.split. rewrite remove_spaces_concat.
  - apply split_concat. eapply List.Forall_impl; [|exact Hplain].
    intros w Hw. eapply List.Forall_impl; [|exact Hw]. intros c [_ Hc]. exact Hc.
  - eapply List.Forall_impl; [|exact Hplain].
    intros w Hw. eapply List.Forall_impl; [|exact Hw]. intros c [Hc _]. exact Hc.
Qed.

Lemma bannedExtensions_reads_written_list_witness :
  bannedExtensions {[ "NZBPO_BANNEDEXTENSIONS" := ".exe, .bat" ]} = [".exe"; ".bat"].
Proof.
  apply (bannedExtensions_reads_written_list
           {[ "NZBPO_BANNEDEXTENSIONS" := ".exe, .bat" ]} ".exe" [".bat"]).
  - repeat constructor.
  - vm_compute. reflexivity.
Defined.

(** ** The context of a call *)

(** X19: past the gatekeeper, [main] reads the directory and the name of the
    download under the prefix of the call, and a missing one ends the
    script with a [KeyError] for that very key before anything is
    printed; the directory of a post-processing call is never the one
    that is missing. *)
Theorem missing_context_raises_KeyError
    (environ : gmap string string) (nzbget : host) (st : state) :
  gate_open environ -> ~ early_exit environ (st_fs st) ->
  let key := fun name => Prefix environ +:+ name in
  (environ !! key "DIRECTORY" = None ->
   script environ nzbget st = (Raise (KeyError (key "DIRECTORY")), st)) /\
  (is_Some (environ !! key "DIRECTORY") -> environ !! key "NZBNAME" = None ->
   script environ nzbget st = (Raise (KeyError (key "NZBNAME")), st)) /\
  (environ !! "NZBNA_EVENT" = None -> is_Some (environ !! key "DIRECTORY")).
Proof.
  intros Hgate Hearly key.
  pose proof (startCheck_pass environ nzbget st Hgate Hearly) as Hstart.
  split; [|split].
  - intros Hd. unfold script, main.
    erewrite bind_raise; [reflexivity|].
    erewrite bind_ret by exact Hstart.
    erewrite bind_raise; [reflexivity|]. apply environ_item_missing. exact Hd.
  - intros [d Hd] Hn. unfold script, main.
    erewrite bind_raise; [reflexivity|].
    erewrite bind_ret by exact Hstart.
    erewrite bind_ret by (apply environ_item_run; exact Hd).
    erewrite bind_raise; [reflexivity|]. apply environ_item_missing. exact Hn.
  - intros Hev. destruct Hgate as ([[e He]|Hdir] & _); [congruence|].
    unfold key. rewrite (prefix_pp environ (in_environ_false _ _ Hev)). exact Hdir.
Qed.

Lemma missing_context_raises_KeyError_witness :
  let environ := lost_env in
  let st := empty_state in
  let key := fun name => Prefix environ +:+ name in
  (environ !! key "DIRECTORY" = None ->
   script environ dead_host st = (Raise (KeyError (key "DIRECTORY")), st)) /\
  (is_Some (environ !! key "DIRECTORY") -> environ !! key "NZBNAME" = None ->
   script environ dead_host st = (Raise (KeyError (key "NZBNAME")), st)) /\
  (environ !! "NZBNA_EVENT" = None -> is_Some (environ !! key "DIRECTORY")).
Proof.
  intros environ st.
  apply (missing_context_raises_KeyError environ dead_host st).
  - split; [left; eexists; vm_compute; reflexivity|].
    split; [eexists; vm_compute; reflexivity|vm_compute; reflexivity].
  - intros [H|[(d & Hd & He)|H]].
    + vm_compute in H. discriminate.
    + vm_compute in Hd. discriminate.
    + vm_compute in H. discriminate.
Defined.

(** ** Housekeeping fails early or not at all *)

Lemma for_each_remove_returns folder l : forall st,
  exists st', for_each l (remove_temp folder) st = (Ret tt, st').
Proof.
  induction l as [|x l IH]; intros st; simpl; [eauto|].
  unfold bind at 1.
  assert (H : exists st1, remove_temp folder x st = (Ret tt, st1)).
  { unfold remove_temp, try_except, bind, print, os_remove. simpl.
    match goal with
    | |- context [fs_remove ?a ?b ?c] => destruct (fs_remove a b c)
    end; simpl; eauto. }
  destruct H as [st1 ->]. apply IH.
Qed.

Lemma cleanUp_run (environ : gmap string string) (nzbget : host) (st : state) :
  cleanUp environ nzbget st
  = match environ !! "NZBOP_TEMPDIR" with
    | Some t =>
        match fs_listdir (st_fs st) (marker_dir t) with
        | Some files =>
            (nzbids <- (if (1 <? List.length files)%nat then
                          data <- callNzbget environ nzbget listgroups ;;
                          lift (parse_nzbids (Py.splitlines data) [])
                        else ret []) ;;
             for_each (old_temp_files (environ !! "NZBPP_NZBID") files nzbids)
               (remove_temp (marker_dir t))) st
        | None => (Raise OSError, st)
        end
    | None => (Raise TypeError, st)
    end.
Proof.
  unfold cleanUp, getenv, marker_dir.
  destruct (environ !! "NZBOP_TEMPDIR") as [t|]; [|reflexivity].
  rewrite bind_ret_l. unfold bind at 1, os_listdir.
  destruct (fs_listdir (st_fs st) (t +:+ "/BannedFiles")); reflexivity.
Qed.

Lemma cleanUp_outcome (environ : gmap string string) (nzbget : host) (st : state) :
  exists o st',
    cleanUp environ nzbget st = (o, st') /\
    match o with
    | Ret _ => True
    | Exit _ => False
    | Raise _ => st_fs st' = st_fs st /\ st_out st' = st_out st
    end.
Proof.
  rewrite cleanUp_run.
  destruct (environ !! "NZBOP_TEMPDIR") as [t|];
    [|eexists _, _; split; [reflexivity|simpl; auto]].
  destruct (fs_listdir (st_fs st) (marker_dir t)) as [files|];
    [|eexists _, _; split; [reflexivity|simpl; auto]].
  destruct (1 <? List.length files)%nat.
  - rewrite bind_assoc.
    destruct (control_configured_or_missing environ) as [Hc|(k & Hk & Hin)].
    + pose proof (callNzbget_sent environ nzbget listgroups st Hc) as Ho.
      simpl in Ho. destruct (h_query nzbget listgroups) as [data|].
      2: { destruct Ho as [Ho|Ho]; erewrite bind_raise by exact Ho;
             eexists _, _; (split; [reflexivity|simpl; auto]). }
      * erewrite bind_ret by exact Ho.
        destruct (parse_nzbids (Py.splitlines data) []) as [ids|c|e] eqn:Ep.
        -- unfold bind at 1, lift.
           match goal with
           | |- context [for_each ?l ?f ?s] =>
               destruct (for_each_remove_returns (marker_dir t) l s) as [st' ->]
           end.
           eexists _, _. split; [reflexivity|exact I].
        -- destruct (parse_nzbids_no_exit _ _ _ Ep).
        -- unfold bind at 1, lift.
           eexists _, _. split; [reflexivity|simpl; auto].
    + destruct (callNzbget_missing environ nzbget listgroups st k Hk Hin)
        as (k' & _ & _ & Hraise).
      erewrite bind_raise by exact Hraise.
      eexists _, _. split; [reflexivity|simpl; auto].
  - rewrite bind_ret_l.
    match goal with
    | |- context [for_each ?l ?f ?s] =>
        destruct (for_each_remove_returns (marker_dir t) l s) as [st' ->]
    end.
    eexists _, _. split; [reflexivity|exact I].
Qed.

(** X20: [cleanUp] never leaves the process, and when it raises it has removed
    no marker and printed nothing: every failure comes before the
    removal loop, and the loop swallows its own. *)
Theorem cleanUp_fails_before_removing
    (environ : gmap string string) (nzbget : host) (st : state) :
  let r := cleanUp environ nzbget st in
  match r.1 with
  | Ret _ => True
  | Exit _ => False
  | Raise _ => st_fs r.2 = st_fs st /\ st_out r.2 = st_out st
  end.
Proof.
  intros r. unfold r.
  destruct (cleanUp_outcome environ nzbget st) as (o & st' & -> & H). exact H.
Qed.

(** ** Volume numbers of split-archive names *)

Lemma digit_lower_not_dot c :
  Py.is_digit c = true -> Ascii.eqb (Py.lower c) "." = false.
Proof.
  unfold Py.is_digit, Py.lower. intros H.
  apply andb_true_iff in H as [H1 H2]. apply N.leb_le in H1, H2.
  destruct ((65 <=? N_of_ascii c)%N) eqn:E; [apply N.leb_le in E; lia|]. simpl.
  apply Ascii.eqb_neq. intros ->. simpl in H1. lia.
Qed.

Lemma lower_dot_not_digit c :
  Ascii.eqb (Py.lower c) "." = true -> Py.is_digit c = false.
Proof.
  intros H. destruct (Py.is_digit c) eqn:E; [|reflexivity].
  rewrite (digit_lower_not_dot c E) in H. discriminate.
Qed.

Lemma literal_lower cs rest : Regex.literal (map Py.lower cs) (cs ++ rest) = Some rest.
Proof.
  induction cs as [|c cs IH]; simpl; [destruct rest; reflexivity|].
  rewrite Ascii.eqb_refl. exact IH.
Qed.

Lemma digits_app ds rest :
  Forall (fun c => Py.is_digit c = true) ds ->
  match rest with c :: _ => Py.is_digit c = false | [] => True end ->
  Regex.digits (ds ++ rest) = (ds, rest).
Proof.
  intros Hds Hrest. induction Hds as [|c ds Hc _ IH]; simpl.
  - destruct rest as [|c r]; [reflexivity|]. simpl. rewrite Hrest. reflexivity.
  - rewrite Hc, IH. reflexivity.
Qed.

Lemma part_rar_here_dot_led : dot_led Regex.part_rar_here.
Proof.
  split; [reflexivity|]. intros c r H. unfold Regex.part_rar_here. simpl.
  rewrite H. reflexivity.
Qed.

Lemma r_here_dot_led : dot_led Regex.r_here.
Proof.
  split; [reflexivity|]. intros c r H. unfold Regex.r_here. simpl.
  rewrite H. reflexivity.
Qed.

Lemma dotstar_cons_none here c r :
  Regex.dotstar here r = None -> Regex.dotstar here (c :: r) = here (c :: r).
Proof. intros H. simpl. rewrite H. destruct (Ascii.eqb c "010"); reflexivity. Qed.

Lemma dotstar_skip here l rest :
  dot_led here ->
  Forall (fun c => Ascii.eqb (Py.lower c) "." = false) l ->
  Regex.dotstar here rest = None ->
  Regex.dotstar here (l ++ rest) = None.
Proof.
  intros [_ Hled] Hl Hrest. induction Hl as [|c l Hc _ IH]; [exact Hrest|].
  change ((c :: l) ++ rest) with (c :: (l ++ rest)).
  rewrite (dotstar_cons_none _ _ _ IH). apply Hled. exact Hc.
Qed.

Lemma dotstar_nil here : dot_led here -> Regex.dotstar here [] = None.
Proof. intros [H _]. exact H. Qed.

Lemma dotstar_pre here pre suf g :
  Forall (fun c => Ascii.eqb c "010" = false) pre ->
  Regex.dotstar here suf = Some g ->
  Regex.dotstar here (pre ++ suf) = Some g.
Proof.
  intros Hpre Hsuf. induction Hpre as [|c pre Hc _ IH]; [exact Hsuf|].
  simpl. rewrite Hc, IH. reflexivity.
Qed.

Lemma lower_str_chars p lit :
  Py.lower_str p = lit -> map Py.lower (Py.chars p) = Py.chars lit.
Proof.
  intros H. apply (f_equal Py.chars) in H. unfold Py.lower_str in H.
  rewrite chars_text in H. exact H.
Qed.

Lemma digits_lower_not_dot ds :
  Forall (fun c => Py.is_digit c = true) ds ->
  Forall (fun c => Ascii.eqb (Py.lower c) "." = false) ds.
Proof.
  intros H. eapply List.Forall_impl; [|exact H]. apply digit_lower_not_dot.
Qed.

Lemma dotstar_part_rar (P D R : list ascii) :
  map Py.lower P = Py.chars ".part" ->
  map Py.lower R = Py.chars ".rar" ->
  D <> [] -> Forall (fun c => Py.is_digit c = true) D ->
  Regex.dotstar Regex.part_rar_here (P ++ D ++ R) = Some D.
Proof.
  intros HP HR Hne HD.
  destruct P as [|p0 [|p1 [|p2 [|p3 [|p4 [|]]]]]]; try discriminate.
  injection HP as H0 H1 H2 H3 H4.
  destruct R as [|r0 [|r1 [|r2 [|r3 [|]]]]] eqn:ER; try discriminate.
  injection HR as G0 G1 G2 G3. rewrite <- ER.
  assert (Hlit : map Py.lower R = Py.chars ".rar").
  { rewrite ER. simpl. rewrite G0, G1, G2, G3. reflexivity. }
  assert (Htail : Regex.dotstar Regex.part_rar_here R = None).
  { rewrite ER.
    rewrite (dotstar_cons_none _ r0 [r1; r2; r3]).
    - unfold Regex.part_rar_here. simpl. rewrite G0, G1. reflexivity.
    - apply (dotstar_skip _ [r1; r2; r3] [] part_rar_here_dot_led);
        [|reflexivity].
      repeat constructor; [rewrite G1|rewrite G2|rewrite G3]; reflexivity. }
  assert (Hrest : Regex.dotstar Regex.part_rar_here ([p1; p2; p3; p4] ++ D ++ R) = None).
  { apply (dotstar_skip _ _ _ part_rar_here_dot_led).
    - repeat constructor; [rewrite H1|rewrite H2|rewrite H3|rewrite H4]; reflexivity.
    - apply (dotstar_skip _ _ _ part_rar_here_dot_led);
        [apply digits_lower_not_dot; assumption|exact Htail]. }
  change ([p0; p1; p2; p3; p4] ++ D ++ R) with (p0 :: [p1; p2; p3; p4] ++ D ++ R).
  rewrite (dotstar_cons_none _ _ _ Hrest).
  unfold Regex.part_rar_here.
  change (p0 :: [p1; p2; p3; p4] ++ D ++ R) with ([p0; p1; p2; p3; p4] ++ D ++ R).
  assert (HP : Py.chars ".part" = map Py.lower [p0; p1; p2; p3; p4]).
  { simpl. rewrite H0, H1, H2, H3, H4. reflexivity. }
  rewrite HP, literal_lower, digits_app.
  - assert (Hl : Regex.literal (Py.chars ".rar") R = Some []).
    { rewrite <- Hlit. rewrite <- (app_nil_r R) at 2. apply literal_lower. }
    rewrite Hl. destruct D; [contradiction|reflexivity].
  - assumption.
  - rewrite ER. apply lower_dot_not_digit. rewrite G0. reflexivity.
Qed.

Lemma dotstar_r (P D : list ascii) :
  map Py.lower P = Py.chars ".r" ->
  D <> [] -> Forall (fun c => Py.is_digit c = true) D ->
  Regex.dotstar Regex.r_here (P ++ D) = Some D.
Proof.
  intros HP Hne HD.
  destruct P as [|p0 [|p1 [|]]]; try discriminate.
  injection HP as H0 H1.
  assert (Hrest : Regex.dotstar Regex.r_here ([p1] ++ D ++ []) = None).
  { apply (dotstar_skip _ _ _ r_here_dot_led).
    - repeat constructor. rewrite H1. reflexivity.
    - apply (dotstar_skip _ _ _ r_here_dot_led);
        [apply digits_lower_not_dot; assumption|reflexivity]. }
  rewrite app_nil_r in Hrest.
  change ([p0; p1] ++ D) with (p0 :: [p1] ++ D).
  rewrite (dotstar_cons_none _ _ _ Hrest).
  unfold Regex.r_here.
  change (p0 :: [p1] ++ D) with ([p0; p1] ++ D).
  assert (HP : Py.chars ".r" = map Py.lower [p0; p1]).
  { simpl. rewrite H0, H1. reflexivity. }
  rewrite HP, literal_lower. rewrite <- (app_nil_r D) at 1.
  rewrite digits_app by (auto; exact I).
  destruct D; [contradiction|reflexivity].
Qed.

Lemma digit_string_chars ds :
  digit_string ds ->
  Py.chars ds <> [] /\ Forall (fun c => Py.is_digit c = true) (Py.chars ds).
Proof.
  intros [Hne Hall]. split; [|assumption]. intros H. apply Hne.
  rewrite <- (text_chars ds), H. reflexivity.
Qed.

(** X21: the volume number of a split-archive name is the number written in
    it: for a name that ends in .part, digits and .rar, in any mix of
    upper and lower case, and for a name that ends in .r and digits,
    unless the first pattern finds a volume in it. *)
Theorem volume_number_reads_the_digits (base ds : string) :
  one_line base -> digit_string ds ->
  (forall p r, Py.lower_str p = ".part" -> Py.lower_str r = ".rar" ->
     volume_number (base +:+ p +:+ ds +:+ r) = Py.int ds) /\
  (forall p, Py.lower_str p = ".r" ->
     Regex.regex1 (base +:+ p +:+ ds) = None ->
     volume_number (base +:+ p +:+ ds) = Py.int ds).
Proof.
  intros Hbase Hds. apply digit_string_chars in Hds as [Hne Hall]. split.
  - intros p r Hp Hr. apply lower_str_chars in Hp, Hr.
    unfold volume_number, Regex.volume_digits, Regex.regex1.
    rewrite !chars_app.
    rewrite (dotstar_pre _ _ _ _ Hbase (dotstar_part_rar _ _ _ Hp Hr Hne Hall)).
    simpl. rewrite text_chars. reflexivity.
  - intros p Hp H1. apply lower_str_chars in Hp.
    unfold volume_number, Regex.volume_digits. rewrite H1.
    unfold Regex.regex2. rewrite !chars_app.
    rewrite (dotstar_pre _ _ _ _ Hbase (dotstar_r _ _ Hp Hne Hall)).
    simpl. rewrite text_chars. reflexivity.
Qed.

Lemma volume_number_reads_the_digits_witness :
  (forall p r, Py.lower_str p = ".part" -> Py.lower_str r = ".rar" ->
     volume_number ("movie" +:+ p +:+ "007" +:+ r) = Py.int "007") /\
  (forall p, Py.lower_str p = ".r" ->
     Regex.regex1 ("movie" +:+ p +:+ "007") = None ->
     volume_number ("movie" +:+ p +:+ "007") = Py.int "007").
Proof.
  apply (volume_number_reads_the_digits "movie" "007").
  - repeat constructor.
  - split; [discriminate|repeat constructor].
Defined.

(** ** Housekeeping runs only where it is called *)

Lemma no_sweep_out (line : string) : line ∉ directives -> b_out no_sweep line.
Proof. intros _. exact I. Qed.

Lemma no_sweep_exit (c : Z) : c ∈ [0; 1; 93; 95] -> b_exit no_sweep c.
Proof. intros _. exact I. Qed.

Lemma no_sweep_same_fs {A} st (r : outcome A * state) :
  within no_sweep st r -> st_fs r.2 = st_fs st.
Proof.
  intros (Ho & Hd & _). destruct (st_fs r.2) as [d1 o1], (st_fs st) as [d2 o2].
  simpl in *. f_equal; [|assumption]. apply map_eq. intros k. apply Hd. tauto.
Qed.

(** A queue call scans without housekeeping. *)
Lemma keeps_scan_block_queue environ nzbget pre dir name :
  String.eqb pre "NZBPP_" = false ->
  keeps no_sweep (scan_block environ nzbget pre dir name).
Proof.
  intros Hpre. unfold scan_block. rewrite Hpre.
  bound no_sweep_out no_sweep_exit
    ltac:(first [ apply keeps_detectBannedFile; exact no_sweep_out
                | apply keeps_print; exact I ]).
Qed.

(** Without an early exit [startCheck] returns, or leaves through one of
    its first two checks, and has then removed and asked nothing. *)
Lemma startCheck_quiet environ nzbget st :
  ~ early_exit environ (st_fs st) ->
  within no_sweep st (startCheck environ nzbget st).
Proof.
  intros Hearly.
  assert (Hstop : forall (m : M unit) (k : unit -> M unit) st0,
            keeps no_sweep m -> no_ret m -> within no_sweep st0 (bind m k st0)).
  { intros m k st0 Hm Hn. apply (keeps_bind_dead no_sweep m k Hm Hn). }
  destruct (negb (in_environ environ "NZBNA_EVENT"
                  || in_environ environ "NZBPP_DIRECTORY")
            || negb (in_environ environ "NZBOP_ARTICLECACHE")) eqn:E1.
  { unfold startCheck. rewrite E1. apply Hstop.
    - bound no_sweep_out no_sweep_exit ltac:(apply keeps_print; exact I).
    - do 2 (apply no_ret_bind_r; intros _). apply no_ret_exit. }
  destruct (known_event (getenv environ "NZBNA_EVENT")) eqn:E2.
  - rewrite (startCheck_pass environ nzbget st); [apply within_refl; discriminate|unfold gate_open; split|assumption].
    + apply orb_false_iff in E1 as [E1 _]. apply negb_false_iff, orb_true_iff in E1.
      destruct E1 as [E1|E1]; [left|right];
        apply bool_decide_eq_true_1 in E1; exact E1.
    + split; [|exact E2]. apply orb_false_iff in E1 as [_ E1].
      apply negb_false_iff in E1. apply bool_decide_eq_true_1 in E1. exact E1.
  - unfold startCheck. rewrite E1, E2. rewrite bind_ret_l. apply Hstop.
    + bound no_sweep_out no_sweep_exit ltac:(fail).
    + apply no_ret_exit.
Qed.

(** X22: housekeeping runs only where the script calls it.  Unless an
    early exit of the gatekeeper applies or the call is a post-processing
    call, a run of the script leaves the whole file system as it was and
    never asks the host for the queue. *)
Theorem housekeeping_only_when_reached
    (environ : gmap string string) (nzbget : host) (st : state) :
  ~ reaches_cleanUp environ (st_fs st) ->
  st_fs (script environ nzbget st).2 = st_fs st /\
  Queried listgroups ∉ new_rpc st (script environ nzbget st).2.
Proof.
  intros Hno.
  assert (Hearly : ~ early_exit environ (st_fs st)).
  { intros H. apply Hno. left. exact H. }
  assert (Hev : in_environ environ "NZBNA_EVENT" = true).
  { destruct (environ !! "NZBNA_EVENT") as [e|] eqn:E.
    - apply (in_environ_true _ _ e E).
    - destruct Hno. right. exact E. }
  assert (Htail : keeps no_sweep
            (Directory <- environ_item environ (Prefix environ +:+ "DIRECTORY") ;;
             NzbName <- environ_item environ (Prefix environ +:+ "NZBNAME") ;;
             reorder_block environ nzbget NzbName ;;
             scan_block environ nzbget (Prefix environ) Directory NzbName)).
  { rewrite (prefix_queue environ Hev).
    bound no_sweep_out no_sweep_exit
      ltac:(first [ apply keeps_scan_block_queue; reflexivity
                  | apply keeps_reorder_block;
                    [exact no_sweep_out|exact no_sweep_exit
                    |intros _; simpl; split; [discriminate|];
                     split; [discriminate|exact I]] ]). }
  assert (Hw : within no_sweep st (script environ nzbget st)).
  { unfold script, main. rewrite bind_assoc.
    pose proof (startCheck_quiet environ nzbget st Hearly) as Hs.
    unfold bind at 1.
    destruct (startCheck environ nzbget st) as [[[]|c|e] st1] eqn:Es;
      [|exact Hs|exact Hs].
    pose proof (keeps_bind no_sweep _ (fun _ : unit => @sys_exit unit POSTPROCESS_SUCCESS)
                  Htail (fun _ => keeps_exit no_sweep POSTPROCESS_SUCCESS I) st1)
      as Hk.
    match goal with
    | |- within _ _ ?r => destruct r as [o st2] eqn:Er
    end.
    eapply within_trans; [exact Hs|exact Hk]. }
  split; [exact (no_sweep_same_fs _ _ Hw)|].
  destruct Hw as (_ & _ & (new & Hnew & Hall) & _).
  unfold new_rpc. rewrite Hnew, drop_app_length. intros Hin.
  rewrite Forall_forall in Hall. exact (Hall _ Hin eq_refl).
Qed.

Lemma housekeeping_only_when_reached_witness :
  let st := state_of [("/d", download_dir); ("/tmp/BannedFiles", [plain "4"; plain "5"])] in
  st_fs (script file_downloaded_env (files_host three_volumes) st).2 = st_fs st /\
  Queried listgroups
    ∉ new_rpc st (script file_downloaded_env (files_host three_volumes) st).2.
Proof.
  intros st.
  apply (housekeeping_only_when_reached file_downloaded_env (files_host three_volumes) st).
  intros [[H|[(d & Hd & He)|H]]|H].
  - vm_compute in H. discriminate.
  - vm_compute in Hd. discriminate.
  - vm_compute in H. discriminate.
  - vm_compute in H. discriminate.
Defined.

(** ** Standard output, line by line *)

Lemma one_line_split (s : string) : one_line s -> Py.split "010" s = [s].
Proof.
  intros H. unfold Py.split. rewrite <- (app_nil_r (Py.chars s)).
  rewrite (split_go_word _ _ [] [] H). simpl.
  rewrite app_nil_r, rev_involutive, text_chars. reflexivity.
Qed.

Lemma stdout_lines_one_line (out : list string) :
  Forall one_line out -> stdout_lines out = out.
Proof.
  induction 1 as [|s out Hs _ IH]; [reflexivity|].
  unfold stdout_lines. simpl. rewrite (one_line_split s Hs). simpl. f_equal. exact IH.
Qed.

Lemma stdout_lines_app (a b : list string) :
  stdout_lines (a ++ b) = stdout_lines a ++ stdout_lines b.
Proof. apply flat_map_app. Qed.

Lemma stdout_lines_elem (out : list string) (line : string) :
  one_line line -> line ∈ out -> line ∈ stdout_lines out.
Proof.
  intros Hl Hin. apply list_elem_of_In. apply in_flat_map. exists line.
  split; [apply list_elem_of_In; exact Hin|].
  rewrite (one_line_split line Hl). left. reflexivity.
Qed.

Lemma one_line_app (a b : string) : one_line a -> one_line b -> one_line (a +:+ b).
Proof. unfold one_line. intros Ha Hb. rewrite chars_app. apply Forall_app; auto. Qed.

Lemma one_line_lit (s : string) : no_line_feed s = true -> one_line s.
Proof.
  unfold no_line_feed, one_line. intros H. apply List.Forall_forall. intros c Hc.
  rewrite forallb_forall in H. apply negb_true_iff. apply H. exact Hc.
Qed.

Lemma one_line_slice (s : string) (a b : nat) : one_line s -> one_line (Py.slice s a b).
Proof.
  unfold one_line. intros H. rewrite chars_slice. apply Forall_take, Forall_drop.
  exact H.
Qed.

Lemma splitlines_go_one_line (cs : list ascii) : forall cur,
  Forall (fun c => Ascii.eqb c "010" = false) cur ->
  Forall one_line (Py.splitlines_go cur cs).
Proof.
  induction cs as [cs IH] using (induction_ltof1 _ (@List.length ascii)).
  unfold ltof in IH. intros cur Hcur.
  assert (Hline : one_line (Py.text (rev cur))).
  { unfold one_line. rewrite chars_text. apply List.Forall_rev. exact Hcur. }
  destruct cs as [|c r]; simpl.
  - destruct cur; [constructor|]. constructor; [exact Hline|constructor].
  - destruct (Py.is_linebreak c) eqn:Eb.
    + constructor; [exact Hline|].
      destruct r as [|c2 r2]; [constructor|].
      destruct (Ascii.eqb c "013" && Ascii.eqb c2 "010").
      * apply IH; [simpl; lia|constructor].
      * apply IH; [simpl; lia|constructor].
    + apply IH; [simpl; lia|]. constructor; [|exact Hcur].
      destruct (Ascii.eqb_spec c "010") as [->|_]; [discriminate Eb|reflexivity].
Qed.

Lemma splitlines_one_line (data : string) : Forall one_line (Py.splitlines data).
Proof. apply splitlines_go_one_line. constructor. Qed.

(** The file name the loop of [sort_inner_files] selects is cut out of
    one line of the listing. *)
Lemma consider_one_line name s s' :
  one_line name -> named_in_line s -> consider name s = Ret s' -> named_in_line s'.
Proof.
  unfold consider. intros Hn Hs H.
  destruct (Regex.volume_digits name); [|injection H as <-; exact Hs].
  destruct (Py.int s0); [|discriminate].
  destruct (better z (file_num s)); [|injection H as <-; exact Hs].
  destruct (cur_id s); [|discriminate]. injection H as <-.
  intros n [= <-]. exact Hn.
Qed.

Lemma scan_line_one_line line s s' :
  one_line line -> named_in_line s -> scan_line line s = Ret s' -> named_in_line s'.
Proof.
  unfold scan_line. intros Hl Hs H.
  destruct (Py.startswith line id_key).
  - destruct (Py.int _); [|discriminate].
    destruct (Py.startswith line filename_key).
    + eapply consider_one_line; [apply one_line_slice; exact Hl| |exact H]. exact Hs.
    + injection H as <-. exact Hs.
  - destruct (Py.startswith line filename_key).
    + eapply consider_one_line; [apply one_line_slice; exact Hl| |exact H]. exact Hs.
    + injection H as <-. exact Hs.
Qed.

Lemma scan_lines_one_line lines : forall s s',
  Forall one_line lines -> named_in_line s -> scan_lines lines s = Ret s' ->
  named_in_line s'.
Proof.
  induction lines as [|line rest IH]; intros s s' Hall Hs H; simpl in H.
  - injection H as <-. exact Hs.
  - inversion Hall as [|? ? Hl Hrest]; subst.
    destruct (scan_line line s) as [s1| |] eqn:E; try discriminate.
    eapply IH; [exact Hrest| |exact H].
    eapply scan_line_one_line; eassumption.
Qed.

Lemma one_line_names_remove fs dir name fs' :
  one_line_names fs -> fs_remove fs dir name = Some fs' -> one_line_names fs'.
Proof.
  unfold fs_remove. intros Hfs H.
  destruct (fs_dirs fs !! dir) as [es|] eqn:E; [|discriminate].
  destruct (find_entry name es) as [e|]; [|discriminate].
  destruct (removable e); [|discriminate].
  injection H as <-. intros d es'. simpl.
  destruct (decide (dir = d)) as [->|Hne].
  - rewrite lookup_insert_eq. intros [= <-]. unfold drop_entry.
    apply List.Forall_forall. intros x Hx. apply filter_In in Hx as [Hx _].
    specialize (Hfs _ _ E). rewrite List.Forall_forall in Hfs. auto.
  - rewrite lookup_insert_ne by assumption. apply Hfs.
Qed.

Lemma one_line_names_listdir fs dir names :
  one_line_names fs -> fs_listdir fs dir = Some names -> Forall one_line names.
Proof.
  unfold fs_listdir. intros Hfs H.
  destruct (fs_dirs fs !! dir) as [es|] eqn:E; [|discriminate].
  injection H as <-. specialize (Hfs _ _ E).
  apply Forall_fmap. exact Hfs.
Qed.

(** The rules of [line_wise] that hold for every invariant of the file
    system, and the reorder advisor, which prints no setting and no file
    name of the disk. *)
Section LineWise.

Variable pre : filesystem -> Prop.

Lemma line_wise_same {A} (Q : A -> Prop) (o : outcome A) :
  (forall a, o = Ret a -> Q a) -> line_wise pre Q (fun s => (o, s)).
Proof.
  intros HQ st Hpre. simpl. split; [exact Hpre|]. split; [|exact HQ].
  exists []. rewrite app_nil_r. auto.
Qed.

Lemma line_wise_ret {A} (Q : A -> Prop) (a : A) : Q a -> line_wise pre Q (ret a).
Proof. intros H. apply line_wise_same. intros a' [= <-]. exact H. Qed.

Lemma line_wise_raise {A} (Q : A -> Prop) e : line_wise pre Q (@raise A e).
Proof. apply line_wise_same. discriminate. Qed.

Lemma line_wise_exit {A} (Q : A -> Prop) c : line_wise pre Q (@sys_exit A c).
Proof. apply line_wise_same. discriminate. Qed.

Lemma line_wise_lift {A} (Q : A -> Prop) (o : outcome A) :
  (forall a, o = Ret a -> Q a) -> line_wise pre Q (lift o).
Proof. apply line_wise_same. Qed.

Lemma line_wise_weaken {A} (Q R : A -> Prop) (m : M A) :
  line_wise pre Q m -> (forall a, Q a -> R a) -> line_wise pre R m.
Proof.
  intros Hm HQR st Hpre. destruct (Hm st Hpre) as (H1 & H2 & H3).
  split; [exact H1|]. split; [exact H2|]. intros a Ha. apply HQR, H3, Ha.
Qed.

Lemma line_wise_get_fs : line_wise pre (fun _ => True) get_fs.
Proof.
  intros st Hpre. simpl. split; [exact Hpre|]. split; [|auto].
  exists []. rewrite app_nil_r. auto.
Qed.

Lemma line_wise_print line : one_line line -> line_wise pre (fun _ => True) (print line).
Proof.
  intros Hl st Hpre. simpl. split; [exact Hpre|]. split; [|auto].
  exists [line]. auto.
Qed.

Lemma line_wise_record_rpc r : line_wise pre (fun _ => True) (record_rpc r).
Proof.
  intros st Hpre. simpl. split; [exact Hpre|]. split; [|auto].
  exists []. rewrite app_nil_r. auto.
Qed.

Lemma line_wise_environ_item environ k :
  line_wise pre (fun v => environ !! k = Some v) (environ_item environ k).
Proof.
  unfold environ_item. destruct (environ !! k) as [v|].
  - apply line_wise_ret. reflexivity.
  - apply line_wise_raise.
Qed.

Lemma line_wise_bind {A B} (Q : A -> Prop) (R : B -> Prop) (m : M A) (k : A -> M B) :
  line_wise pre Q m -> (forall a, Q a -> line_wise pre R (k a)) ->
  line_wise pre R (bind m k).
Proof.
  intros Hm Hk st Hpre. unfold bind. destruct (Hm st Hpre) as (H1 & (n1 & O1 & L1) & H3).
  destruct (m st) as [[a|c|e] st1]; simpl in *.
  - destruct (Hk a (H3 a eq_refl) st1 H1) as (K1 & (n2 & O2 & L2) & K3).
    split; [exact K1|]. split; [|exact K3].
    exists (n1 ++ n2). rewrite O2, O1, app_assoc. split; [reflexivity|].
    apply Forall_app; auto.
  - split; [exact H1|]. split; [eauto|discriminate].
  - split; [exact H1|]. split; [eauto|discriminate].
Qed.

Lemma line_wise_try_except body handler :
  line_wise pre (fun _ => True) body -> line_wise pre (fun _ => True) handler ->
  line_wise pre (fun _ => True) (try_except body handler).
Proof.
  intros Hb Hh st Hpre. unfold try_except.
  destruct (Hb st Hpre) as (H1 & (n1 & O1 & L1) & _).
  destruct (body st) as [[a|c|e] st1]; simpl in *.
  - split; [exact H1|]. split; [eauto|auto].
  - destruct (Hh st1 H1) as (K1 & (n2 & O2 & L2) & _).
    split; [exact K1|]. split; [|auto].
    exists (n1 ++ n2). rewrite O2, O1, app_assoc. split; [reflexivity|].
    apply Forall_app; auto.
  - destruct (Hh st1 H1) as (K1 & (n2 & O2 & L2) & _).
    split; [exact K1|]. split; [|auto].
    exists (n1 ++ n2). rewrite O2, O1, app_assoc. split; [reflexivity|].
    apply Forall_app; auto.
Qed.

Lemma line_wise_for_each {A} (l : list A) (body : A -> M unit) :
  (forall x, x ∈ l -> line_wise pre (fun _ => True) (body x)) ->
  line_wise pre (fun _ => True) (for_each l body).
Proof.
  induction l as [|x l IH]; intros Hb; simpl.
  - apply line_wise_ret. exact I.
  - eapply line_wise_bind; [apply Hb; left|].
    intros _ _. apply IH. intros y Hy. apply Hb. right. exact Hy.
Qed.

Variable environ : gmap string string.
Variable nzbget : host.

Lemma line_wise_callNzbget q :
  line_wise pre (fun _ => True) (callNzbget environ nzbget q).
Proof.
  unfold callNzbget.
  eapply line_wise_bind; [apply line_wise_environ_item|]. intros ip _.
  eapply line_wise_bind; [apply line_wise_environ_item|]. intros port _.
  eapply line_wise_bind; [apply line_wise_environ_item|]. intros _ _.
  eapply line_wise_bind; [apply line_wise_environ_item|]. intros _ _.
  destruct (h_query nzbget q).
  - eapply line_wise_bind; [apply line_wise_record_rpc|]. intros _ _.
    apply line_wise_ret. exact I.
  - destruct (h_url_refused _ _); [apply line_wise_raise|].
    eapply line_wise_bind; [apply line_wise_record_rpc|]. intros _ _.
    apply line_wise_raise.
Qed.

Lemma line_wise_connectNzbget :
  line_wise pre (fun _ => True) (connectNzbget environ nzbget).
Proof.
  unfold connectNzbget.
  eapply line_wise_bind; [apply line_wise_environ_item|]. intros ip _.
  eapply line_wise_bind; [apply line_wise_environ_item|]. intros port _.
  eapply line_wise_bind; [apply line_wise_environ_item|]. intros username _.
  eapply line_wise_bind; [apply line_wise_environ_item|]. intros password _.
  destruct (h_proxy_refused _ _); [apply line_wise_raise|apply line_wise_ret; exact I].
Qed.

Lemma line_wise_sort_inner_files :
  line_wise pre (fun _ => True) (sort_inner_files environ nzbget).
Proof.
  unfold sort_inner_files.
  eapply line_wise_bind with (Q := fun _ => True).
  { destruct (getenv environ "NZBNA_NZBID"); [|apply line_wise_raise].
    destruct (Py.int s); [apply line_wise_ret; exact I|apply line_wise_raise]. }
  intros nzb_id _.
  eapply line_wise_bind; [apply line_wise_callNzbget|]. intros data _.
  eapply line_wise_bind with (Q := named_in_line).
  { apply line_wise_lift. intros sel Hsel.
    eapply scan_lines_one_line; [apply splitlines_one_line| |exact Hsel].
    intros n Hn. discriminate Hn. }
  intros sel Hsel.
  destruct (truthy (file_id sel)).
  - eapply line_wise_bind.
    { apply line_wise_print. apply one_line_app; [apply one_line_lit; reflexivity|].
      destruct (file_name sel) as [n|] eqn:En; simpl.
      - apply Hsel. exact En.
      - apply one_line_lit. reflexivity. }
    intros _ _.
    eapply line_wise_bind; [apply line_wise_connectNzbget|]. intros _ _.
    unfold editqueue_FileMoveTop.
    eapply line_wise_bind; [apply line_wise_record_rpc|]. intros _ _.
    destruct (h_editqueue nzbget _); [apply line_wise_ret; exact I|apply line_wise_raise].
  - apply line_wise_print. apply one_line_lit. reflexivity.
Qed.

Lemma line_wise_reorder_block name :
  one_line name ->
  line_wise pre (fun _ => True) (reorder_block environ nzbget name).
Proof.
  intros Hname. unfold reorder_block.
  destruct (reorder_trigger environ); [|apply line_wise_ret; exact I].
  eapply line_wise_bind.
  { apply line_wise_print. apply one_line_app; [apply one_line_lit; reflexivity|].
    exact Hname. }
  intros _ _.
  eapply line_wise_bind; [apply line_wise_sort_inner_files|]. intros _ _.
  eapply line_wise_bind; [apply line_wise_print; apply one_line_lit; reflexivity|].
  intros _ _.
  destruct (getenv_is environ "NZBNA_EVENT" "NZB_ADDED");
    [apply line_wise_exit|apply line_wise_ret; exact I].
Qed.

End LineWise.

(** The rules for the file system, and the rest of the script, which
    prints settings and the names it finds on the disk. *)
Section LineWiseFiles.

Variable pre : filesystem -> Prop.
Hypothesis pre_remove :
  forall fs dir name fs', pre fs -> fs_remove fs dir name = Some fs' -> pre fs'.
Hypothesis pre_listdir :
  forall fs dir names, pre fs -> fs_listdir fs dir = Some names -> Forall one_line names.
Variable environ : gmap string string.
Variable nzbget : host.
Hypothesis Henv : one_line_settings environ.

Lemma line_wise_os_listdir dir : line_wise pre (Forall one_line) (os_listdir dir).
Proof.
  intros st Hpre. unfold os_listdir.
  destruct (fs_listdir (st_fs st) dir) as [names|] eqn:E; simpl.
  - split; [exact Hpre|]. split; [exists []; rewrite app_nil_r; auto|].
    intros a [= <-]. eapply pre_listdir; eassumption.
  - split; [exact Hpre|]. split; [exists []; rewrite app_nil_r; auto|]. discriminate.
Qed.

Lemma line_wise_os_remove dir name : line_wise pre (fun _ => True) (os_remove dir name).
Proof.
  intros st Hpre. unfold os_remove.
  destruct (fs_remove (st_fs st) dir name) as [fs'|] eqn:E; simpl.
  - split; [eapply pre_remove; eassumption|].
    split; [exists []; rewrite app_nil_r; auto|auto].
  - split; [exact Hpre|]. split; [exists []; rewrite app_nil_r; auto|auto].
Qed.


Lemma printed_setting k v :
  k ∈ printed_settings -> getenv environ k = Some v -> one_line v.
Proof. intros Hk Hv. exact (Henv k v Hk Hv). Qed.

Lemma line_wise_remove_temp folder id :
  one_line folder -> one_line id ->
  line_wise pre (fun _ => True) (remove_temp folder id).
Proof.
  intros Hf Hi. unfold remove_temp. cbv zeta.
  assert (Hfile : one_line (folder +:+ "/" +:+ id)).
  { apply one_line_app; [exact Hf|].
    apply one_line_app; [apply one_line_lit; reflexivity|exact Hi]. }
  apply line_wise_try_except.
  - eapply line_wise_bind.
    { apply line_wise_print. apply one_line_app; [apply one_line_lit; reflexivity|].
      exact Hfile. }
    intros _ _. apply line_wise_os_remove.
  - apply line_wise_print. apply one_line_app; [apply one_line_lit; reflexivity|].
    exact Hfile.
Qed.

Lemma line_wise_cleanUp : line_wise pre (fun _ => True) (cleanUp environ nzbget).
Proof.
  unfold cleanUp. cbv zeta.
  eapply line_wise_bind with (Q := one_line).
  { destruct (getenv environ "NZBOP_TEMPDIR") as [t|] eqn:Et; [|apply line_wise_raise].
    apply line_wise_ret. apply one_line_app; [|apply one_line_lit; reflexivity].
    apply (printed_setting "NZBOP_TEMPDIR"); [|exact Et].
    unfold printed_settings. rewrite !elem_of_cons. tauto. }
  intros folder Hfolder.
  eapply line_wise_bind; [apply line_wise_os_listdir|]. intros files Hfiles.
  eapply line_wise_bind with (Q := fun _ => True).
  { destruct (1 <? List.length files)%nat; [|apply line_wise_ret; exact I].
    eapply line_wise_bind; [apply line_wise_callNzbget|]. intros data _.
    apply line_wise_lift. auto. }
  intros nzbids _.
  apply line_wise_for_each. intros id Hid.
  apply line_wise_remove_temp; [exact Hfolder|].
  apply elem_of_old_temp_files in Hid as [Hid _].
  rewrite Forall_forall in Hfiles. apply Hfiles. exact Hid.
Qed.

Lemma line_wise_startCheck : line_wise pre (fun _ => True) (startCheck environ nzbget).
Proof.
  unfold startCheck.
  eapply line_wise_bind with (Q := fun _ => True).
  { destruct (negb _ || negb _); [|apply line_wise_ret; exact I].
    eapply line_wise_bind; [apply line_wise_print; apply one_line_lit; reflexivity|].
    intros _ _.
    eapply line_wise_bind; [apply line_wise_print; apply one_line_lit; reflexivity|].
    intros _ _. apply line_wise_exit. }
  intros _ _.
  eapply line_wise_bind with (Q := fun _ => True).
  { destruct (negb _); [apply line_wise_exit|apply line_wise_ret; exact I]. }
  intros _ _.
  eapply line_wise_bind with (Q := fun _ => True).
  { destruct (getenv_is environ "NZBPP_STATUS" "FAILURE/BAD");
      [|apply line_wise_ret; exact I].
    eapply line_wise_bind with (Q := fun _ => True).
    { destruct (getenv_is environ "NZBPR_PPSTATUS_BANNED" "yes");
        [|apply line_wise_ret; exact I].
      destruct (getenv environ "NZBPR_PPSTATUS_BANNEDFILE") as [f|] eqn:Ef;
        [|apply line_wise_raise].
      apply line_wise_print. apply one_line_app; [apply one_line_lit; reflexivity|].
      apply (printed_setting "NZBPR_PPSTATUS_BANNEDFILE"); [|exact Ef].
      unfold printed_settings. rewrite !elem_of_cons. tauto. }
    intros _ _.
    eapply line_wise_bind; [apply line_wise_cleanUp|]. intros _ _.
    apply line_wise_exit. }
  intros _ _.
  eapply line_wise_bind with (Q := fun _ => True).
  { destruct (getenv environ "NZBPP_DIRECTORY") as [directory|];
      [|apply line_wise_ret; exact I].
    eapply line_wise_bind; [apply line_wise_get_fs|]. intros fs _.
    destruct (negb (fs_exists fs directory)); [|apply line_wise_ret; exact I].
    eapply line_wise_bind; [apply line_wise_print; apply one_line_lit; reflexivity|].
    intros _ _.
    eapply line_wise_bind; [apply line_wise_cleanUp|]. intros _ _.
    apply line_wise_exit. }
  intros _ _.
  destruct (getenv_is environ "NZBPP_TOTALSTATUS" "FAILURE");
    [|apply line_wise_ret; exact I].
  eapply line_wise_bind; [apply line_wise_cleanUp|]. intros _ _.
  apply line_wise_exit.
Qed.

Lemma line_wise_detect_loop l :
  Forall one_line l -> line_wise pre (fun _ => True) (detect_loop environ l).
Proof.
  induction 1 as [|item l Hitem _ IH]; simpl.
  - apply line_wise_ret. exact I.
  - destruct (bool_decide _); [|exact IH].
    eapply line_wise_bind.
    { apply line_wise_print. apply one_line_app; [apply one_line_lit; reflexivity|].
      exact Hitem. }
    intros _ _.
    eapply line_wise_bind.
    { apply line_wise_print. apply one_line_app; [apply one_line_lit; reflexivity|].
      exact Hitem. }
    intros _ _. apply line_wise_ret. exact I.
Qed.

Lemma line_wise_detectBannedFile dir :
  line_wise pre (fun _ => True) (detectBannedFile environ dir).
Proof.
  unfold detectBannedFile.
  eapply line_wise_bind; [apply line_wise_os_listdir|]. intros names Hnames.
  eapply line_wise_bind; [apply line_wise_get_fs|]. intros fs _. cbv zeta.
  apply line_wise_detect_loop.
  apply List.Forall_forall. intros x Hx. apply filter_In in Hx as [Hx _].
  rewrite List.Forall_forall in Hnames. auto.
Qed.

Lemma line_wise_scan_block pre' dir name :
  one_line name ->
  line_wise pre (fun _ => True) (scan_block environ nzbget pre' dir name).
Proof.
  intros Hname. unfold scan_block.
  eapply line_wise_bind.
  { apply line_wise_print. apply one_line_app; [apply one_line_lit; reflexivity|].
    exact Hname. }
  intros _ _.
  eapply line_wise_bind; [apply line_wise_detectBannedFile|]. intros found _.
  eapply line_wise_bind with (Q := fun _ => True).
  { destruct (found_banned found).
    - eapply line_wise_bind; [apply line_wise_print; apply one_line_lit; reflexivity|].
      intros _ _. apply line_wise_print; apply one_line_lit; reflexivity.
    - eapply line_wise_bind.
      { apply line_wise_print. apply one_line_app; [apply one_line_lit; reflexivity|].
        apply one_line_app; [exact Hname|apply one_line_lit; reflexivity]. }
      intros _ _.
      destruct (getenv_is environ "NZBPR_PPSTATUS_BANNED" "yes");
        [|apply line_wise_ret; exact I].
      apply line_wise_print; apply one_line_lit; reflexivity. }
  intros _ _.
  eapply line_wise_bind.
  { apply line_wise_print. apply one_line_app; [apply one_line_lit; reflexivity|].
    exact Hname. }
  intros _ _.
  destruct (String.eqb pre' "NZBPP_"); [apply line_wise_cleanUp|].
  apply line_wise_ret. exact I.
Qed.

Lemma name_setting name :
  environ !! (Prefix environ +:+ "NZBNAME") = Some name -> one_line name.
Proof.
  unfold Prefix. intros H.
  destruct (in_environ environ "NZBNA_EVENT");
    [apply (Henv "NZBNA_NZBNAME")|apply (Henv "NZBPP_NZBNAME")]; try exact H;
    unfold printed_settings; rewrite !elem_of_cons; tauto.
Qed.

Lemma line_wise_main : line_wise pre (fun _ => True) (main environ nzbget).
Proof.
  unfold main.
  eapply line_wise_bind; [apply line_wise_startCheck|]. intros _ _.
  eapply line_wise_bind; [apply line_wise_environ_item|]. intros dir _.
  eapply line_wise_bind; [apply line_wise_environ_item|]. intros name Hname.
  apply name_setting in Hname.
  eapply line_wise_bind; [apply line_wise_reorder_block; exact Hname|]. intros _ _.
  apply line_wise_scan_block. exact Hname.
Qed.

Lemma line_wise_script : line_wise pre (fun _ => True) (script environ nzbget).
Proof.
  unfold script.
  eapply line_wise_bind; [apply line_wise_main|]. intros _ _. apply line_wise_exit.
Qed.

End LineWiseFiles.

(** With no line feed in the printed settings and in the file names, the
    lines on standard output are the arguments of the [print] calls. *)
Lemma script_prints_lines environ nzbget st :
  one_line_settings environ -> one_line_names (st_fs st) ->
  stdout_lines (new_output st (script environ nzbget st).2)
  = new_output st (script environ nzbget st).2.
Proof.
  intros Henv Hfs.
  destruct (line_wise_script one_line_names one_line_names_remove
              one_line_names_listdir environ nzbget Henv st Hfs)
    as (_ & (new & Hnew & Hall) & _).
  rewrite (new_output_app _ _ _ Hnew). apply stdout_lines_one_line. exact Hall.
Qed.

(** ** The sentinels on standard output *)

(** Deciding the two conditions on a concrete call. *)
Lemma one_line_settings_check (environ : gmap string string) :
  forallb (fun k => match environ !! k with
                    | Some v => no_line_feed v
                    | None => true
                    end) printed_settings = true ->
  one_line_settings environ.
Proof.
  intros H k v Hk Hv. rewrite forallb_forall in H.
  specialize (H k (proj1 (list_elem_of_In _ _) Hk)). rewrite Hv in H.
  apply one_line_lit. exact H.
Qed.

Lemma one_line_names_check (dirs : list (string * list dirent)) :
  forallb (fun d => forallb (fun e => no_line_feed (d_name e)) d.2) dirs = true ->
  one_line_names (st_fs (state_of dirs)).
Proof.
  intros H dir es Hes. simpl in Hes. apply elem_of_list_to_map_2 in Hes.
  rewrite forallb_forall in H.
  specialize (H (dir, es) (proj1 (list_elem_of_In _ _) Hes)). simpl in H.
  rewrite forallb_forall in H. apply List.Forall_forall. intros e He.
  apply one_line_lit. apply H. exact He.
Qed.

(** C7, as the code has it: when [main] reaches the scan and
    [detectBannedFile] finds no banned file, and neither a printed
    setting nor a file name holds a line feed, the sentinel that clears
    the persisted verdict is a line of standard output if and only if
    NZBPR_PPSTATUS_BANNED is 'yes'. *)
Theorem clear_sentinel_iff_previously_banned
    (environ : gmap string string) (nzbget : host) (st st1 st2 st3 : state)
    (dir name : string) :
  one_line_settings environ ->
  one_line_names (st_fs st) ->
  startCheck environ nzbget st = (Ret tt, st1) ->
  environ !! (Prefix environ +:+ "DIRECTORY") = Some dir ->
  environ !! (Prefix environ +:+ "NZBNAME") = Some name ->
  reorder_block environ nzbget name st1 = (Ret tt, st2) ->
  detectBannedFile environ dir
    (print ("[INFO] Detecting banned files in " +:+ name) st2).2 = (Ret None, st3) ->
  (clear_sentinel ∈ stdout_lines (new_output st (script environ nzbget st).2) <->
   environ !! "NZBPR_PPSTATUS_BANNED" = Some "yes").
Proof.
  intros Henv Hfs Hstart Hdir Hname Hreorder Hscan.
  rewrite (script_prints_lines environ nzbget st Henv Hfs).
  exact (clear_printed_iff_previously_banned environ nzbget st st1 st2 st3 dir name
           Hstart Hdir Hname Hreorder Hscan).
Qed.

Lemma clear_sentinel_iff_previously_banned_witness :
  let st := state_of [("/d", download_dir); ("/tmp/BannedFiles", [])] in
  clear_sentinel ∈ stdout_lines (new_output st (script redo_env dead_host st).2) <->
  redo_env !! "NZBPR_PPSTATUS_BANNED" = Some "yes".
Proof.
  intros st.
  eapply (clear_sentinel_iff_previously_banned redo_env dead_host st _ _ _
            "/d" "n").
  - apply one_line_settings_check. vm_compute. reflexivity.
  - apply one_line_names_check. vm_compute. reflexivity.
  - vm_compute. reflexivity.
  - reflexivity.
  - reflexivity.
  - vm_compute. reflexivity.
  - vm_compute. reflexivity.
Defined.

(** C7, as stated, fails: the name of the download is printed as it is
    (lines 245, 265 and 267).  When it goes on, after a line feed, with
    the text of the clearing sentinel, the scan is reached and finds
    nothing, no verdict is persisted, and the sentinel is a line of
    standard output. *)
Lemma forged_name_clears_the_verdict :
  let st := state_of [("/d", download_dir); ("/tmp/BannedFiles", [])] in
  forged_env !! "NZBPR_PPSTATUS_BANNED" = None /\
  startCheck forged_env dead_host st = (Ret tt, st) /\
  reorder_block forged_env dead_host forged_name st = (Ret tt, st) /\
  (detectBannedFile forged_env "/d"
     (print ("[INFO] Detecting banned files in " +:+ forged_name) st).2).1 = Ret None /\
  stdout_lines (new_output st (script forged_env dead_host st).2)
  = ["[INFO] Detecting banned files in n";
     "[NZB] NZBPR_PPSTATUS_BANNED=";
     "[INFO] No Banned files detected in n";
     "[NZB] NZBPR_PPSTATUS_BANNED= yet";
     "[DETAIL] Detecting banned files completed for n";
     "[NZB] NZBPR_PPSTATUS_BANNED="] /\
  clear_sentinel ∈ stdout_lines (new_output st (script forged_env dead_host st).2).
Proof.
  intros st. repeat split; try (vm_compute; reflexivity).
  apply list_elem_of_In. vm_compute. tauto.
Qed.

Lemma sorted_sentinel_one_line : one_line sorted_sentinel.
Proof. apply one_line_lit. reflexivity. Qed.

(** C9, as the code has it: when [main] reaches the reorder trigger with
    the trigger on, the sentinel NZBPR_BANNEDFILES_SORTED=yes is a line
    of standard output if and only if [sort_inner_files] returns,
    whatever the listing held and whether or not a reorder command was
    sent. *)
Theorem sorted_flag_follows_every_reorder
    (environ : gmap string string) (nzbget : host) (st st1 : state)
    (dir name : string) :
  startCheck environ nzbget st = (Ret tt, st1) ->
  environ !! "NZBNA_DIRECTORY" = Some dir ->
  environ !! "NZBNA_NZBNAME" = Some name ->
  reorder_trigger environ = true ->
  one_line name ->
  (sorted_sentinel ∈ stdout_lines (new_output st (script environ nzbget st).2) <->
   exists st2,
     sort_inner_files environ nzbget
       (print ("[INFO] Sorting inner files for earlier file detection in " +:+ name)
          st1).2 = (Ret tt, st2)).
Proof.
  intros Hstart Hdir Hname Htrig Hline.
  set (line := "[INFO] Sorting inner files for earlier file detection in " +:+ name).
  split.
  - intros Hin.
    destruct (sort_inner_files environ nzbget (print line st1).2)
      as [[[]|c|e] st2] eqn:Esort; [exists st2; reflexivity|exfalso ..].
    all: pose proof (prefix_queue environ (reorder_trigger_event environ Htrig)) as Hp.
    all: apply startCheck_ret_inv in Hstart as Hinv; destruct Hinv as (-> & _ & _).
    all: assert (Hrun : (script environ nzbget st).2 = st2)
      by (rewrite script_state,
            (main_run environ nzbget st st dir name Hstart)
            by (rewrite Hp; assumption);
          rewrite bind_state_stop;
          unfold reorder_block; rewrite Htrig, bind_print;
          fold line; unfold bind at 1; simpl in Esort |- *; rewrite Esort;
          [reflexivity|discriminate]).
    all: rewrite Hrun in Hin.
    all: set (B := Bounds (fun _ => True) (fun _ => True)
                     (fun l => l <> sorted_sentinel) (fun _ => True)).
    all: assert (Hk : keeps B (sort_inner_files environ nzbget))
      by (apply keeps_sort_inner_files; simpl; auto;
          intros l Hl ->; apply Hl; unfold directives; rewrite !elem_of_cons; tauto).
    all: specialize (Hk (print line st).2); rewrite Esort in Hk;
      destruct Hk as (_ & _ & _ & (n2 & Hn2 & Hall2) & _); simpl in Hn2.
    all: destruct (line_wise_sort_inner_files (fun _ => True) environ nzbget
                     (print line st).2 I) as (_ & (n2' & Hn2' & Hone) & _);
      rewrite Esort in Hn2'; simpl in Hn2'.
    all: assert (n2' = n2) by (rewrite Hn2 in Hn2'; apply app_inv_head in Hn2';
                               symmetry; exact Hn2'); subst n2'.
    all: rewrite (new_output_app st st2 ([line] ++ n2))
      in Hin by (rewrite Hn2, <- app_assoc; reflexivity).
    all: rewrite stdout_lines_one_line in Hin
      by (apply Forall_app; split; [|exact Hone]; constructor; [|constructor];
          apply one_line_app; [apply one_line_lit; reflexivity|exact Hline]).
    all: apply elem_of_app in Hin as [Hin|Hin];
      [apply list_elem_of_singleton in Hin; discriminate Hin|].
    all: rewrite Forall_forall in Hall2; exact (Hall2 _ Hin eq_refl).
  - intros [st2 Hsort]. apply stdout_lines_elem; [exact sorted_sentinel_one_line|].
    exact (sorted_flag_printed_after_reorder environ nzbget st st1 st2 dir name
             Hstart Hdir Hname Htrig Hsort).
Qed.

Lemma sorted_flag_follows_every_reorder_witness :
  let nzbget := files_host (file_entry "1" "movie.mkv") in
  let st := state_of [("/d", download_dir)] in
  sorted_sentinel ∈ stdout_lines (new_output st (script file_downloaded_env nzbget st).2)
  <-> exists st2,
        sort_inner_files file_downloaded_env nzbget
          (print ("[INFO] Sorting inner files for earlier file detection in " +:+ "n")
             st).2 = (Ret tt, st2).
Proof.
  intros nzbget st.
  apply (sorted_flag_follows_every_reorder file_downloaded_env nzbget st st "/d" "n").
  - vm_compute. reflexivity.
  - reflexivity.
  - reflexivity.
  - vm_compute. reflexivity.
  - apply one_line_lit. reflexivity.
Defined.

(** C9, as stated, fails: the trigger is on and the host does not
    answer.  The script ends with the exception of the query (line 240
    is outside any [try]), and the sentinel is never written. *)
Lemma sorted_flag_lost_when_host_fails :
  let st := state_of [("/d", download_dir)] in
  reorder_trigger file_downloaded_env = true /\
  script file_downloaded_env dead_host st
  = (Raise HostError,
     State (st_fs st)
       ["[INFO] Sorting inner files for earlier file detection in n"]
       [Queried (listfiles 5)]) /\
  sorted_sentinel
    ∉ stdout_lines (new_output st (script file_downloaded_env dead_host st).2).
Proof.
  intros st. split; [vm_compute; reflexivity|]. split; [vm_compute; reflexivity|].
  intros Hin. apply list_elem_of_In in Hin. vm_compute in Hin.
  destruct Hin as [Hin|[]]. discriminate Hin.
Qed.

(** The event NZB_ADDED turns the trigger on whatever the flag says: the
    listing is asked for and the volume moved again. *)
Lemma added_event_reorders_despite_flag :
  let st := state_of [("/d", download_dir)] in
  added_again_env !! "NZBPR_BANNEDFILES_SORTED" = Some "yes" /\
  reorder_trigger added_again_env = true /\
  st_rpc (script added_again_env (files_host three_volumes) st).2
  = [Queried (listfiles 5); FileMoveTop [3]].
Proof. intros st. repeat split; vm_compute; reflexivity. Qed.

(** X3: when neither a printed setting nor a file name holds a line feed,
    the line that sets NZBPR_BANNEDFILES_SORTED is written to standard
    output only by a run whose reorder trigger is on. *)
Theorem sorted_flag_only_after_trigger
    (environ : gmap string string) (nzbget : host) (st : state) :
  one_line_settings environ ->
  one_line_names (st_fs st) ->
  reorder_trigger environ = false ->
  sorted_sentinel ∉ stdout_lines (new_output st (script environ nzbget st).2).
Proof.
  intros Henv Hfs Htrig.
  rewrite (script_prints_lines environ nzbget st Henv Hfs).
  exact (sorted_flag_not_printed_without_trigger environ nzbget st Htrig).
Qed.

Lemma sorted_flag_only_after_trigger_witness :
  sorted_sentinel
    ∉ stdout_lines (new_output marker_state (script redo_env dead_host marker_state).2).
Proof.
  apply (sorted_flag_only_after_trigger redo_env dead_host marker_state).
  - apply one_line_settings_check. vm_compute. reflexivity.
  - apply one_line_names_check. vm_compute. reflexivity.
  - vm_compute. reflexivity.
Defined.

(** X8: when a download is added to the queue the script stops after the
    reorder: when neither a printed setting nor a file name holds a line
    feed, none of the three verdict lines is written to standard
    output. *)
Theorem added_event_gives_no_verdict
    (environ : gmap string string) (nzbget : host) (st : state) :
  one_line_settings environ ->
  one_line_names (st_fs st) ->
  environ !! "NZBNA_EVENT" = Some "NZB_ADDED" ->
  forall line, line ∈ [banned_sentinel; mark_bad; clear_sentinel] ->
               line ∉ stdout_lines (new_output st (script environ nzbget st).2).
Proof.
  intros Henv Hfs Hev line Hline.
  rewrite (script_prints_lines environ nzbget st Henv Hfs).
  exact (added_event_prints_no_verdict environ nzbget st Hev line Hline).
Qed.

Lemma added_event_gives_no_verdict_witness :
  Forall (fun line =>
            line ∉ stdout_lines
                     (new_output infected_state
                        (script added_env (files_host three_volumes) infected_state).2))
    [banned_sentinel; mark_bad; clear_sentinel].
Proof.
  apply Forall_forall.
  apply (added_event_gives_no_verdict added_env (files_host three_volumes)
           infected_state).
  - apply one_line_settings_check. vm_compute. reflexivity.
  - apply one_line_names_check. vm_compute. reflexivity.
  - vm_compute. reflexivity.
Defined.

(** X12: when neither a printed setting nor a file name holds a line
    feed, MARK=BAD is written to standard output only for a download
    whose directory holds, among its direct regular files, one with a
    banned extension; the line naming that file and the line that
    persists the verdict go with it. *)
Theorem mark_bad_only_for_banned_file
    (environ : gmap string string) (nzbget : host) (st : state) :
  one_line_settings environ ->
  one_line_names (st_fs st) ->
  mark_bad ∈ stdout_lines (new_output st (script environ nzbget st).2) ->
  exists dir names item,
    environ !! (Prefix environ +:+ "DIRECTORY") = Some dir /\
    fs_listdir (st_fs st) dir = Some names /\
    item ∈ names /\ fs_isfile (st_fs st) dir item = true /\
    Py.splitext_ext item ∈ bannedExtensions environ /\
    ("[NZB] NZBPR_PPSTATUS_BANNEDFILE=" +:+ item)
      ∈ stdout_lines (new_output st (script environ nzbget st).2) /\
    banned_sentinel ∈ stdout_lines (new_output st (script environ nzbget st).2).
Proof.
  intros Henv Hfs. rewrite (script_prints_lines environ nzbget st Henv Hfs).
  exact (mark_bad_printed_for_banned_file environ nzbget st).
Qed.

Lemma mark_bad_only_for_banned_file_witness :
  let environ := redo_env in
  let st := infected_state in
  exists dir names item,
    environ !! (Prefix environ +:+ "DIRECTORY") = Some dir /\
    fs_listdir (st_fs st) dir = Some names /\
    item ∈ names /\ fs_isfile (st_fs st) dir item = true /\
    Py.splitext_ext item ∈ bannedExtensions environ /\
    ("[NZB] NZBPR_PPSTATUS_BANNEDFILE=" +:+ item)
      ∈ stdout_lines (new_output st (script environ dead_host st).2) /\
    banned_sentinel ∈ stdout_lines (new_output st (script environ dead_host st).2).
Proof.
  intros environ st.
  apply (mark_bad_only_for_banned_file environ dead_host st).
  - apply one_line_settings_check. vm_compute. reflexivity.
  - apply one_line_names_check. vm_compute. reflexivity.
  - apply list_elem_of_In. vm_compute. tauto.
Defined.
